(** * Hyperliquid MCP server: the WebSocket subscription subsystem

    A shallow embedding of [src/tools/websocket_tools.py]
    ([WebSocketManager] and [WebSocketTools]) and the properties of its
    registry, router, reconnection and polling operations.

    Modelling conventions.
    - Python strings are [string]; all text is taken to be ASCII, so
      [str.lower] is the ASCII lower-casing and [sorted] on keys is the
      byte-wise lexicographic order.
    - A Python [dict] is an association list with distinct keys kept in
      insertion order ([PyDict]); assignment to a present key keeps its
      position, as in Python.
    - A coroutine is a function in the monad [M]: machine state in, a
      result ([Ok] or [Raise]) and the machine state out.  A raised
      exception keeps every mutation done before it, as in Python.
    - The outside world (the builtin [hash], whether [websockets.connect]
      and [ws.send] succeed) is a [World] of oracles indexed by call count.
    - [json.loads] is library code: an inbound frame is given by what
      [json.loads] makes of it ([Malformed] or [Parsed v]).
    - Callbacks are opaque handles.  Invoking one is recorded in the
      [dispatched] trace; an exception raised by a callback is caught at
      the call site (lines 249-255), so it never changes the control flow.
    - Calls to [logger] have no effect on the manager and are left out.
    - [datetime.now()] reads the [clock] of the environment, which does
      not advance inside one operation.
    - [reconnect] calls itself; the model recurses on a fuel argument and
      [reconnect_runs] shows that [reconnect_fuel] is always enough. *)

From Stdlib Require Import String Ascii List ZArith Lia Bool Arith DecimalString.
From Stdlib Require Import Permutation Sorted.
Import ListNotations.
Local Open Scope string_scope.
Local Open Scope list_scope.

Set Implicit Arguments.
Set Warnings "-register-all".

(* ------------------------------------------------------------------ *)
(** ** Python strings *)

Module PyStr.

(** [c.lower()] on one ASCII character. *)
Definition lower_ascii (c : ascii) : ascii :=
  let n := nat_of_ascii c in
  if (65 <=? n)%nat && (n <=? 90)%nat then ascii_of_nat (n + 32) else c.

(** [s.lower()] *)
Fixpoint lower (s : string) : string :=
  match s with
  | EmptyString => EmptyString
  | String c r => String (lower_ascii c) (lower r)
  end.

(** [s.split(sep)[0]] for a one-character separator: the text before
    the first occurrence of [sep], all of [s] when there is none. *)
Fixpoint split_head (sep : ascii) (s : string) : string :=
  match s with
  | EmptyString => EmptyString
  | String c r => if Ascii.eqb c sep then EmptyString
                  else String c (split_head sep r)
  end.

(** [str(n)] for an [int] *)
Definition str_int (z : Z) : string := NilZero.string_of_int (Z.to_int z).

End PyStr.

(* ------------------------------------------------------------------ *)
(** ** Python dictionaries with string keys *)

Module PyDict.
Section Dict.
Variable V : Type.

Definition t := list (string * V).

(** [d.get(k)] *)
Fixpoint get (k : string) (d : t) : option V :=
  match d with
  | [] => None
  | (k', v) :: r => if String.eqb k k' then Some v else get k r
  end.

(** [k in d] *)
Definition mem (k : string) (d : t) : bool :=
  match get k d with Some _ => true | None => false end.

(** [d[k] = v]: replace in place when present, append otherwise. *)
Fixpoint set (k : string) (v : V) (d : t) : t :=
  match d with
  | [] => [(k, v)]
  | (k', v') :: r =>
      if String.eqb k k' then (k', v) :: r else (k', v') :: set k v r
  end.

(** [del d[k]] for a present key (the callers test membership or have
    just assigned the key). *)
Fixpoint del (k : string) (d : t) : t :=
  match d with
  | [] => []
  | (k', v') :: r => if String.eqb k k' then r else (k', v') :: del k r
  end.

Definition keys (d : t) : list string := map fst d.

(** Number of entries stored under [k]. *)
Definition count (k : string) (d : t) : nat :=
  List.length (filter (fun kv => String.eqb k (fst kv)) d).

(** A well-formed dictionary holds each key once. *)
Definition wf (d : t) : Prop := NoDup (keys d).

End Dict.
End PyDict.

(* ------------------------------------------------------------------ *)
(** ** JSON values and [json.dumps] *)

Module Json.
Local Open Scope string_scope.

(** What [json.loads] returns and [json.dumps] accepts.  Numbers are
    integers: no operation of the subsystem looks inside a number. *)
Inductive json : Type :=
| JNull
| JBool (b : bool)
| JInt (z : Z)
| JStr (s : string)
| JArr (items : list json)
| JObj (fields : list (string * json)).

Definition dquote : ascii := ascii_of_nat 34.
Definition backslash : ascii := ascii_of_nat 92.

Definition hex_digit (n : nat) : ascii :=
  nth n ["0"; "1"; "2"; "3"; "4"; "5"; "6"; "7"; "8"; "9";
         "a"; "b"; "c"; "d"; "e"; "f"]%char "0"%char.

(** One character of a JSON string literal, [ensure_ascii=True]. *)
Definition escape_char (c : ascii) : string :=
  let n := nat_of_ascii c in
  if (n =? 34)%nat then String backslash (String dquote "")
  else if (n =? 92)%nat then String backslash (String backslash "")
  else if (n =? 10)%nat then String backslash "n"
  else if (n =? 13)%nat then String backslash "r"
  else if (n =? 9)%nat then String backslash "t"
  else if (n =? 8)%nat then String backslash "b"
  else if (n =? 12)%nat then String backslash "f"
  else if (n <? 32)%nat || (126 <? n)%nat then
    String backslash
      ("u00" ++ String (hex_digit (n / 16)) (String (hex_digit (n mod 16)) ""))
  else String c "".

Fixpoint escape (s : string) : string :=
  match s with
  | EmptyString => EmptyString
  | String c r => escape_char c ++ escape r
  end.

Definition quote (s : string) : string :=
  String dquote (escape s ++ String dquote "").

(** [sorted(items, key=first)]: a stable insertion sort on the keys. *)
Fixpoint insert_by_key (A : Type) (kv : string * A) (l : list (string * A))
  : list (string * A) :=
  match l with
  | [] => [kv]
  | kv' :: r => if String.leb (fst kv) (fst kv') then kv :: l
                else kv' :: insert_by_key kv r
  end.

Definition sort_keys (A : Type) (l : list (string * A)) : list (string * A) :=
  fold_right (@insert_by_key A) [] l.

(** [json.dumps(v, sort_keys=sortk)] with the default separators. *)
Fixpoint dumps (sortk : bool) (v : json) : string :=
  match v with
  | JNull => "null"
  | JBool true => "true"
  | JBool false => "false"
  | JInt z => PyStr.str_int z
  | JStr s => quote s
  | JArr items => "[" ++ String.concat ", " (map (dumps sortk) items) ++ "]"
  | JObj fields =>
      let rendered :=
        map (fun kv => let '(k, x) := kv in (k, dumps sortk x)) fields in
      let ordered := if sortk then sort_keys rendered else rendered in
      "{" ++ String.concat ", "
               (map (fun kv => quote (fst kv) ++ ": " ++ snd kv) ordered)
          ++ "}"
  end.

End Json.
Import Json.

(* ------------------------------------------------------------------ *)
(** ** The manager's data *)

(** A callback is an opaque handle. *)
Definition Callback := nat.

(** A reading of [datetime.now().isoformat()]. *)
Definition Timestamp := nat.

(** [{"method": m, "subscription": {...}}] *)
Record WireMessage : Type := mkWire {
  method : string;
  subscription : PyDict.t json
}.

(** One value of [self.subscriptions] (lines 182-189). *)
Record Subscription : Type := mkSub {
  sub_type : string;
  sub_params : PyDict.t json;
  sub_message : WireMessage;
  sub_callback : option Callback;
  sub_messages_received : nat;
  sub_subscribed_at : Timestamp
}.

(** One item of [self.message_queue] (lines 258-261). *)
Record QueueItem : Type := mkItem {
  item_timestamp : Timestamp;
  item_data : json
}.

(** [self.stats] (lines 58-64). *)
Record Stats : Type := mkStats {
  messages_received : nat;
  messages_sent : nat;
  reconnections : nat;
  last_message_time : option Timestamp;
  connection_start_time : option Timestamp
}.

(** The attributes of a [WebSocketManager] (lines 47-64).  [ws] is the
    handle of the open transport, numbered by the connect call that
    opened it. *)
Record Manager : Type := mkManager {
  connected : bool;
  ws : option nat;
  subscriptions : PyDict.t Subscription;
  message_handlers : PyDict.t (list Callback);
  reconnect_attempts : nat;
  max_reconnect_attempts : nat;
  base_reconnect_delay : Z;
  message_queue : list QueueItem;
  running : bool;
  stats : Stats
}.

(** What the manager did to the outside, and the clock it reads. *)
Record Env : Type := mkEnv {
  wire : list WireMessage;       (* frames accepted by [ws.send], in order *)
  send_calls : nat;              (* calls of [ws.send] so far *)
  connect_calls : nat;           (* calls of [websockets.connect] so far *)
  slept : list Z;                (* arguments of [asyncio.sleep], in order *)
  dispatched : list (string * Callback * json);
                                 (* callback invocations: id, handler, data *)
  clock : Timestamp
}.

Record State : Type := mkState {
  mgr : Manager;
  env : Env
}.

(** The outside world: the builtin [hash] on strings (fixed for one
    process), and whether the n-th [websockets.connect] / [ws.send]
    succeeds. *)
Record World : Type := mkWorld {
  py_hash : string -> Z;
  connect_ok : nat -> bool;
  send_ok : nat -> bool
}.

(** The exceptions of the subsystem.  The source raises bare [Exception]
    and [ValueError]; the constructors carry the names the error taxonomy
    gives them. *)
Inductive exn : Type :=
| NotConnectedError                    (* line 139, "WebSocket not connected" *)
| SendError                            (* [ws.send] raised; re-raised line 148 *)
| ConnectionError                      (* [websockets.connect] raised; line 89 *)
| ReconnectExhausted                   (* line 108 *)
| SubscriptionError (cause : exn)      (* line 204, "Failed to subscribe: ..." *)
| NotFoundError (sub_id : string)      (* line 209, ValueError *)
| ValidationError (data_type : string) (* line 436, ValueError *)
| JSONDecodeError                      (* [json.loads] *)
| AttributeError                       (* [.get] / [.split] on the wrong type *)
| TimeoutError.                        (* [asyncio.wait_for] *)

Inductive Result (A : Type) : Type :=
| Ok (a : A)
| Raise (e : exn).
Arguments Raise {A} e.

(** A coroutine body. *)
Definition M (A : Type) : Type := State -> Result A * State.

Definition ret (A : Type) (a : A) : M A := fun s => (Ok a, s).

Definition bind (A B : Type) (c : M A) (k : A -> M B) : M B :=
  fun s => match c s with
           | (Ok a, s') => k a s'
           | (Raise e, s') => (Raise e, s')
           end.

Definition raise (A : Type) (e : exn) : M A := fun s => (Raise e, s).
Arguments raise {A} e.

(** [try: c  except Exception as e: h e] *)
Definition try_except (A : Type) (c : M A) (h : exn -> M A) : M A :=
  fun s => match c s with
           | (Ok a, s') => (Ok a, s')
           | (Raise e, s') => h e s'
           end.

Definition gets (A : Type) (f : State -> A) : M A := fun s => (Ok (f s), s).

Definition modify (f : State -> State) : M unit := fun s => (Ok tt, f s).

Declare Scope py_scope.
Delimit Scope py_scope with py.
Notation "x <- c ;; k" := (bind c (fun x => k))
  (at level 100, c at next level, right associativity) : py_scope.
Notation "c ;; k" := (bind c (fun _ => k))
  (at level 100, right associativity) : py_scope.
Local Open Scope py_scope.

(** [for x in xs: body x], stopping at the first exception. *)
Fixpoint for_each (A : Type) (xs : list A) (body : A -> M unit) : M unit :=
  match xs with
  | [] => ret tt
  | x :: r => body x ;; for_each r body
  end.

(* ------------------------------------------------------------------ *)
(** ** Attribute assignment *)

Definition set_messages_received (n : nat) (st : Stats) : Stats :=
  mkStats n (messages_sent st) (reconnections st)
          (last_message_time st) (connection_start_time st).

Definition set_messages_sent (n : nat) (st : Stats) : Stats :=
  mkStats (messages_received st) n (reconnections st)
          (last_message_time st) (connection_start_time st).

Definition set_reconnections (n : nat) (st : Stats) : Stats :=
  mkStats (messages_received st) (messages_sent st) n
          (last_message_time st) (connection_start_time st).

Definition set_last_message_time (t : option Timestamp) (st : Stats) : Stats :=
  mkStats (messages_received st) (messages_sent st) (reconnections st)
          t (connection_start_time st).

Definition set_connection_start_time (t : option Timestamp) (st : Stats) : Stats :=
  mkStats (messages_received st) (messages_sent st) (reconnections st)
          (last_message_time st) t.

Definition set_connected (b : bool) (m : Manager) : Manager :=
  mkManager b (ws m) (subscriptions m) (message_handlers m)
            (reconnect_attempts m) (max_reconnect_attempts m)
            (base_reconnect_delay m) (message_queue m) (running m) (stats m).

Definition set_ws (h : option nat) (m : Manager) : Manager :=
  mkManager (connected m) h (subscriptions m) (message_handlers m)
            (reconnect_attempts m) (max_reconnect_attempts m)
            (base_reconnect_delay m) (message_queue m) (running m) (stats m).

Definition set_subscriptions (d : PyDict.t Subscription) (m : Manager) : Manager :=
  mkManager (connected m) (ws m) d (message_handlers m)
            (reconnect_attempts m) (max_reconnect_attempts m)
            (base_reconnect_delay m) (message_queue m) (running m) (stats m).

Definition set_message_handlers (d : PyDict.t (list Callback)) (m : Manager)
  : Manager :=
  mkManager (connected m) (ws m) (subscriptions m) d
            (reconnect_attempts m) (max_reconnect_attempts m)
            (base_reconnect_delay m) (message_queue m) (running m) (stats m).

Definition set_reconnect_attempts (n : nat) (m : Manager) : Manager :=
  mkManager (connected m) (ws m) (subscriptions m) (message_handlers m)
            n (max_reconnect_attempts m)
            (base_reconnect_delay m) (message_queue m) (running m) (stats m).

Definition set_message_queue (q : list QueueItem) (m : Manager) : Manager :=
  mkManager (connected m) (ws m) (subscriptions m) (message_handlers m)
            (reconnect_attempts m) (max_reconnect_attempts m)
            (base_reconnect_delay m) q (running m) (stats m).

Definition set_running (b : bool) (m : Manager) : Manager :=
  mkManager (connected m) (ws m) (subscriptions m) (message_handlers m)
            (reconnect_attempts m) (max_reconnect_attempts m)
            (base_reconnect_delay m) (message_queue m) b (stats m).

Definition set_stats (st : Stats) (m : Manager) : Manager :=
  mkManager (connected m) (ws m) (subscriptions m) (message_handlers m)
            (reconnect_attempts m) (max_reconnect_attempts m)
            (base_reconnect_delay m) (message_queue m) (running m) st.

Definition set_wire (l : list WireMessage) (e : Env) : Env :=
  mkEnv l (send_calls e) (connect_calls e) (slept e) (dispatched e) (clock e).

Definition set_send_calls (n : nat) (e : Env) : Env :=
  mkEnv (wire e) n (connect_calls e) (slept e) (dispatched e) (clock e).

Definition set_connect_calls (n : nat) (e : Env) : Env :=
  mkEnv (wire e) (send_calls e) n (slept e) (dispatched e) (clock e).

Definition set_slept (l : list Z) (e : Env) : Env :=
  mkEnv (wire e) (send_calls e) (connect_calls e) l (dispatched e) (clock e).

Definition set_dispatched (l : list (string * Callback * json)) (e : Env) : Env :=
  mkEnv (wire e) (send_calls e) (connect_calls e) (slept e) l (clock e).

Definition on_mgr (f : Manager -> Manager) (s : State) : State :=
  mkState (f (mgr s)) (env s).

Definition on_env (f : Env -> Env) (s : State) : State :=
  mkState (mgr s) (f (env s)).

(** [WebSocketManager.__init__] (lines 47-64), with a fresh trace. *)
Definition init (now : Timestamp) : State :=
  mkState (mkManager false None [] [] 0 5 1 [] false
                     (mkStats 0 0 0 None None))
          (mkEnv [] 0 0 [] [] now).

(* ------------------------------------------------------------------ *)
(** ** WebSocketManager *)

(** What [json.loads] makes of an inbound frame. *)
Inductive Frame : Type :=
| Malformed                (* raises [json.JSONDecodeError] *)
| Parsed (data : json).

(** [{"type": subscription_type, **params}] *)
Definition subscription_dict (subscription_type : string)
  (params : PyDict.t json) : PyDict.t json :=
  fold_left (fun d kv => PyDict.set (fst kv) (snd kv) d) params
            [("type", JStr subscription_type)].

(** [self.message_handlers[sub_id]] when present, no handler otherwise. *)
Definition handlers_of (sub_id : string) (m : Manager) : list Callback :=
  match PyDict.get sub_id (message_handlers m) with
  | Some hs => hs
  | None => []
  end.

(** [sub_data["messages_received"] += 1] *)
Definition bump (sub_data : Subscription) : Subscription :=
  mkSub (sub_type sub_data) (sub_params sub_data) (sub_message sub_data)
        (sub_callback sub_data) (S (sub_messages_received sub_data))
        (sub_subscribed_at sub_data).

(** [data.get(key, default)]; only a dict has [.get]. *)
Definition get_default (data : json) (key : string) (default : json)
  : Result json :=
  match data with
  | JObj fields => Ok (match PyDict.get key fields with
                       | Some v => v
                       | None => default
                       end)
  | _ => Raise AttributeError
  end.

(** Lines 268-279. *)
Definition _message_matches_subscription (message : json)
  (subscription : Subscription) : Result bool :=
  match get_default message "channel" (JStr "") with
  | Raise e => Raise e
  | Ok (JStr channel) =>
      let msg_type := PyStr.split_head "@" channel in
      let sub_type := sub_type subscription in
      Ok (String.eqb (PyStr.lower msg_type) (PyStr.lower sub_type))
  | Ok _ => Raise AttributeError        (* [.split] on a non-string *)
  end.

(** The loop of lines 241-255 over the live registry: each entry is
    updated in place as the loop reaches it; the third component is the
    list of callback invocations.  An exception of the match test leaves
    the loop with the entries reached so far already updated. *)
Fixpoint route (data : json) (handlers : PyDict.t (list Callback))
  (entries : PyDict.t Subscription)
  : Result unit * PyDict.t Subscription * list (string * Callback * json) :=
  match entries with
  | [] => (Ok tt, [], [])
  | (sub_id, sub_data) :: rest =>
      match _message_matches_subscription data sub_data with
      | Raise e => (Raise e, entries, [])
      | Ok false =>
          let '(r, rest', calls) := route data handlers rest in
          (r, (sub_id, sub_data) :: rest', calls)
      | Ok true =>
          let mine :=
            match PyDict.get sub_id handlers with
            | Some hs => map (fun handler => (sub_id, handler, data)) hs
            | None => []
            end in
          let '(r, rest', calls) := route data handlers rest in
          (r, (sub_id, bump sub_data) :: rest', mine ++ calls)
      end
  end.

Definition route_all (data : json) : M unit := fun s =>
  let '(r, subs, calls) :=
    route data (message_handlers (mgr s)) (subscriptions (mgr s)) in
  (r, on_env (fun e => set_dispatched (dispatched e ++ calls) e)
        (on_mgr (set_subscriptions subs) s)).

Definition json_loads (message : Frame) : M json :=
  match message with
  | Malformed => raise JSONDecodeError
  | Parsed data => ret data
  end.

Definition lift (A : Type) (r : Result A) : M A := fun s => (r, s).

(** Lines 231-266.  Both [except] clauses only log. *)
Definition _handle_message (message : Frame) : M unit :=
  try_except
    (data <- json_loads message ;;
     modify (fun s => on_mgr (fun m =>
       set_stats (set_last_message_time (Some (clock (env s)))
                   (set_messages_received (S (messages_received (stats m)))
                                          (stats m))) m) s) ;;
     channel <- lift (get_default data "channel" (JStr "")) ;;
     route_all data ;;
     modify (fun s => on_mgr (fun m =>
       set_message_queue
         (message_queue m ++ [mkItem (clock (env s)) data]) m) s))
    (fun _ => ret tt).

Section WithWorld.
Variable W : World.

(** Lines 136-148. *)
Definition _send_message (message : WireMessage) : M unit := fun s =>
  if negb (connected (mgr s))
     || match ws (mgr s) with Some _ => false | None => true end
  then (Raise NotConnectedError, s)
  else
    let n := send_calls (env s) in
    let s1 := on_env (set_send_calls (S n)) s in
    if send_ok W n then
      (Ok tt,
       on_mgr (fun m => set_stats (set_messages_sent
                                     (S (messages_sent (stats m))) (stats m)) m)
              (on_env (fun e => set_wire (wire e ++ [message]) e) s1))
    else (Raise SendError, s1).

(** Lines 123-134. *)
Definition _resubscribe_all : M unit :=
  subs <- gets (fun s => subscriptions (mgr s)) ;;
  for_each subs (fun kv =>
    try_except (_send_message (sub_message (snd kv))) (fun _ => ret tt)).

(** Lines 68-89. *)
Definition connect : M unit := fun s =>
  let n := connect_calls (env s) in
  let s1 := on_env (set_connect_calls (S n)) s in
  if connect_ok W n then
    _resubscribe_all
      (on_mgr (fun m =>
         set_stats (set_connection_start_time (Some (clock (env s))) (stats m))
           (set_reconnect_attempts 0 (set_connected true (set_ws (Some n) m))))
         s1)
  else (Raise ConnectionError, on_mgr (set_connected false) s1).

(** Lines 91-102; [ws.close()] has no effect on the manager and its
    exception is caught. *)
Definition disconnect : M unit :=
  modify (on_mgr (fun m => set_ws None (set_connected false (set_running false m)))).

(** Lines 104-121.  The source recurses; [fuel] bounds the depth of the
    recursion and [None] means the bound was hit. *)
Fixpoint reconnect (fuel : nat) (s : State) : option (Result unit * State) :=
  match fuel with
  | O => None
  | S fuel' =>
      if (max_reconnect_attempts (mgr s) <=? reconnect_attempts (mgr s))%nat
      then Some (Raise ReconnectExhausted, s)
      else
        let attempt := S (reconnect_attempts (mgr s)) in
        let delay :=
          (base_reconnect_delay (mgr s) * 2 ^ (Z.of_nat attempt - 1))%Z in
        let s1 := on_env (fun e => set_slept (slept e ++ [delay]) e)
                         (on_mgr (set_reconnect_attempts attempt) s) in
        match connect s1 with
        | (Ok _, s2) =>
            Some (Ok tt,
                  on_mgr (fun m => set_stats
                            (set_reconnections (S (reconnections (stats m)))
                                               (stats m)) m) s2)
        | (Raise _, s2) => reconnect fuel' s2
        end
  end.

(** Line 179. *)
Definition sub_id_of (subscription_type : string) (params : PyDict.t json)
  : string :=
  (subscription_type ++ "_"
     ++ PyStr.str_int (py_hash W (Json.dumps true (JObj params))))%string.

(** Lines 150-204. *)
Definition subscribe (subscription_type : string) (params : PyDict.t json)
  (callback : option Callback) : M string :=
  let subscription := subscription_dict subscription_type params in
  let message := mkWire "subscribe" subscription in
  let sub_id := sub_id_of subscription_type params in
  modify (fun s => on_mgr (fun m =>
    set_subscriptions
      (PyDict.set sub_id
         (mkSub subscription_type params message callback 0 (clock (env s)))
         (subscriptions m)) m) s) ;;
  match callback with
  | Some cb =>
      modify (on_mgr (fun m =>
        set_message_handlers
          (PyDict.set sub_id (handlers_of sub_id m ++ [cb])
                      (message_handlers m)) m))
  | None => ret tt
  end ;;
  try_except
    (_send_message message ;; ret sub_id)
    (fun e =>
       modify (on_mgr (fun m =>
         set_subscriptions (PyDict.del sub_id (subscriptions m)) m)) ;;
       raise (SubscriptionError e)).

(** Lines 206-229. *)
Definition unsubscribe (sub_id : string) : M unit :=
  subs <- gets (fun s => subscriptions (mgr s)) ;;
  match PyDict.get sub_id subs with
  | None => raise (NotFoundError sub_id)
  | Some sub_data =>
      let message :=
        mkWire "unsubscribe"
               (subscription_dict (sub_type sub_data) (sub_params sub_data)) in
      try_except
        (_send_message message ;;
         modify (on_mgr (fun m =>
           set_subscriptions (PyDict.del sub_id (subscriptions m)) m)) ;;
         modify (on_mgr (fun m =>
           if PyDict.mem sub_id (message_handlers m)
           then set_message_handlers (PyDict.del sub_id (message_handlers m)) m
           else m)))
        (fun e => raise e)
  end.

(* ------------------------------------------------------------------ *)
(** ** WebSocketTools (the facade over [self.manager]) *)

(** One item of the list built by [get_active_subscriptions]. *)
Record ActiveSubscription : Type := mkActive {
  subscription_id : string;
  subscription_type : string;
  params : PyDict.t json;
  active_connected : bool;
  active_messages_received : nat;
  subscribed_at : Timestamp
}.

(** Line 433. *)
Definition valid_types : list string := ["l2Book"; "trades"; "candle"].

(** [x in xs] on a list of strings *)
Definition str_in (x : string) (xs : list string) : bool :=
  existsb (String.eqb x) xs.

(** Lines 434-436. *)
Definition check_data_types (data_types : list string) : M unit :=
  for_each data_types (fun data_type =>
    if negb (str_in data_type valid_types)
    then raise (ValidationError data_type)
    else ret tt).

(** Lines 441-447. *)
Definition market_params (coin data_type : string) : PyDict.t json :=
  let params := [("coin", JStr coin)] in
  if String.eqb data_type "candle"
  then PyDict.set "interval" (JStr "1m") params
  else params.

(** Lines 460-464: best-effort unsubscribe of what the call created. *)
Definition rollback (subscription_ids : list string) : M unit :=
  for_each subscription_ids (fun existing_sub_id =>
    try_except (unsubscribe existing_sub_id) (fun _ => ret tt)).

(** The loop of lines 440-465, [subscription_ids] being the list built
    so far. *)
Fixpoint subscribe_each (coin : string) (callback : option Callback)
  (data_types : list string) (subscription_ids : list string)
  : M (list string) :=
  match data_types with
  | [] => ret subscription_ids
  | data_type :: rest =>
      sub_id <- try_except
                  (subscribe data_type (market_params coin data_type) callback)
                  (fun e => rollback subscription_ids ;; raise e) ;;
      subscribe_each coin callback rest (subscription_ids ++ [sub_id])
  end.

(** Lines 412-467. *)
Definition subscribe_market_data (coin : string) (data_types : list string)
  (callback : option Callback) : M (list string) :=
  check_data_types data_types ;;
  subscribe_each coin callback data_types [].

(** Lines 526-551. *)
Definition get_active_subscriptions : M (list ActiveSubscription) :=
  gets (fun s =>
    map (fun kv =>
           let '(sub_id, sub_data) := kv in
           mkActive sub_id (sub_type sub_data) (sub_params sub_data)
                    (connected (mgr s)) (sub_messages_received sub_data)
                    (sub_subscribed_at sub_data))
        (subscriptions (mgr s))).


(** Lines 352-360; the creation of the listen task is not part of the
    model. *)
Definition start : M unit := connect.



(* ------------------------------------------------------------------ *)
(** ** The operations as steps of one machine *)

Inductive Op : Type :=
| OpConnect
| OpDisconnect
| OpReconnect
| OpResubscribeAll
| OpSubscribe (subscription_type : string) (params : PyDict.t json)
              (callback : option Callback)
| OpUnsubscribe (sub_id : string)
| OpHandleMessage (message : Frame)
| OpGetActiveSubscriptions.

(** [reconnect] makes at most [max_reconnect_attempts] attempts, so this
    much fuel is never used up ([reconnect_total]). *)
Definition reconnect_fuel (s : State) : nat :=
  S (max_reconnect_attempts (mgr s) - reconnect_attempts (mgr s)).

Definition step (op : Op) (s : State) : State :=
  match op with
  | OpConnect => snd (connect s)
  | OpDisconnect => snd (disconnect s)
  | OpReconnect =>
      match reconnect (reconnect_fuel s) s with
      | Some (_, s') => s'
      | None => s
      end
  | OpResubscribeAll => snd (_resubscribe_all s)
  | OpSubscribe t p cb => snd (subscribe t p cb s)
  | OpUnsubscribe i => snd (unsubscribe i s)
  | OpHandleMessage f => snd (_handle_message f s)
  | OpGetActiveSubscriptions => snd (get_active_subscriptions s)
  end.

Definition run (ops : list Op) (s : State) : State :=
  fold_left (fun st op => step op st) ops s.

End WithWorld.

(* ------------------------------------------------------------------ *)
(** ** Derived states and predicates used in the statements *)

(** The guard of line 138 passes. *)
Definition can_send (s : State) : bool :=
  connected (mgr s) && match ws (mgr s) with Some _ => true | None => false end.

(** The next [_send_message] goes through. *)
Definition send_succeeds (W : World) (s : State) : bool :=
  can_send s && send_ok W (send_calls (env s)).

(** The state after a successful [_send_message message]. *)
Definition sent (message : WireMessage) (s : State) : State :=
  on_mgr (fun m => set_stats (set_messages_sent
                                (S (messages_sent (stats m))) (stats m)) m)
         (on_env (fun e => set_wire (wire e ++ [message])
                                    (set_send_calls (S (send_calls e)) e)) s).

(** The state after a failed [_send_message]: only a call that reached
    [ws.send] is counted. *)
Definition unsent (s : State) : State :=
  if can_send s then on_env (fun e => set_send_calls (S (send_calls e)) e) s
  else s.

(** The exception of a failed [_send_message]. *)
Definition send_error (s : State) : exn :=
  if can_send s then SendError else NotConnectedError.

(** The canonical serialisation behind the identity (line 179). *)
Definition normalized (params : PyDict.t json) : string :=
  Json.dumps true (JObj params).

(** The wire message of [subscribe] (lines 168-176). *)
Definition subscribe_message (subscription_type : string)
  (params : PyDict.t json) : WireMessage :=
  mkWire "subscribe" (subscription_dict subscription_type params).

(** The wire message of [unsubscribe] (lines 213-219). *)
Definition unsubscribe_message (sub_data : Subscription) : WireMessage :=
  mkWire "unsubscribe"
         (subscription_dict (sub_type sub_data) (sub_params sub_data)).

(** The callbacks a call adds. *)
Definition callback_list (callback : option Callback) : list Callback :=
  match callback with Some cb => [cb] | None => [] end.

(** The state after lines 182-195 of [subscribe]. *)
Definition registered (sub_id subscription_type : string)
  (params : PyDict.t json) (callback : option Callback) (s : State) : State :=
  let entry := mkSub subscription_type params
                     (subscribe_message subscription_type params)
                     callback 0 (clock (env s)) in
  on_mgr (fun m =>
    let m1 := set_subscriptions (PyDict.set sub_id entry (subscriptions m)) m in
    match callback with
    | Some cb =>
        set_message_handlers
          (PyDict.set sub_id (handlers_of sub_id m ++ [cb]) (message_handlers m))
          m1
    | None => m1
    end) s.

(** The state after line 203. *)
Definition dropped (sub_id : string) (s : State) : State :=
  on_mgr (fun m => set_subscriptions (PyDict.del sub_id (subscriptions m)) m) s.

(** The state after lines 223-225. *)
Definition removed (sub_id : string) (s : State) : State :=
  on_mgr (fun m =>
    let m1 := set_subscriptions (PyDict.del sub_id (subscriptions m)) m in
    if PyDict.mem sub_id (message_handlers m1)
    then set_message_handlers (PyDict.del sub_id (message_handlers m1)) m1
    else m1) s.

(** The channel tag the router compares (lines 239 and 276): the text
    before the first "@" of a string [channel] field, the empty string
    when a dict has no such field; a frame that is not a dict, or whose
    [channel] is not a string, has no tag. *)
Definition channel_tag (message : Frame) : option string :=
  match message with
  | Parsed (JObj fields) =>
      match PyDict.get "channel" fields with
      | None => Some EmptyString
      | Some (JStr channel) => Some (PyStr.split_head "@" channel)
      | Some _ => None
      end
  | _ => None
  end.

(** The test of line 243 succeeds on this entry. *)
Definition delivers (message : Frame) (sub_data : Subscription) : bool :=
  match message with
  | Parsed data =>
      match _message_matches_subscription data sub_data with
      | Ok true => true
      | _ => false
      end
  | Malformed => false
  end.

(** An entry after the router has passed over it. *)
Definition deliver (message : Frame) (kv : string * Subscription)
  : string * Subscription :=
  (fst kv, if delivers message (snd kv) then bump (snd kv) else snd kv).

(** The callback invocations the router makes for one entry. *)
Definition calls_for (message : Frame) (handlers : PyDict.t (list Callback))
  (kv : string * Subscription) : list (string * Callback * json) :=
  match message with
  | Parsed data =>
      if delivers message (snd kv) then
        match PyDict.get (fst kv) handlers with
        | Some hs => map (fun handler => (fst kv, handler, data)) hs
        | None => []
        end
      else []
  | Malformed => []
  end.

(** How the loop of lines 241-255 ends. *)
Definition route_result (message : Frame) (entries : PyDict.t Subscription)
  : Result unit :=
  match entries, channel_tag message with
  | _ :: _, None => Raise AttributeError
  | _, _ => Ok tt
  end.

(** The frame reaches [message_queue.put] (line 258). *)
Definition enqueues (message : Frame) (s : State) : bool :=
  match message with
  | Parsed (JObj _) =>
      match route_result message (subscriptions (mgr s)) with
      | Ok _ => true
      | Raise _ => false
      end
  | _ => false
  end.

(** The state after lines 235-236. *)
Definition counted (s : State) : State :=
  on_mgr (fun m =>
    set_stats (set_last_message_time (Some (clock (env s)))
                (set_messages_received (S (messages_received (stats m)))
                                       (stats m))) m) s.

(** The state [_handle_message] leaves. *)
Definition handled (message : Frame) (s : State) : State :=
  match message with
  | Malformed => s
  | Parsed data =>
      match data with
      | JObj _ =>
          let s2 :=
            on_env (fun e =>
                      set_dispatched
                        (dispatched e ++
                         flat_map (calls_for message (message_handlers (mgr s)))
                                  (subscriptions (mgr s))) e)
                   (on_mgr (set_subscriptions
                              (map (deliver message) (subscriptions (mgr s))))
                           (counted s)) in
          if enqueues message s
          then on_mgr (fun m =>
                 set_message_queue
                   (message_queue m ++ [mkItem (clock (env s)) data]) m) s2
          else s2
      | _ => counted s
      end
  end.

(** What [_handle_message] appends to the poll queue. *)
Definition enqueued (message : Frame) (s : State) : list QueueItem :=
  match message with
  | Parsed data =>
      if enqueues message s then [mkItem (clock (env s)) data] else []
  | Malformed => []
  end.

(** [s'] differs from [s] at most in what sending changes: the wire, the
    count of [ws.send] calls and [messages_sent]. *)
Definition only_sent (s s' : State) : Prop :=
  mgr s' = set_stats (set_messages_sent (messages_sent (stats (mgr s')))
                                        (stats (mgr s))) (mgr s) /\
  env s' = set_wire (wire (env s')) (set_send_calls (send_calls (env s')) (env s)).

(** The state in which a successful [websockets.connect] leaves the
    manager, before the registry is replayed (lines 72-80). *)
Definition opened (s : State) : State :=
  on_mgr (fun m =>
    set_stats (set_connection_start_time (Some (clock (env s))) (stats m))
      (set_reconnect_attempts 0
         (set_connected true (set_ws (Some (connect_calls (env s))) m))))
    (on_env (set_connect_calls (S (connect_calls (env s)))) s).

(** The state in which a failed [websockets.connect] leaves the manager
    (lines 86-89). *)
Definition refused (s : State) : State :=
  on_mgr (set_connected false)
         (on_env (set_connect_calls (S (connect_calls (env s)))) s).

(** The state after lines 110-114 of [reconnect]. *)
Definition backed_off (s : State) : State :=
  let attempt := S (reconnect_attempts (mgr s)) in
  on_env (fun e =>
            set_slept (slept e ++
                       [(base_reconnect_delay (mgr s)
                         * 2 ^ (Z.of_nat attempt - 1))%Z]) e)
         (on_mgr (set_reconnect_attempts attempt) s).

(** The delay before reconnection attempt [n], counted from 1. *)
Definition backoff_delay (base : Z) (n : nat) : Z :=
  (base * 2 ^ (Z.of_nat n - 1))%Z.

(** What an operation adds to the counter of an entry it does not
    replace. *)
Definition increment (op : Op) (sub_data : Subscription) : nat :=
  match op with
  | OpHandleMessage message => if delivers message sub_data then 1 else 0
  | _ => 0
  end.

(** The operation is a [subscribe] call whose identity is [sub_id]. *)
Definition registers (W : World) (op : Op) (sub_id : string) : bool :=
  match op with
  | OpSubscribe t p _ => String.eqb (sub_id_of W t p) sub_id
  | _ => false
  end.

(** The first entry of the list that line 435 rejects. *)
Definition first_invalid (data_types : list string) : option string :=
  find (fun data_type => negb (str_in data_type valid_types)) data_types.

(** The transport is open and every [ws.send] from now on goes through. *)
Definition sends_from_now (W : World) (s : State) : Prop :=
  can_send s = true /\
  forall n, (send_calls (env s) <= n)%nat -> send_ok W n = true.

(* ------------------------------------------------------------------ *)
(** ** Sample worlds and states for the concrete runs *)

(** A stand-in for the builtin [hash] on strings. *)
Definition sample_hash (s : string) : Z :=
  fold_left (fun h c => ((h * 31 + Z.of_nat (nat_of_ascii c)) mod 1000003)%Z)
            (list_ascii_of_string s) 7%Z.

(** Every connect and every send goes through. *)
Definition world_up : World :=
  mkWorld sample_hash (fun _ => true) (fun _ => true).

(** Connects go through; only the first send does. *)
Definition world_first_send_only : World :=
  mkWorld sample_hash (fun _ => true) (fun n => (n =? 0)%nat).

(** No connect ever goes through. *)
Definition world_down : World :=
  mkWorld sample_hash (fun _ => false) (fun _ => true).

(** A fresh manager after a successful [start]. *)
Definition started (W : World) : State := snd (start W (init 0)).

Definition btc : PyDict.t json := [("coin", JStr "BTC")].
Definition eth : PyDict.t json := [("coin", JStr "ETH")].

(** Connects go through; the second send fails, every other one goes
    through. *)
Definition world_second_send_fails : World :=
  mkWorld sample_hash (fun _ => true) (fun n => negb (n =? 1)%nat).

(* ------------------------------------------------------------------ *)
(** ** The rest of the manager: statistics and the listen loop *)

(** The dictionary built by [get_stats] (lines 311-322). *)
Record ConnectionStats : Type := mkConnectionStats {
  stats_connected : bool;
  stats_subscriptions : nat;
  stats_messages_received : nat;
  stats_messages_sent : nat;
  stats_reconnections : nat;
  stats_last_message_time : option Timestamp;
  stats_connection_start_time : option Timestamp;
  stats_reconnect_attempts : nat
}.

(** Lines 311-322. *)
Definition get_stats : M ConnectionStats :=
  gets (fun s =>
    mkConnectionStats (connected (mgr s))
                      (List.length (subscriptions (mgr s)))
                      (messages_received (stats (mgr s)))
                      (messages_sent (stats (mgr s)))
                      (reconnections (stats (mgr s)))
                      (last_message_time (stats (mgr s)))
                      (connection_start_time (stats (mgr s)))
                      (reconnect_attempts (mgr s))).

(** [await asyncio.sleep(d)] *)
Definition sleep (d : Z) : M unit :=
  modify (on_env (fun e => set_slept (slept e ++ [d]) e)).

(** What [asyncio.wait_for(self.ws.recv(), timeout=30.0)] does in one
    pass of the listen loop, when the pass reaches it. *)
Inductive Recv : Type :=
| RecvFrame (message : Frame)   (* a text frame; [Frame] says how it parses *)
| RecvTimeout                   (* [asyncio.TimeoutError] *)
| RecvClosed                    (* [ConnectionClosed] *)
| RecvWebSocketError            (* another [WebSocketException] *)
| RecvError.                    (* any other exception *)

Section Listen.
Variable W : World.

(** [await self.reconnect()]: the recursion of [reconnect] with the fuel
    that always suffices. *)
Definition reconnect_call : M unit := fun s =>
  match reconnect W (reconnect_fuel s) s with
  | Some rs => rs
  | None => (Raise ReconnectExhausted, s)
  end.

(** The handler of lines 306-309. *)
Definition on_other_error : M unit := fun s =>
  if running (mgr s) then sleep 1 s else (Ok tt, s).

(** The handlers of lines 296-305.  An exception of [reconnect] raised
    here is raised inside an [except] clause, so it leaves [listen]. *)
Definition on_connection_lost : M unit := fun s =>
  let s1 := on_mgr (set_connected false) s in
  if running (mgr s1) then reconnect_call s1 else (Ok tt, s1).

(** One pass of the body of the [while] loop (lines 286-309); the
    [running] flag is not changed by another task during the pass. *)
Definition listen_iteration (ev : Recv) : M unit := fun s =>
  let '(r1, s1) :=
    if connected (mgr s) then (Ok tt, s) else reconnect_call s in
  match r1 with
  | Raise _ => on_other_error s1
  | Ok _ =>
      match ws (mgr s1) with
      | None => on_other_error s1        (* [None.recv]: AttributeError *)
      | Some _ =>
          match ev with
          | RecvFrame message => _handle_message message s1
          | RecvTimeout => (Ok tt, s1)
          | RecvClosed => on_connection_lost s1
          | RecvWebSocketError => on_connection_lost s1
          | RecvError => on_other_error s1
          end
      end
  end.

(** The [while self.running] loop for as many passes as [events] gives
    outcomes of [recv] (the outcome of a pass that does not reach [recv]
    is not looked at). *)
Fixpoint listen_loop (events : list Recv) : M unit := fun s =>
  match events with
  | [] => (Ok tt, s)
  | ev :: later =>
      if running (mgr s) then
        match listen_iteration ev s with
        | (Ok _, s') => listen_loop later s'
        | (Raise e, s') => (Raise e, s')
        end
      else (Ok tt, s)
  end.

(** Lines 281-309. *)
Definition listen (events : list Recv) : M unit :=
  modify (on_mgr (set_running true)) ;; listen_loop events.

End Listen.

(* ------------------------------------------------------------------ *)
(** ** The rest of the facade and the command handlers of [server.py] *)

(** The exceptions a facade call can raise: the [ValueError] of lines
    394 and 487, or what the manager raised. *)
Inductive tool_exn : Type :=
| UserAddressRequired
| FromManager (e : exn).

Inductive Outcome (A : Type) : Type :=
| Returned (a : A)
| Failed (e : tool_exn).
Arguments Failed {A} e.

(** The outcome of a manager coroutine seen from the facade. *)
Definition from_manager (A : Type) (c : M A) : State -> Outcome A * State :=
  fun s => match c s with
           | (Ok a, s') => (Returned a, s')
           | (Raise e, s') => (Failed (FromManager e), s')
           end.

(** [self.account_address] when it is truthy: neither [None] nor the
    empty string. *)
Definition truthy_address (account_address : option string) : option string :=
  match account_address with
  | Some EmptyString => None
  | other => other
  end.

(** [{"user": self.account_address}] *)
Definition user_params (address : string) : PyDict.t json :=
  [("user", JStr address)].

Section Facade.
Variable W : World.

(** Lines 376-410. *)
Definition subscribe_user_events (account_address : option string)
  (callback : option Callback) : State -> Outcome string * State :=
  match truthy_address account_address with
  | None => fun s => (Failed UserAddressRequired, s)
  | Some address =>
      from_manager (subscribe W "userEvents" (user_params address) callback)
  end.

(** The [try] statement of lines 492-524. *)
Definition order_updates_body (address : string) (callback : option Callback)
  : M (list string) :=
  sub_id1 <- try_except
               (subscribe W "orderUpdates" (user_params address) callback)
               (fun e => rollback W [] ;; raise e) ;;
  sub_id2 <- try_except
               (subscribe W "userFills" (user_params address) callback)
               (fun e => rollback W [sub_id1] ;; raise e) ;;
  ret [sub_id1; sub_id2].

(** Lines 469-524. *)
Definition subscribe_order_updates (account_address : option string)
  (callback : option Callback) : State -> Outcome (list string) * State :=
  match truthy_address account_address with
  | None => fun s => (Failed UserAddressRequired, s)
  | Some address => from_manager (order_updates_body address callback)
  end.

(** [WebSocketTools.unsubscribe] (lines 553-564): a pass-through. *)
Definition tools_unsubscribe (subscription_id : string) : M unit :=
  unsubscribe W subscription_id.

(** [get_connection_stats] (lines 578-585). *)
Definition get_connection_stats : M ConnectionStats := get_stats.

(** What a command handler of [server.py] returns: the success payload,
    or the exception whose text goes into the ["error"] field. *)
Inductive Response (A : Type) : Type :=
| Success (payload : A)
| Failure (error : tool_exn).
Arguments Failure {A} error.

Definition respond (A : Type) (c : State -> Outcome A * State)
  : State -> Response A * State :=
  fun s => match c s with
           | (Returned a, s') => (Success a, s')
           | (Failed e, s') => (Failure e, s')
           end.

(** [if not manager.connected: await websocket_tools.start()]
    (server.py, lines 767-768, 809-810, 849-850). *)
Definition ensure_started : M unit := fun s =>
  if connected (mgr s) then (Ok tt, s) else start W s.

(** server.py, lines 750-783, with [ctx] absent. *)
Definition server_subscribe_user_events (account_address : option string)
  : State -> Response string * State :=
  respond (fun s =>
    match ensure_started s with
    | (Ok _, s1) => subscribe_user_events account_address None s1
    | (Raise e, s1) => (Failed (FromManager e), s1)
    end).

(** server.py, lines 786-828, with [ctx] absent. *)
Definition server_subscribe_market_data (coin : string)
  (data_types : list string) : State -> Response (list string) * State :=
  respond (from_manager
    (ensure_started ;; subscribe_market_data W coin data_types None)).

(** server.py, lines 831-865, with [ctx] absent. *)
Definition server_subscribe_order_updates (account_address : option string)
  : State -> Response (list string) * State :=
  respond (fun s =>
    match ensure_started s with
    | (Ok _, s1) => subscribe_order_updates account_address None s1
    | (Raise e, s1) => (Failed (FromManager e), s1)
    end).

(** The payload of the active-subscriptions command. *)
Record SubscriptionsReport : Type := mkReport {
  report_subscriptions : list ActiveSubscription;
  report_connection_stats : ConnectionStats;
  report_total_subscriptions : nat
}.

(** server.py, lines 868-898, with [ctx] absent. *)
Definition server_get_active_subscriptions
  : State -> Response SubscriptionsReport * State :=
  respond (from_manager
    (subs <- get_active_subscriptions ;;
     connection_stats <- get_connection_stats ;;
     ret (mkReport subs connection_stats (List.length subs)))).

End Facade.
Arguments Failure {A} error.

(* ------------------------------------------------------------------ *)
(** ** Predicates used in the further properties *)

(** Sorted by key, each element below all later ones. *)
Definition key_sorted (A : Type) (l : list (string * A)) : Prop :=
  StronglySorted (fun a b : string * A => String.leb (fst a) (fst b) = true) l.

(** An inbound frame that parses to a dict whose first key is
    [channel], with the string [channel] as its value. *)
Definition channel_frame (channel : string) (rest : list (string * json))
  : Frame :=
  Parsed (JObj (("channel", JStr channel) :: rest)).

(** From [s] to [s'] the count of received frames is unchanged and the
    count of sent messages has grown by the number of frames put on the
    wire. *)
Definition keeps_counts (s s' : State) : Prop :=
  messages_received (stats (mgr s')) = messages_received (stats (mgr s)) /\
  (messages_sent (stats (mgr s')) + List.length (wire (env s)) =
   messages_sent (stats (mgr s)) + List.length (wire (env s')))%nat.

(** The number of frames among [ops] that parse as JSON. *)
Definition parsed_frames (ops : list Op) : nat :=
  List.length (filter (fun op => match op with
                                 | OpHandleMessage (Parsed _) => true
                                 | _ => false
                                 end) ops).

(** The frames among the outcomes of [recv]. *)
Definition frames_of (events : list Recv) : list Frame :=
  flat_map (fun ev => match ev with RecvFrame m => [m] | _ => [] end) events.

(** Every outcome is a frame or a timeout. *)
Definition quiet (events : list Recv) : bool :=
  forallb (fun ev => match ev with
                     | RecvFrame _ | RecvTimeout => true
                     | _ => false
                     end) events.


(** The first two connects fail, every later one goes through. *)
Definition world_flaky_connect : World :=
  mkWorld sample_hash (fun n => (2 <=? n)%nat) (fun _ => true).

(** Only the first connect goes through. *)
Definition world_connect_once : World :=
  mkWorld sample_hash (fun n => (n =? 0)%nat) (fun _ => true).

(* ================================================================== *)
(** * Properties *)

Unset Implicit Arguments.

(** ** Dictionaries *)

Module PyDictFacts.
Import PyDict.
Section Facts.
Variable V : Type.
Implicit Types (d : PyDict.t V) (k : string) (v : V).

Lemma get_set_same k v d : get k (set k v d) = Some v.
Proof.
  induction d as [|[k' v'] r IH]; simpl.
  - rewrite String.eqb_refl. reflexivity.
  - destruct (String.eqb k k') eqn:E; simpl; rewrite E; auto.
Qed.

Lemma get_set_other k k' v d : k' <> k -> get k' (set k v d) = get k' d.
Proof.
  intros Hne. induction d as [|[k0 v0] r IH]; simpl.
  - apply String.eqb_neq in Hne. rewrite Hne. reflexivity.
  - destruct (String.eqb_spec k k0) as [->|Hk]; simpl.
    + apply String.eqb_neq in Hne. rewrite Hne. reflexivity.
    + destruct (String.eqb k' k0); auto.
Qed.

Lemma keys_set_in k k0 v d : In k0 (keys (set k v d)) <-> k0 = k \/ In k0 (keys d).
Proof.
  induction d as [|[k' v'] r IH]; simpl.
  - intuition.
  - destruct (String.eqb_spec k k') as [->|Hk]; simpl.
    + intuition.
    + rewrite IH. intuition.
Qed.

Lemma wf_set k v d : wf d -> wf (set k v d).
Proof.
  unfold wf. induction d as [|[k' v'] r IH]; simpl; intros H.
  - constructor; [intros []|constructor].
  - inversion H as [|? ? Hnin Hnd]; subst.
    destruct (String.eqb_spec k k') as [->|Hk]; simpl.
    + constructor; assumption.
    + constructor; [|auto].
      intros Hin. apply keys_set_in in Hin. destruct Hin as [->|Hin]; auto.
Qed.

Lemma keys_del_in k k0 d : In k0 (keys (del k d)) -> In k0 (keys d).
Proof.
  induction d as [|[k' v'] r IH]; simpl; [auto|].
  destruct (String.eqb k k'); simpl; intuition.
Qed.

Lemma wf_del k d : wf d -> wf (del k d).
Proof.
  unfold wf. induction d as [|[k' v'] r IH]; simpl; intros H; [assumption|].
  inversion H as [|? ? Hnin Hnd]; subst.
  destruct (String.eqb k k'); [assumption|]. simpl.
  constructor; [|auto]. intros Hin. apply Hnin. eapply keys_del_in; eauto.
Qed.

Lemma get_none_not_in k d : get k d = None <-> ~ In k (keys d).
Proof.
  induction d as [|[k' v'] r IH]; simpl.
  - intuition.
  - destruct (String.eqb_spec k k') as [->|Hk].
    + split; [discriminate|]. intros H. exfalso. apply H. auto.
    + rewrite IH. intuition congruence.
Qed.

Lemma get_del_same k d : wf d -> get k (del k d) = None.
Proof.
  unfold wf. induction d as [|[k' v'] r IH]; simpl; intros H; [reflexivity|].
  inversion H as [|? ? Hnin Hnd]; subst.
  destruct (String.eqb_spec k k') as [->|Hk].
  - apply get_none_not_in. assumption.
  - simpl. apply String.eqb_neq in Hk. rewrite Hk. auto.
Qed.

Lemma get_del_other k k' d : k' <> k -> get k' (del k d) = get k' d.
Proof.
  intros Hne. induction d as [|[k0 v0] r IH]; simpl; [reflexivity|].
  destruct (String.eqb_spec k k0) as [->|Hk]; simpl.
  - apply String.eqb_neq in Hne. rewrite Hne. reflexivity.
  - destruct (String.eqb k' k0); auto.
Qed.

Lemma count_le_1 k d : wf d -> (count k d <= 1)%nat.
Proof.
  unfold wf, count. induction d as [|[k' v'] r IH]; simpl; intros H; [lia|].
  inversion H as [|? ? Hnin Hnd]; subst.
  destruct (String.eqb_spec k k') as [->|Hk]; simpl; [|auto].
  assert (Hz : filter (fun kv => String.eqb k' (fst kv)) r = []).
  { clear -Hnin. induction r as [|[k0 v0] r IH]; simpl; [reflexivity|].
    simpl in Hnin. destruct (String.eqb_spec k' k0) as [->|Hk0].
    - exfalso. auto.
    - apply IH. intuition. }
  rewrite Hz. simpl. lia.
Qed.

Lemma count_get k d : wf d ->
  count k d = match get k d with Some _ => 1%nat | None => 0%nat end.
Proof.
  intros H. pose proof (count_le_1 k d H) as Hle. revert Hle.
  unfold count. clear H.
  induction d as [|[k' v'] r IH]; simpl; intros Hle; [reflexivity|].
  destruct (String.eqb k k'); simpl in *; [lia|auto].
Qed.

Lemma get_in k v d : get k d = Some v -> In (k, v) d.
Proof.
  induction d as [|[k' v'] r IH]; simpl; [discriminate|].
  destruct (String.eqb_spec k k') as [->|Hk].
  - intros [= ->]. auto.
  - auto.
Qed.

Lemma in_get k v d : wf d -> In (k, v) d -> get k d = Some v.
Proof.
  unfold wf. induction d as [|[k' v'] r IH]; simpl; intros H Hin; [contradiction|].
  inversion H as [|? ? Hnin Hnd]; subst.
  destruct Hin as [[= -> ->]|Hin].
  - rewrite String.eqb_refl. reflexivity.
  - destruct (String.eqb_spec k k') as [->|Hk]; [|auto].
    exfalso. apply Hnin. change k' with (fst (k', v)). apply in_map. assumption.
Qed.

Lemma wf_nil : wf (@nil (string * V)).
Proof. constructor. Qed.

End Facts.
End PyDictFacts.

(* ------------------------------------------------------------------ *)
(** ** Sending *)

Create HintDb py_unfold.
#[local] Hint Unfold bind ret raise try_except gets modify lift : py_unfold.

Ltac py_step := autounfold with py_unfold; simpl.

Section SendFacts.
Variable W : World.

Lemma send_message_ok message s :
  send_succeeds W s = true ->
  _send_message W message s = (Ok tt, sent message s).
Proof.
  unfold send_succeeds, can_send, _send_message, sent. intros H.
  apply andb_true_iff in H. destruct H as [H Hok].
  apply andb_true_iff in H. destruct H as [Hc Hw].
  rewrite Hc, Hok. destruct (ws (mgr s)); [reflexivity|discriminate].
Qed.

Lemma send_message_fail message s :
  send_succeeds W s = false ->
  _send_message W message s = (Raise (send_error s), unsent s).
Proof.
  unfold send_succeeds, _send_message, unsent, send_error, can_send.
  destruct (connected (mgr s)); simpl; [|reflexivity].
  destruct (ws (mgr s)); simpl; [|reflexivity].
  intros ->. reflexivity.
Qed.

Lemma send_message_cases message s :
  (send_succeeds W s = true /\
   _send_message W message s = (Ok tt, sent message s)) \/
  (send_succeeds W s = false /\
   _send_message W message s = (Raise (send_error s), unsent s)).
Proof.
  destruct (send_succeeds W s) eqn:E.
  - left. split; [reflexivity|]. apply send_message_ok. assumption.
  - right. split; [reflexivity|]. apply send_message_fail. assumption.
Qed.

Lemma mgr_unsent s : mgr (unsent s) = mgr s.
Proof. unfold unsent. destruct (can_send s); reflexivity. Qed.

Lemma wire_unsent s : wire (env (unsent s)) = wire (env s).
Proof. unfold unsent. destruct (can_send s); reflexivity. Qed.

Lemma can_send_sent message s : can_send (sent message s) = can_send s.
Proof. reflexivity. Qed.

Lemma can_send_unsent s : can_send (unsent s) = can_send s.
Proof. unfold can_send. rewrite mgr_unsent. reflexivity. Qed.

Lemma send_calls_unsent s :
  can_send s = true -> send_calls (env (unsent s)) = S (send_calls (env s)).
Proof. unfold unsent. intros ->. reflexivity. Qed.

End SendFacts.

(* ------------------------------------------------------------------ *)
(** ** Registering *)

Section SubscribeFacts.
Variable W : World.

Lemma subscribe_unfold t p cb s :
  subscribe W t p cb s =
  let sub_id := sub_id_of W t p in
  let s1 := registered sub_id t p cb s in
  match _send_message W (subscribe_message t p) s1 with
  | (Ok _, s2) => (Ok sub_id, s2)
  | (Raise e, s2) => (Raise (SubscriptionError e), dropped sub_id s2)
  end.
Proof.
  unfold subscribe.
  match goal with |- context [try_except (bind ?c _) ?h] =>
    set (body := try_except (bind c (fun _ => ret (sub_id_of W t p))) h) end.
  assert (Hbody : forall st, body st =
            match _send_message W (subscribe_message t p) st with
            | (Ok _, s2) => (Ok (sub_id_of W t p), s2)
            | (Raise e, s2) =>
                (Raise (SubscriptionError e), dropped (sub_id_of W t p) s2)
            end).
  { intros st. unfold body, try_except, bind, subscribe_message.
    destruct (_send_message W _ st) as [[[]|e] s2]; reflexivity. }
  clearbody body. destruct cb; py_step; rewrite Hbody; reflexivity.
Qed.

Lemma sub_id_normalized t p1 p2 :
  normalized p1 = normalized p2 -> sub_id_of W t p1 = sub_id_of W t p2.
Proof. unfold sub_id_of, normalized. intros ->. reflexivity. Qed.

Lemma can_send_registered i t p cb s :
  can_send (registered i t p cb s) = can_send s.
Proof. unfold registered, can_send. destruct cb; reflexivity. Qed.

Lemma send_succeeds_registered i t p cb s :
  send_succeeds W (registered i t p cb s) = send_succeeds W s.
Proof.
  unfold send_succeeds. rewrite can_send_registered.
  unfold registered. destruct cb; reflexivity.
Qed.

Lemma subscriptions_registered i t p cb s :
  subscriptions (mgr (registered i t p cb s)) =
  PyDict.set i (mkSub t p (subscribe_message t p) cb 0 (clock (env s)))
             (subscriptions (mgr s)).
Proof. unfold registered. destruct cb; reflexivity. Qed.

Lemma handlers_registered i t p cb s :
  handlers_of i (mgr (registered i t p cb s)) =
  handlers_of i (mgr s) ++ callback_list cb.
Proof.
  unfold registered, handlers_of. destruct cb; simpl.
  - rewrite PyDictFacts.get_set_same. reflexivity.
  - rewrite app_nil_r. reflexivity.
Qed.

(** What a call of [subscribe] does, by whether its send goes through. *)
Lemma subscribe_ok t p cb s :
  send_succeeds W s = true ->
  subscribe W t p cb s =
  (Ok (sub_id_of W t p),
   sent (subscribe_message t p) (registered (sub_id_of W t p) t p cb s)).
Proof.
  intros H. rewrite subscribe_unfold. simpl.
  rewrite send_message_ok by (rewrite send_succeeds_registered; exact H).
  reflexivity.
Qed.

Lemma subscribe_fail t p cb s :
  send_succeeds W s = false ->
  subscribe W t p cb s =
  (Raise (SubscriptionError (send_error s)),
   dropped (sub_id_of W t p)
           (unsent (registered (sub_id_of W t p) t p cb s))).
Proof.
  intros H. rewrite subscribe_unfold. simpl.
  rewrite send_message_fail by (rewrite send_succeeds_registered; exact H).
  unfold send_error. rewrite can_send_registered. reflexivity.
Qed.

End SubscribeFacts.

Section RegisterTwice.
Variable W : World.

(** One call of [subscribe], summarised. *)
Lemma subscribe_step t p cb s r s1 :
  subscribe W t p cb s = (r, s1) ->
  let sub_id := sub_id_of W t p in
  let entry := mkSub t p (subscribe_message t p) cb 0 (clock (env s)) in
  handlers_of sub_id (mgr s1) = handlers_of sub_id (mgr s) ++ callback_list cb /\
  ((r = Ok sub_id /\ send_succeeds W s = true /\
    subscriptions (mgr s1) = PyDict.set sub_id entry (subscriptions (mgr s)) /\
    wire (env s1) = wire (env s) ++ [subscribe_message t p])
   \/
   (r = Raise (SubscriptionError (send_error s)) /\ send_succeeds W s = false /\
    subscriptions (mgr s1) =
      PyDict.del sub_id (PyDict.set sub_id entry (subscriptions (mgr s))) /\
    wire (env s1) = wire (env s))).
Proof.
  intros H. simpl.
  destruct (send_succeeds W s) eqn:E.
  - rewrite subscribe_ok in H by exact E. injection H as <- <-.
    split.
    + change (mgr (sent ?m ?st)) with
        (set_stats (set_messages_sent (S (messages_sent (stats (mgr st))))
                                      (stats (mgr st))) (mgr st)).
      unfold handlers_of at 1. simpl message_handlers.
      apply handlers_registered.
    + left. split; [reflexivity|]. split; [reflexivity|]. split.
      * simpl. apply subscriptions_registered.
      * unfold registered. destruct cb; reflexivity.
  - rewrite subscribe_fail in H by exact E. injection H as <- <-.
    split.
    + unfold dropped, handlers_of at 1. simpl message_handlers.
      rewrite mgr_unsent. apply handlers_registered.
    + right. split; [reflexivity|]. split; [reflexivity|]. split.
      * unfold dropped. simpl. rewrite mgr_unsent.
        rewrite subscriptions_registered. reflexivity.
      * unfold dropped. simpl. rewrite wire_unsent.
        unfold registered. destruct cb; reflexivity.
Qed.

Lemma subscribe_wf t p cb s :
  PyDict.wf (subscriptions (mgr s)) ->
  PyDict.wf (subscriptions (mgr (snd (subscribe W t p cb s)))).
Proof.
  intros Hwf. destruct (subscribe W t p cb s) as [r s1] eqn:E. simpl.
  destruct (subscribe_step _ _ _ _ _ _ E) as [_ [(_ & _ & -> & _)|(_ & _ & -> & _)]].
  - apply PyDictFacts.wf_set. exact Hwf.
  - apply PyDictFacts.wf_del, PyDictFacts.wf_set. exact Hwf.
Qed.

(** C1, as amended: two [subscribe] calls whose parameters have the same
    canonical serialisation compute the same subscription id; the
    registry holds at most one entry under that id after each call
    (exactly one when both calls return); every call that returns has
    sent its own wire subscribe message, so the pair sends two; and the
    callbacks of both calls are appended to the handler list of the id. *)
Theorem subscribe_same_identity t p1 p2 cb1 cb2 s :
  PyDict.wf (subscriptions (mgr s)) ->
  normalized p1 = normalized p2 ->
  let sub_id := sub_id_of W t p1 in
  let '(r1, s1) := subscribe W t p1 cb1 s in
  let '(r2, s2) := subscribe W t p2 cb2 s1 in
  (forall i1 i2, r1 = Ok i1 -> r2 = Ok i2 -> i1 = sub_id /\ i2 = sub_id) /\
  (PyDict.count sub_id (subscriptions (mgr s1)) <= 1)%nat /\
  (PyDict.count sub_id (subscriptions (mgr s2)) <= 1)%nat /\
  (forall i1 i2, r1 = Ok i1 -> r2 = Ok i2 ->
     PyDict.count sub_id (subscriptions (mgr s2)) = 1%nat /\
     wire (env s2) =
       wire (env s) ++ [subscribe_message t p1; subscribe_message t p2]) /\
  handlers_of sub_id (mgr s2) =
    handlers_of sub_id (mgr s) ++ callback_list cb1 ++ callback_list cb2.
Proof.
  intros Hwf Hnorm. simpl.
  pose proof (sub_id_normalized W t p1 p2 Hnorm) as Hid.
  destruct (subscribe W t p1 cb1 s) as [r1 s1] eqn:E1.
  destruct (subscribe W t p2 cb2 s1) as [r2 s2] eqn:E2.
  pose proof (subscribe_wf t p1 cb1 s Hwf) as Hwf1. rewrite E1 in Hwf1.
  pose proof (subscribe_wf t p2 cb2 s1 Hwf1) as Hwf2. rewrite E2 in Hwf2.
  simpl in Hwf1, Hwf2.
  destruct (subscribe_step _ _ _ _ _ _ E1) as [Hh1 C1].
  destruct (subscribe_step _ _ _ _ _ _ E2) as [Hh2 C2].
  rewrite <- Hid in Hh2, C2.
  repeat split.
  - destruct C1 as [(-> & _)|(-> & _)]; congruence.
  - destruct C2 as [(-> & _)|(-> & _)]; congruence.
  - apply PyDictFacts.count_le_1. exact Hwf1.
  - apply PyDictFacts.count_le_1. exact Hwf2.
  - destruct C2 as [(_ & _ & Hs & _)|(-> & _)]; [|discriminate].
    rewrite PyDictFacts.count_get by exact Hwf2.
    rewrite Hs, PyDictFacts.get_set_same. reflexivity.
  - destruct C1 as [(_ & _ & _ & Hw1)|(-> & _)]; [|discriminate].
    destruct C2 as [(_ & _ & _ & Hw2)|(-> & _)]; [|discriminate].
    rewrite Hw2, Hw1, <- app_assoc. reflexivity.
  - rewrite Hh2, Hh1, <- app_assoc. reflexivity.
Qed.

End RegisterTwice.

(** C1 as stated fails: on an open connection two identical [subscribe]
    calls return the same id and put two subscribe messages on the wire. *)
Lemma subscribe_twice_sends_twice :
  let s := started world_up in
  let '(r1, s1) := subscribe world_up "trades" btc None s in
  let '(r2, s2) := subscribe world_up "trades" btc (Some 1) s1 in
  r1 = r2 /\
  PyDict.count (sub_id_of world_up "trades" btc) (subscriptions (mgr s2)) = 1%nat /\
  wire (env s) = [] /\
  wire (env s2) = [subscribe_message "trades" btc; subscribe_message "trades" btc] /\
  List.length (wire (env s2)) <> 1%nat.
Proof. vm_compute. repeat split; discriminate. Qed.

(** The hypotheses of [subscribe_same_identity] hold for two candle
    subscriptions whose parameters differ only in key order. *)
Lemma subscribe_same_identity_witness :
  let s := started world_up in
  let p1 := [("coin", JStr "BTC"); ("interval", JStr "1m")] in
  let p2 := [("interval", JStr "1m"); ("coin", JStr "BTC")] in
  PyDict.wf (subscriptions (mgr s)) /\
  normalized p1 = normalized p2 /\
  handlers_of (sub_id_of world_up "candle" p1)
    (mgr (snd (subscribe world_up "candle" p2 (Some 2)
                 (snd (subscribe world_up "candle" p1 (Some 1) s))))) = [1; 2]%nat.
Proof.
  intros s p1 p2.
  assert (Hwf : PyDict.wf (subscriptions (mgr s))) by constructor.
  assert (Hn : normalized p1 = normalized p2) by reflexivity.
  split; [exact Hwf|]. split; [exact Hn|].
  pose proof (subscribe_same_identity world_up "candle" p1 p2 (Some 1) (Some 2) s
                Hwf Hn) as H.
  cbv zeta in H.
  destruct (subscribe world_up "candle" p1 (Some 1) s) as [r1 s1]. cbn [snd].
  destruct (subscribe world_up "candle" p2 (Some 2) s1) as [r2 s2]. cbn [snd].
  destruct H as (_ & _ & _ & _ & H). rewrite H. reflexivity.
Defined.

(* ------------------------------------------------------------------ *)
(** ** A failed registration *)

(** What [subscribe] leaves behind when its send fails: the entry is
    deleted, the callback of the call stays in [message_handlers]. *)
Lemma subscribe_failure_state W t p cb s :
  PyDict.wf (subscriptions (mgr s)) ->
  send_succeeds W s = false ->
  let sub_id := sub_id_of W t p in
  let '(r, s') := subscribe W t p cb s in
  r = Raise (SubscriptionError (send_error s)) /\
  PyDict.get sub_id (subscriptions (mgr s')) = None /\
  handlers_of sub_id (mgr s') = handlers_of sub_id (mgr s) ++ callback_list cb.
Proof.
  intros Hwf Hs. simpl.
  destruct (subscribe W t p cb s) as [r s'] eqn:E.
  destruct (subscribe_step W _ _ _ _ _ _ E) as [Hh [(_ & Hs' & _)|(-> & _ & Hsub & _)]].
  - congruence.
  - split; [reflexivity|]. split; [|exact Hh].
    rewrite Hsub. apply PyDictFacts.get_del_same, PyDictFacts.wf_set. exact Hwf.
Qed.

(** C2 at the failing input: [subscribe("trades", {"coin": "BTC"}, cb)]
    with callback handle 7 on a manager that was never connected raises
    the subscription error and deletes the entry, and the handle 7 is
    still in [message_handlers] under the id of the call. *)
Theorem subscribe_failure_keeps_callback :
  let sub_id := sub_id_of world_up "trades" btc in
  let '(r, s') := subscribe world_up "trades" btc (Some 7%nat) (init 0) in
  r = Raise (SubscriptionError NotConnectedError) /\
  subscriptions (mgr s') = [] /\
  message_handlers (mgr (init 0)) = [] /\
  message_handlers (mgr s') = [(sub_id, [7%nat])].
Proof. vm_compute. repeat split. Qed.

(* ------------------------------------------------------------------ *)
(** ** Deregistering *)

Section UnsubscribeFacts.
Variable W : World.

Lemma unsubscribe_unknown sub_id s :
  PyDict.get sub_id (subscriptions (mgr s)) = None ->
  unsubscribe W sub_id s = (Raise (NotFoundError sub_id), s).
Proof. intros H. unfold unsubscribe. py_step. rewrite H. reflexivity. Qed.

Lemma unsubscribe_ok sub_id sub_data s :
  PyDict.get sub_id (subscriptions (mgr s)) = Some sub_data ->
  send_succeeds W s = true ->
  unsubscribe W sub_id s =
  (Ok tt, removed sub_id (sent (unsubscribe_message sub_data) s)).
Proof.
  intros H Hs. unfold unsubscribe. py_step. rewrite H.
  fold (unsubscribe_message sub_data).
  rewrite (send_message_ok W _ _ Hs). reflexivity.
Qed.

Lemma unsubscribe_fail sub_id sub_data s :
  PyDict.get sub_id (subscriptions (mgr s)) = Some sub_data ->
  send_succeeds W s = false ->
  unsubscribe W sub_id s = (Raise (send_error s), unsent s).
Proof.
  intros H Hs. unfold unsubscribe. py_step. rewrite H.
  fold (unsubscribe_message sub_data).
  rewrite (send_message_fail W _ _ Hs). reflexivity.
Qed.

Lemma subscriptions_removed sub_id s :
  subscriptions (mgr (removed sub_id s)) =
  PyDict.del sub_id (subscriptions (mgr s)).
Proof.
  unfold removed. simpl.
  destruct (PyDict.mem sub_id (message_handlers (mgr s))); reflexivity.
Qed.

Lemma handlers_removed sub_id s :
  PyDict.wf (message_handlers (mgr s)) ->
  PyDict.get sub_id (message_handlers (mgr (removed sub_id s))) = None.
Proof.
  intros Hwf. unfold removed. simpl. unfold PyDict.mem.
  destruct (PyDict.get sub_id (message_handlers (mgr s))) eqn:E; simpl.
  - apply PyDictFacts.get_del_same. exact Hwf.
  - exact E.
Qed.

(** C3, as amended: [unsubscribe] of an unknown id raises the not-found
    error and changes nothing; for a known id whose unsubscribe message
    is sent, the entry and the callbacks of the id are removed; for a
    known id whose send fails, the send error is raised to the caller and
    the entry and its callbacks stay as they were. *)
Theorem unsubscribe_spec sub_id s :
  PyDict.wf (subscriptions (mgr s)) ->
  PyDict.wf (message_handlers (mgr s)) ->
  let '(r, s') := unsubscribe W sub_id s in
  match PyDict.get sub_id (subscriptions (mgr s)) with
  | None => r = Raise (NotFoundError sub_id) /\ s' = s
  | Some sub_data =>
      if send_succeeds W s then
        r = Ok tt /\
        PyDict.get sub_id (subscriptions (mgr s')) = None /\
        PyDict.get sub_id (message_handlers (mgr s')) = None /\
        wire (env s') = wire (env s) ++ [unsubscribe_message sub_data]
      else
        r = Raise (send_error s) /\
        subscriptions (mgr s') = subscriptions (mgr s) /\
        message_handlers (mgr s') = message_handlers (mgr s) /\
        wire (env s') = wire (env s)
  end.
Proof.
  intros Hsubs Hhandlers.
  destruct (PyDict.get sub_id (subscriptions (mgr s))) as [sub_data|] eqn:Hget.
  - destruct (send_succeeds W s) eqn:Hs.
    + rewrite (unsubscribe_ok _ _ _ Hget Hs).
      split; [reflexivity|]. split; [|split].
      * rewrite subscriptions_removed. simpl.
        apply PyDictFacts.get_del_same. exact Hsubs.
      * apply handlers_removed. exact Hhandlers.
      * unfold removed. simpl. reflexivity.
    + rewrite (unsubscribe_fail _ _ _ Hget Hs).
      rewrite mgr_unsent, wire_unsent. repeat split.
  - rewrite (unsubscribe_unknown _ _ Hget). split; reflexivity.
Qed.

End UnsubscribeFacts.

(** C3 as stated fails: with a registered id and a send that fails,
    [unsubscribe] raises and the entry and its callback are still there. *)
Lemma unsubscribe_send_failure_keeps_entry :
  let W := world_first_send_only in
  let s := snd (subscribe W "trades" btc (Some 1%nat) (started W)) in
  let sub_id := sub_id_of W "trades" btc in
  let '(r, s') := unsubscribe W sub_id s in
  PyDict.mem sub_id (subscriptions (mgr s)) = true /\
  r = Raise SendError /\
  PyDict.mem sub_id (subscriptions (mgr s')) = true /\
  handlers_of sub_id (mgr s') = [1%nat].
Proof. vm_compute. repeat split. Qed.

(** The hypotheses of [unsubscribe_spec] hold after one successful
    [subscribe]; the entry is then removed. *)
Lemma unsubscribe_spec_witness :
  let W := world_up in
  let s := snd (subscribe W "trades" btc (Some 1%nat) (started W)) in
  let sub_id := sub_id_of W "trades" btc in
  PyDict.wf (subscriptions (mgr s)) /\
  PyDict.wf (message_handlers (mgr s)) /\
  PyDict.get sub_id (subscriptions (mgr (snd (unsubscribe W sub_id s)))) = None.
Proof.
  intros W s sub_id.
  assert (H1 : PyDict.wf (subscriptions (mgr s))).
  { vm_compute. repeat constructor. intros []. }
  assert (H2 : PyDict.wf (message_handlers (mgr s))).
  { vm_compute. repeat constructor. intros []. }
  split; [exact H1|]. split; [exact H2|].
  pose proof (unsubscribe_spec W sub_id s H1 H2) as H.
  destruct (unsubscribe W sub_id s) as [r s']. cbn [snd].
  assert (Hg : PyDict.get sub_id (subscriptions (mgr s)) =
               Some (mkSub "trades" btc (subscribe_message "trades" btc)
                           (Some 1%nat) 0 0)) by reflexivity.
  assert (Hs : send_succeeds W s = true) by reflexivity.
  rewrite Hg, Hs in H. exact (proj1 (proj2 H)).
Defined.

(* ------------------------------------------------------------------ *)
(** ** Routing *)

Section RouteFacts.

Lemma matches_tag data sub_data :
  _message_matches_subscription data sub_data =
  match channel_tag (Parsed data) with
  | Some tag =>
      Ok (String.eqb (PyStr.lower tag) (PyStr.lower (sub_type sub_data)))
  | None => Raise AttributeError
  end.
Proof.
  unfold _message_matches_subscription, channel_tag, get_default.
  destruct data as [| | | |items|fields]; try reflexivity.
  destruct (PyDict.get "channel" fields) as [[| | |c| |]|]; reflexivity.
Qed.

Lemma delivers_tag message sub_data :
  delivers message sub_data =
  match channel_tag message with
  | Some tag => String.eqb (PyStr.lower tag) (PyStr.lower (sub_type sub_data))
  | None => false
  end.
Proof.
  destruct message as [|data]; [reflexivity|].
  unfold delivers. rewrite matches_tag.
  destruct (channel_tag (Parsed data)); [|reflexivity].
  destruct (String.eqb _ _); reflexivity.
Qed.

Lemma deliver_no_tag message entries :
  channel_tag message = None -> map (deliver message) entries = entries.
Proof.
  intros H. induction entries as [|[sub_id sub_data] rest IH]; simpl.
  - reflexivity.
  - rewrite IH. unfold deliver. rewrite delivers_tag, H. reflexivity.
Qed.

Lemma calls_no_tag message handlers entries :
  channel_tag message = None ->
  flat_map (calls_for message handlers) entries = [].
Proof.
  intros H. induction entries as [|[sub_id sub_data] rest IH]; simpl.
  - reflexivity.
  - rewrite IH, app_nil_r. unfold calls_for.
    destruct message; [reflexivity|]. rewrite delivers_tag, H. reflexivity.
Qed.

(** The router loop in closed form. *)
Lemma route_spec data handlers entries :
  route data handlers entries =
  (route_result (Parsed data) entries,
   map (deliver (Parsed data)) entries,
   flat_map (calls_for (Parsed data) handlers) entries).
Proof.
  induction entries as [|[sub_id sub_data] rest IH].
  - reflexivity.
  - cbn [route]. destruct (channel_tag (Parsed data)) as [tag|] eqn:Htag.
    + rewrite IH.
      assert (Hrest : route_result (Parsed data) rest = Ok tt).
      { unfold route_result. rewrite Htag. destruct rest; reflexivity. }
      assert (Hall : route_result (Parsed data) ((sub_id, sub_data) :: rest)
                     = Ok tt).
      { unfold route_result. rewrite Htag. reflexivity. }
      rewrite Hrest, Hall. cbn [map flat_map].
      assert (Hd : forall b, _message_matches_subscription data sub_data = Ok b ->
                deliver (Parsed data) (sub_id, sub_data) =
                  (sub_id, if b then bump sub_data else sub_data) /\
                calls_for (Parsed data) handlers (sub_id, sub_data) =
                  if b then
                    match PyDict.get sub_id handlers with
                    | Some hs => map (fun handler => (sub_id, handler, data)) hs
                    | None => []
                    end
                  else []).
      { intros b Hb. unfold deliver, calls_for, delivers. cbn [fst snd].
        rewrite Hb. destruct b; split; reflexivity. }
      destruct (_message_matches_subscription data sub_data)
        as [b|e] eqn:Hm.
      * destruct (Hd b eq_refl) as [-> ->]. destruct b; reflexivity.
      * rewrite matches_tag, Htag in Hm. discriminate.
    + rewrite matches_tag, Htag.
      rewrite deliver_no_tag by exact Htag.
      rewrite calls_no_tag by exact Htag.
      unfold route_result. rewrite Htag. reflexivity.
Qed.

End RouteFacts.

(* ------------------------------------------------------------------ *)
(** ** Handling an inbound frame *)

Section HandleFacts.

Lemma handle_message_eq message s :
  _handle_message message s = (Ok tt, handled message s).
Proof.
  destruct message as [|data]; [reflexivity|].
  destruct data as [| | | |items|fields]; try reflexivity.
  unfold _handle_message, handled, enqueues. py_step.
  unfold route_all. cbn [mgr on_mgr counted subscriptions message_handlers
                          set_stats].
  rewrite route_spec.
  destruct (route_result (Parsed (JObj fields)) (subscriptions (mgr s)));
    reflexivity.
Qed.

Lemma tag_of_non_dict data :
  match data with JObj _ => False | _ => True end ->
  channel_tag (Parsed data) = None.
Proof. destruct data; simpl; intros H; try reflexivity; contradiction. Qed.

Lemma subscriptions_handled message s :
  subscriptions (mgr (handled message s)) =
  map (deliver message) (subscriptions (mgr s)).
Proof.
  destruct message as [|data].
  - symmetry. apply deliver_no_tag. reflexivity.
  - destruct data as [| | | |items|fields];
      try (symmetry; apply deliver_no_tag; reflexivity).
    unfold handled. destruct (enqueues _ s); reflexivity.
Qed.

Lemma handlers_handled message s :
  message_handlers (mgr (handled message s)) = message_handlers (mgr s).
Proof.
  destruct message as [|data]; [reflexivity|].
  destruct data; try reflexivity.
  unfold handled. destruct (enqueues _ s); reflexivity.
Qed.


Lemma queue_handled message s :
  message_queue (mgr (handled message s)) =
  message_queue (mgr s) ++ enqueued message s.
Proof.
  destruct message as [|data]; [symmetry; apply app_nil_r|].
  destruct data as [| | | |items|fields];
    try (symmetry; apply app_nil_r).
  unfold handled, enqueued. destruct (enqueues _ s); simpl.
  - reflexivity.
  - symmetry; apply app_nil_r.
Qed.

Lemma received_handled data s :
  messages_received (stats (mgr (handled (Parsed data) s))) =
  S (messages_received (stats (mgr s))).
Proof.
  destruct data; try reflexivity.
  unfold handled. destruct (enqueues _ s); reflexivity.
Qed.

Lemma keys_deliver message entries :
  PyDict.keys (map (deliver message) entries) = PyDict.keys entries.
Proof.
  unfold PyDict.keys. rewrite map_map. apply map_ext. intros [k v]. reflexivity.
Qed.

Lemma get_deliver message sub_id entries :
  PyDict.get sub_id (map (deliver message) entries) =
  match PyDict.get sub_id entries with
  | Some sub_data =>
      Some (if delivers message sub_data then bump sub_data else sub_data)
  | None => None
  end.
Proof.
  induction entries as [|[k v] rest IH]; simpl; [reflexivity|].
  destruct (String.eqb sub_id k); [reflexivity|exact IH].
Qed.

End HandleFacts.



(** C9, as amended: [_handle_message] never raises; it appends the frame
    to the poll queue, once, exactly when the frame parses to a JSON
    object and the router loop runs to its end, which it does when the
    registry is empty or the frame has a channel tag, whether or not any
    entry matches.  A frame that is not valid JSON changes nothing.  A
    frame that parses adds one to [messages_received] even when it is
    not enqueued. *)
Theorem handle_message_enqueue message s :
  let '(r, s') := _handle_message message s in
  r = Ok tt /\
  message_queue (mgr s') = message_queue (mgr s) ++ enqueued message s /\
  (enqueues message s = true <->
   exists fields, message = Parsed (JObj fields) /\
     (subscriptions (mgr s) = [] \/ channel_tag message <> None)) /\
  match message with
  | Malformed => s' = s
  | Parsed _ =>
      messages_received (stats (mgr s')) = S (messages_received (stats (mgr s)))
  end.
Proof.
  rewrite handle_message_eq.
  split; [reflexivity|]. split; [apply queue_handled|]. split.
  - destruct message as [|data].
    + split; [discriminate|]. intros (fields & H & _). discriminate.
    + destruct data as [| | | |items|fields];
        try (split; [discriminate|]; intros (fields' & H & _); discriminate).
      unfold enqueues, route_result.
      destruct (subscriptions (mgr s)) as [|kv rest].
      * split; [|reflexivity]. intros _. exists fields. split; [reflexivity|].
        left. reflexivity.
      * destruct (channel_tag (Parsed (JObj fields))) as [tag|].
        -- split; [|reflexivity]. intros _. exists fields.
           split; [reflexivity|]. right. discriminate.
        -- split; [discriminate|]. intros (fields' & _ & [H|H]).
           ++ discriminate.
           ++ exfalso. apply H. reflexivity.
  - destruct message as [|data]; [reflexivity|]. apply received_handled.
Qed.

(** C9 as stated fails: the frame [[]] parses as JSON, is counted in
    [messages_received] and is not put on the poll queue. *)
Lemma json_array_frame_not_enqueued :
  let '(r, s') := _handle_message (Parsed (JArr [])) (init 0) in
  r = Ok tt /\
  message_queue (mgr s') = [] /\
  messages_received (stats (mgr s')) = 1%nat.
Proof. vm_compute. repeat split. Qed.

(** A JSON object is enqueued by a manager with an empty registry. *)
Lemma handle_message_enqueue_witness :
  let frame := Parsed (JObj [("channel", JStr "pong")]) in
  let s := init 0 in
  (exists fields, frame = Parsed (JObj fields) /\
     (subscriptions (mgr s) = [] \/ channel_tag frame <> None)) /\
  enqueues frame s = true /\
  message_queue (mgr (snd (_handle_message frame s))) =
    [mkItem 0 (JObj [("channel", JStr "pong")])].
Proof.
  intros frame s.
  assert (Hobj : exists fields, frame = Parsed (JObj fields) /\
            (subscriptions (mgr s) = [] \/ channel_tag frame <> None)).
  { exists [("channel", JStr "pong")]. split; [reflexivity|].
    left. reflexivity. }
  split; [exact Hobj|].
  pose proof (handle_message_enqueue frame s) as H.
  destruct (_handle_message frame s) as [r s'].
  destruct H as (_ & Hq & Hiff & _).
  pose proof (proj2 Hiff Hobj) as Henq.
  split; [exact Henq|].
  cbn [snd]. rewrite Hq. unfold enqueued. fold frame. rewrite Henq. reflexivity.
Defined.

(* ------------------------------------------------------------------ *)
(** ** Connecting *)

Section ConnectFacts.
Variable W : World.

Lemma only_sent_refl s : only_sent s s.
Proof. destruct s as [[? ? ? ? ? ? ? ? ? []] []]. split; reflexivity. Qed.

Lemma only_sent_trans s1 s2 s3 :
  only_sent s1 s2 -> only_sent s2 s3 -> only_sent s1 s3.
Proof.
  intros [Hm He] [Hm' He']. split.
  - rewrite Hm'. rewrite Hm. reflexivity.
  - rewrite He'. rewrite He. reflexivity.
Qed.

Lemma only_sent_sent message s : only_sent s (sent message s).
Proof. destruct s as [[? ? ? ? ? ? ? ? ? []] []]. split; reflexivity. Qed.

Lemma only_sent_unsent s : only_sent s (unsent s).
Proof.
  unfold unsent. destruct (can_send s); [|apply only_sent_refl].
  destruct s as [[? ? ? ? ? ? ? ? ? []] []]. split; reflexivity.
Qed.

Lemma send_message_only_sent message s :
  only_sent s (snd (_send_message W message s)).
Proof.
  destruct (send_message_cases W message s) as [[_ ->]|[_ ->]]; simpl.
  - apply only_sent_sent.
  - apply only_sent_unsent.
Qed.

(** The replay loop of [_resubscribe_all] swallows every send error. *)
Lemma resubscribe_loop entries s :
  exists s',
    for_each entries (fun kv : string * Subscription =>
      try_except (_send_message W (sub_message (snd kv))) (fun _ => ret tt)) s
    = (Ok tt, s') /\ only_sent s s'.
Proof.
  set (body := fun kv : string * Subscription =>
    try_except (_send_message W (sub_message (snd kv))) (fun _ => ret tt)).
  revert s. induction entries as [|kv rest IH]; intros s.
  - exists s. split; [reflexivity|apply only_sent_refl].
  - cbn [for_each]. unfold bind. unfold body at 1. unfold try_except.
    pose proof (send_message_only_sent (sub_message (snd kv)) s) as Hs.
    destruct (_send_message W (sub_message (snd kv)) s) as [[[]|e] s1];
      simpl in Hs; unfold ret; cbv beta iota;
      destruct (IH s1) as (s' & -> & Hs'); exists s';
      (split; [reflexivity|eapply only_sent_trans; eassumption]).
Qed.

Lemma resubscribe_all_spec s :
  exists s', _resubscribe_all W s = (Ok tt, s') /\ only_sent s s'.
Proof. unfold _resubscribe_all. py_step. apply resubscribe_loop. Qed.

Lemma connect_ok_spec s :
  connect_ok W (connect_calls (env s)) = true ->
  exists s', connect W s = (Ok tt, s') /\ only_sent (opened s) s'.
Proof.
  intros H. unfold connect. rewrite H. apply resubscribe_all_spec.
Qed.

Lemma connect_fail_spec s :
  connect_ok W (connect_calls (env s)) = false ->
  connect W s = (Raise ConnectionError, refused s).
Proof. intros H. unfold connect. rewrite H. reflexivity. Qed.

Lemma subscriptions_only_sent s s' :
  only_sent s s' -> subscriptions (mgr s') = subscriptions (mgr s).
Proof. intros [-> _]. reflexivity. Qed.

Lemma connect_subscriptions s :
  subscriptions (mgr (snd (connect W s))) = subscriptions (mgr s).
Proof.
  destruct (connect_ok W (connect_calls (env s))) eqn:E.
  - destruct (connect_ok_spec s E) as (s' & -> & Hs).
    simpl. rewrite (subscriptions_only_sent _ _ Hs). reflexivity.
  - rewrite (connect_fail_spec s E). reflexivity.
Qed.

Lemma reconnect_subscriptions fuel s r s' :
  reconnect W fuel s = Some (r, s') ->
  subscriptions (mgr s') = subscriptions (mgr s).
Proof.
  revert s. induction fuel as [|fuel IH]; intros s; [discriminate|].
  cbn [reconnect].
  destruct (max_reconnect_attempts (mgr s) <=? reconnect_attempts (mgr s))%nat.
  - intros [= _ <-]. reflexivity.
  - fold (backed_off s).
    pose proof (connect_subscriptions (backed_off s)) as Hc.
    destruct (connect W (backed_off s)) as [[[]|e] s2]; simpl in Hc.
    + intros [= _ <-]. simpl. exact Hc.
    + intros H. rewrite (IH _ H). exact Hc.
Qed.

End ConnectFacts.

(* ------------------------------------------------------------------ *)
(** ** Reconnecting *)

Section ReconnectFacts.
Variable W : World.

Lemma slept_only_sent s s' : only_sent s s' -> slept (env s') = slept (env s).
Proof. intros [_ ->]. reflexivity. Qed.

Lemma connect_calls_only_sent s s' :
  only_sent s s' -> connect_calls (env s') = connect_calls (env s).
Proof. intros [_ ->]. reflexivity. Qed.

Lemma reconnect_exhausted_now fuel s :
  (max_reconnect_attempts (mgr s) <= reconnect_attempts (mgr s))%nat ->
  reconnect W (S fuel) s = Some (Raise ReconnectExhausted, s).
Proof.
  intros H. cbn [reconnect].
  apply Nat.leb_le in H. rewrite H. reflexivity.
Qed.

(** With the fuel of [reconnect_fuel], [reconnect] always returns, after
    at most [max - attempts] attempts whose delays follow the backoff
    formula. *)
Lemma reconnect_runs fuel : forall s,
  (max_reconnect_attempts (mgr s) - reconnect_attempts (mgr s) < fuel)%nat ->
  exists r s' j,
    reconnect W fuel s = Some (r, s') /\
    (j <= max_reconnect_attempts (mgr s) - reconnect_attempts (mgr s))%nat /\
    slept (env s') =
      slept (env s) ++
      map (backoff_delay (base_reconnect_delay (mgr s)))
          (seq (S (reconnect_attempts (mgr s))) j) /\
    connect_calls (env s') = (connect_calls (env s) + j)%nat.
Proof.
  induction fuel as [|fuel IH]; intros s Hfuel; [lia|].
  cbn [reconnect].
  destruct (Nat.leb_spec (max_reconnect_attempts (mgr s))
                         (reconnect_attempts (mgr s))) as [Hle|Hlt].
  - exists (Raise ReconnectExhausted), s, 0%nat.
    split; [reflexivity|]. split; [lia|]. split.
    + simpl. rewrite app_nil_r. reflexivity.
    + lia.
  - fold (backed_off s).
    destruct (connect_ok W (connect_calls (env (backed_off s)))) eqn:Hc.
    + destruct (connect_ok_spec W (backed_off s) Hc) as (s2 & -> & Hs).
      eexists (Ok tt), _, 1%nat.
      split; [reflexivity|]. split; [lia|]. split.
      * simpl. rewrite (slept_only_sent _ _ Hs). reflexivity.
      * simpl. rewrite (connect_calls_only_sent _ _ Hs). simpl. lia.
    + rewrite (connect_fail_spec W (backed_off s) Hc).
      destruct (IH (refused (backed_off s))) as (r & s' & j & -> & Hj & Hsl & Hcc).
      { simpl. lia. }
      simpl in Hj, Hsl, Hcc.
      exists r, s', (S j). split; [reflexivity|]. split; [lia|]. split.
      * rewrite Hsl, <- app_assoc. reflexivity.
      * rewrite Hcc. lia.
Qed.

(** When every attempt fails, [reconnect] makes [max - attempts] of them
    and raises. *)
Lemma reconnect_exhausts fuel : forall s,
  (max_reconnect_attempts (mgr s) - reconnect_attempts (mgr s) < fuel)%nat ->
  (forall i,
     (i < max_reconnect_attempts (mgr s) - reconnect_attempts (mgr s))%nat ->
     connect_ok W (connect_calls (env s) + i) = false) ->
  exists s',
    reconnect W fuel s = Some (Raise ReconnectExhausted, s') /\
    slept (env s') =
      slept (env s) ++
      map (backoff_delay (base_reconnect_delay (mgr s)))
          (seq (S (reconnect_attempts (mgr s)))
               (max_reconnect_attempts (mgr s) - reconnect_attempts (mgr s))) /\
    connect_calls (env s') =
      (connect_calls (env s)
       + (max_reconnect_attempts (mgr s) - reconnect_attempts (mgr s)))%nat /\
    (max_reconnect_attempts (mgr s') <= reconnect_attempts (mgr s'))%nat.
Proof.
  induction fuel as [|fuel IH]; intros s Hfuel Hfail; [lia|].
  cbn [reconnect].
  destruct (Nat.leb_spec (max_reconnect_attempts (mgr s))
                         (reconnect_attempts (mgr s))) as [Hle|Hlt].
  - exists s. split; [reflexivity|].
    replace (max_reconnect_attempts (mgr s) - reconnect_attempts (mgr s))%nat
      with 0%nat by lia.
    simpl. rewrite app_nil_r. repeat split; lia.
  - fold (backed_off s).
    assert (Hc : connect_ok W (connect_calls (env (backed_off s))) = false).
    { specialize (Hfail 0%nat). rewrite Nat.add_0_r in Hfail.
      apply Hfail. lia. }
    rewrite (connect_fail_spec W (backed_off s) Hc).
    destruct (IH (refused (backed_off s))) as (s' & -> & Hsl & Hcc & Hmax).
    { simpl. lia. }
    { intros i Hi. simpl in Hi.
      change (connect_calls (env (refused (backed_off s))))
        with (S (connect_calls (env s))).
      replace (S (connect_calls (env s)) + i)%nat
        with (connect_calls (env s) + S i)%nat by lia.
      apply Hfail. lia. }
    simpl in Hsl, Hcc.
    exists s'. split; [reflexivity|].
    replace (max_reconnect_attempts (mgr s) - reconnect_attempts (mgr s))%nat
      with (S (max_reconnect_attempts (mgr s) - S (reconnect_attempts (mgr s))))
      by lia.
    split; [|split].
    + rewrite Hsl, <- app_assoc. reflexivity.
    + rewrite Hcc. lia.
    + exact Hmax.
Qed.

(** C6: [reconnect] always returns; the delay it sleeps before attempt
    [n] is [base * 2^(n-1)]; and when each of the [max - attempts]
    connect calls it may still make fails, it makes exactly those calls,
    raises the exhaustion error, and every later [reconnect] raises at
    once in the same state: no sleep, no connect call. *)
Theorem reconnect_backoff_bound s :
  let mx := max_reconnect_attempts (mgr s) in
  let a := reconnect_attempts (mgr s) in
  let base := base_reconnect_delay (mgr s) in
  (exists r s' j,
     reconnect W (reconnect_fuel s) s = Some (r, s') /\
     (j <= mx - a)%nat /\
     slept (env s') =
       slept (env s) ++ map (backoff_delay base) (seq (S a) j) /\
     connect_calls (env s') = (connect_calls (env s) + j)%nat) /\
  ((forall i, (i < mx - a)%nat ->
              connect_ok W (connect_calls (env s) + i) = false) ->
   exists s',
     reconnect W (reconnect_fuel s) s = Some (Raise ReconnectExhausted, s') /\
     slept (env s') =
       slept (env s) ++ map (backoff_delay base) (seq (S a) (mx - a)) /\
     connect_calls (env s') = (connect_calls (env s) + (mx - a))%nat /\
     forall fuel,
       reconnect W (S fuel) s' = Some (Raise ReconnectExhausted, s')).
Proof.
  cbv zeta. split.
  - apply reconnect_runs. unfold reconnect_fuel. lia.
  - intros Hfail.
    destruct (reconnect_exhausts (reconnect_fuel s) s) as (s' & H & Hsl & Hcc & Hmax).
    { unfold reconnect_fuel. lia. }
    { exact Hfail. }
    exists s'. repeat split; try assumption.
    intros fuel. apply reconnect_exhausted_now. exact Hmax.
Qed.

End ReconnectFacts.

(** A fresh manager whose every connect fails: five attempts. *)
Lemma reconnect_backoff_bound_witness :
  let s := init 0 in
  (forall i, (i < max_reconnect_attempts (mgr s) - reconnect_attempts (mgr s))%nat ->
             connect_ok world_down (connect_calls (env s) + i) = false) /\
  exists s',
    reconnect world_down (reconnect_fuel s) s = Some (Raise ReconnectExhausted, s') /\
    slept (env s') = [1; 2; 4; 8; 16]%Z /\
    connect_calls (env s') = 5%nat.
Proof.
  intros s.
  assert (Hfail : forall i,
            (i < max_reconnect_attempts (mgr s) - reconnect_attempts (mgr s))%nat ->
            connect_ok world_down (connect_calls (env s) + i) = false)
    by (intros i _; reflexivity).
  split; [exact Hfail|].
  destruct (proj2 (reconnect_backoff_bound world_down s) Hfail)
    as (s' & H & Hsl & Hcc & _).
  exists s'. split; [exact H|]. split; [exact Hsl|exact Hcc].
Defined.

(* ------------------------------------------------------------------ *)
(** ** The received-message counter *)

Section CounterFacts.
Variable W : World.

Lemma subscribe_other_entry t p cb s sub_id :
  sub_id_of W t p <> sub_id ->
  PyDict.get sub_id (subscriptions (mgr (snd (subscribe W t p cb s)))) =
  PyDict.get sub_id (subscriptions (mgr s)).
Proof.
  intros Hne. destruct (subscribe W t p cb s) as [r s1] eqn:E. simpl.
  destruct (subscribe_step W _ _ _ _ _ _ E)
    as [_ [(_ & _ & -> & _)|(_ & _ & -> & _)]].
  - apply PyDictFacts.get_set_other. congruence.
  - rewrite PyDictFacts.get_del_other by congruence.
    apply PyDictFacts.get_set_other. congruence.
Qed.

Lemma unsubscribe_entry i s sub_id :
  PyDict.wf (subscriptions (mgr s)) ->
  PyDict.get sub_id (subscriptions (mgr (snd (unsubscribe W i s)))) =
    PyDict.get sub_id (subscriptions (mgr s)) \/
  PyDict.get sub_id (subscriptions (mgr (snd (unsubscribe W i s)))) = None.
Proof.
  intros Hwf.
  destruct (PyDict.get i (subscriptions (mgr s))) as [e|] eqn:Hget.
  - destruct (send_succeeds W s) eqn:Hs.
    + rewrite (unsubscribe_ok W _ _ _ Hget Hs). cbn [snd].
      rewrite subscriptions_removed.
      change (subscriptions (mgr (sent (unsubscribe_message e) s)))
        with (subscriptions (mgr s)).
      destruct (String.eqb_spec sub_id i) as [->|Hne].
      * right. apply PyDictFacts.get_del_same. exact Hwf.
      * left. apply PyDictFacts.get_del_other. exact Hne.
    + rewrite (unsubscribe_fail W _ _ _ Hget Hs). cbn [snd].
      rewrite mgr_unsent. left. reflexivity.
  - rewrite (unsubscribe_unknown W _ _ Hget). left. reflexivity.
Qed.

(** C5, as amended: over one operation of the manager, the counter of an
    entry that is registered before and after it grows by one when the
    operation is the handling of a frame delivered to the entry and stays
    the same otherwise, provided the operation is not a [subscribe] call
    with the identity of the entry (such a call replaces the entry by a
    fresh one). *)
Theorem counter_step op s sub_id e e' :
  PyDict.wf (subscriptions (mgr s)) ->
  PyDict.get sub_id (subscriptions (mgr s)) = Some e ->
  PyDict.get sub_id (subscriptions (mgr (step W op s))) = Some e' ->
  registers W op sub_id = false ->
  sub_messages_received e' = (sub_messages_received e + increment op e)%nat.
Proof.
  intros Hwf He He' Hreg.
  assert (Hsame : PyDict.get sub_id (subscriptions (mgr (step W op s))) =
                  PyDict.get sub_id (subscriptions (mgr s)) ->
                  increment op e = 0%nat ->
                  sub_messages_received e' =
                    (sub_messages_received e + increment op e)%nat).
  { intros H Hz. rewrite H, He in He'. injection He' as <-. rewrite Hz. lia. }
  destruct op as [| | | |t p cb|i|message|]; cbn [step] in *.
  - apply Hsame; [|reflexivity]. rewrite connect_subscriptions. reflexivity.
  - apply Hsame; reflexivity.
  - apply Hsame; [|reflexivity].
    destruct (reconnect W (reconnect_fuel s) s) as [[r s']|] eqn:E;
      [|reflexivity].
    rewrite (reconnect_subscriptions W _ _ _ _ E). reflexivity.
  - apply Hsame; [|reflexivity].
    destruct (resubscribe_all_spec W s) as (s' & -> & Hs). simpl.
    rewrite (subscriptions_only_sent _ _ Hs). reflexivity.
  - apply Hsame; [|reflexivity].
    apply subscribe_other_entry. simpl in Hreg.
    apply String.eqb_neq. exact Hreg.
  - apply Hsame; [|reflexivity].
    destruct (unsubscribe_entry i s sub_id Hwf) as [H|H]; [exact H|].
    rewrite H in He'. discriminate.
  - rewrite handle_message_eq in He'. simpl in He'.
    rewrite subscriptions_handled, get_deliver, He in He'.
    injection He' as <-. simpl.
    destruct (delivers message e); simpl; lia.
  - apply Hsame; reflexivity.
Qed.

End CounterFacts.

(** C5 as stated fails: a second [subscribe] with the same identity
    brings the counter of the entry from 1 back to 0. *)
Lemma resubscribe_resets_counter :
  let W := world_up in
  let sub_id := sub_id_of W "trades" btc in
  let trade := Parsed (JObj [("channel", JStr "trades")]) in
  let s1 := run W [OpSubscribe "trades" btc None; OpHandleMessage trade]
                (started W) in
  let s2 := step W (OpSubscribe "trades" btc None) s1 in
  option_map sub_messages_received (PyDict.get sub_id (subscriptions (mgr s1)))
    = Some 1%nat /\
  option_map sub_messages_received (PyDict.get sub_id (subscriptions (mgr s2)))
    = Some 0%nat.
Proof. vm_compute. split; reflexivity. Qed.

(** The hypotheses of [counter_step] hold for a [trades] entry and a
    frame of channel [Trades]. *)
Lemma counter_step_witness :
  let W := world_up in
  let sub_id := sub_id_of W "trades" btc in
  let trade := OpHandleMessage (Parsed (JObj [("channel", JStr "Trades")])) in
  let s := step W (OpSubscribe "trades" btc None) (started W) in
  let e := mkSub "trades" btc (subscribe_message "trades" btc) None 0 0 in
  PyDict.wf (subscriptions (mgr s)) /\
  PyDict.get sub_id (subscriptions (mgr s)) = Some e /\
  PyDict.get sub_id (subscriptions (mgr (step W trade s))) = Some (bump e) /\
  registers W trade sub_id = false /\
  sub_messages_received (bump e) = 1%nat.
Proof.
  intros W sub_id trade s e.
  assert (H1 : PyDict.wf (subscriptions (mgr s))).
  { vm_compute. repeat constructor. intros []. }
  assert (H2 : PyDict.get sub_id (subscriptions (mgr s)) = Some e)
    by reflexivity.
  assert (H3 : PyDict.get sub_id (subscriptions (mgr (step W trade s)))
               = Some (bump e)) by reflexivity.
  assert (H4 : registers W trade sub_id = false) by reflexivity.
  repeat (split; [assumption|]).
  exact (counter_step W trade s sub_id e (bump e) H1 H2 H3 H4).
Defined.

(* ------------------------------------------------------------------ *)
(** ** Listing *)

(** C8: [get_active_subscriptions] returns, in registry order, one item
    per registry entry, made of the id, the kind, the parameters, the
    connected flag of the manager, the counter and the creation time of
    the entry, and it leaves the whole state as it was. *)
Theorem get_active_subscriptions_read_only s :
  exists items,
    get_active_subscriptions s = (Ok items, s) /\
    List.length items = List.length (subscriptions (mgr s)) /\
    Forall2 (fun kv item =>
               subscription_id item = fst kv /\
               subscription_type item = sub_type (snd kv) /\
               params item = sub_params (snd kv) /\
               active_connected item = connected (mgr s) /\
               active_messages_received item = sub_messages_received (snd kv) /\
               subscribed_at item = sub_subscribed_at (snd kv))
            (subscriptions (mgr s)) items.
Proof.
  unfold get_active_subscriptions, gets.
  eexists. split; [reflexivity|]. split; [apply length_map|].
  induction (subscriptions (mgr s)) as [|[sub_id sub_data] rest IH]; simpl.
  - constructor.
  - constructor; [|exact IH]. simpl. repeat split.
Qed.

(* ------------------------------------------------------------------ *)
(** ** Polling *)

Section PollFacts.






End PollFacts.


(* ------------------------------------------------------------------ *)
(** ** Market-data subscriptions *)

Section MarketDataFacts.
Variable W : World.

Lemma check_data_types_spec data_types s :
  check_data_types data_types s =
  (match first_invalid data_types with
   | Some data_type => Raise (ValidationError data_type)
   | None => Ok tt
   end, s).
Proof.
  unfold check_data_types, first_invalid.
  induction data_types as [|data_type rest IH]; [reflexivity|].
  cbn [for_each find]. unfold bind at 1.
  destruct (negb (str_in data_type valid_types)); [reflexivity|].
  unfold ret at 1. exact IH.
Qed.

Lemma first_invalid_some data_types data_type :
  In data_type data_types -> str_in data_type valid_types = false ->
  exists rejected,
    first_invalid data_types = Some rejected /\
    In rejected data_types /\ str_in rejected valid_types = false.
Proof.
  intros Hin Hbad. unfold first_invalid.
  destruct (find _ data_types) as [rejected|] eqn:E.
  - apply find_some in E. destruct E as [Hin' Hneg].
    exists rejected. split; [reflexivity|]. split; [exact Hin'|].
    apply negb_true_iff. exact Hneg.
  - exfalso. apply (find_none _ _ E) in Hin. rewrite Hbad in Hin. discriminate.
Qed.

Lemma first_invalid_none data_types :
  (forall data_type, In data_type data_types ->
                     str_in data_type valid_types = true) ->
  first_invalid data_types = None.
Proof.
  intros H. unfold first_invalid.
  destruct (find _ data_types) as [rejected|] eqn:E; [|reflexivity].
  apply find_some in E. destruct E as [Hin Hneg].
  rewrite (H _ Hin) in Hneg. discriminate.
Qed.

Lemma send_succeeds_from_now s :
  sends_from_now W s -> send_succeeds W s = true.
Proof.
  intros [Hc Hok]. unfold send_succeeds. rewrite Hc. apply Hok. lia.
Qed.

(** One rollback step when every send goes through: the id is gone
    afterwards and no absent id comes back. *)
Lemma unsubscribe_from_now sub_id s :
  sends_from_now W s -> PyDict.wf (subscriptions (mgr s)) ->
  exists r s',
    unsubscribe W sub_id s = (r, s') /\
    sends_from_now W s' /\ PyDict.wf (subscriptions (mgr s')) /\
    PyDict.get sub_id (subscriptions (mgr s')) = None /\
    (forall j, PyDict.get j (subscriptions (mgr s)) = None ->
               PyDict.get j (subscriptions (mgr s')) = None).
Proof.
  intros Hnow Hwf.
  destruct (PyDict.get sub_id (subscriptions (mgr s))) as [e|] eqn:Hget.
  - rewrite (unsubscribe_ok W _ _ _ Hget (send_succeeds_from_now s Hnow)).
    eexists _, _. split; [reflexivity|].
    assert (Hsubs : subscriptions (mgr (removed sub_id (sent (unsubscribe_message e) s)))
                    = PyDict.del sub_id (subscriptions (mgr s)))
      by (rewrite subscriptions_removed; reflexivity).
    split; [|split; [|split]].
    + destruct Hnow as [Hc Hok]. split.
      * unfold removed, can_send in *. simpl.
        destruct (PyDict.mem sub_id (message_handlers (mgr s))); exact Hc.
      * intros n Hn. apply Hok. simpl in Hn. lia.
    + rewrite Hsubs. apply PyDictFacts.wf_del. exact Hwf.
    + rewrite Hsubs. apply PyDictFacts.get_del_same. exact Hwf.
    + intros j Hj. rewrite Hsubs.
      destruct (String.eqb_spec j sub_id) as [->|Hne].
      * apply PyDictFacts.get_del_same. exact Hwf.
      * rewrite PyDictFacts.get_del_other by exact Hne. exact Hj.
  - rewrite (unsubscribe_unknown W _ _ Hget).
    eexists _, _. split; [reflexivity|]. repeat split; try assumption.
    + apply Hnow.
    + apply Hnow.
    + intros j Hj. exact Hj.
Qed.

Lemma rollback_from_now subscription_ids : forall s,
  sends_from_now W s -> PyDict.wf (subscriptions (mgr s)) ->
  exists s',
    rollback W subscription_ids s = (Ok tt, s') /\
    (forall j, In j subscription_ids ->
               PyDict.get j (subscriptions (mgr s')) = None) /\
    (forall j, PyDict.get j (subscriptions (mgr s)) = None ->
               PyDict.get j (subscriptions (mgr s')) = None).
Proof.
  unfold rollback.
  set (body := fun existing_sub_id : string =>
    try_except (unsubscribe W existing_sub_id) (fun _ => ret tt)).
  induction subscription_ids as [|sub_id rest IH]; intros s Hnow Hwf.
  - exists s. split; [reflexivity|]. split; [intros j []|auto].
  - cbn [for_each]. unfold bind. unfold body at 1. unfold try_except.
    destruct (unsubscribe_from_now sub_id s Hnow Hwf)
      as (r & s1 & -> & Hnow1 & Hwf1 & Hgone & Hkeep).
    destruct (IH s1 Hnow1 Hwf1) as (s' & Hrun & Hrest & Hkeep').
    exists s'. split.
    + destruct r as [[]|e]; unfold ret; cbv beta iota; exact Hrun.
    + split.
      * intros j [<-|Hin]; [apply Hkeep'; exact Hgone|apply Hrest; exact Hin].
      * intros j Hj. apply Hkeep', Hkeep. exact Hj.
Qed.

(** The loop of [subscribe_market_data] when its [k]-th registration is
    the first whose send fails and every later send goes through. *)
Lemma subscribe_each_rollback coin callback data_types :
  forall k subscription_ids s,
  can_send s = true -> PyDict.wf (subscriptions (mgr s)) ->
  (k < List.length data_types)%nat ->
  (forall i, (i < k)%nat -> send_ok W (send_calls (env s) + i) = true) ->
  send_ok W (send_calls (env s) + k) = false ->
  (forall n, (send_calls (env s) + k < n)%nat -> send_ok W n = true) ->
  exists s',
    subscribe_each W coin callback data_types subscription_ids s =
      (Raise (SubscriptionError SendError), s') /\
    (forall j, In j subscription_ids ->
               PyDict.get j (subscriptions (mgr s')) = None) /\
    (forall data_type, In data_type (firstn (S k) data_types) ->
       PyDict.get (sub_id_of W data_type (market_params coin data_type))
                  (subscriptions (mgr s')) = None).
Proof.
  induction data_types as [|data_type rest IH];
    intros k subscription_ids s Hc Hwf Hk Hbefore Hat Hafter;
    [simpl in Hk; lia|].
  cbn [subscribe_each]. unfold bind at 1. unfold try_except at 1.
  set (sub_id := sub_id_of W data_type (market_params coin data_type)).
  destruct k as [|k].
  - (* this registration fails *)
    rewrite Nat.add_0_r in Hat.
    assert (Hs : send_succeeds W s = false).
    { unfold send_succeeds. rewrite Hc, Hat. reflexivity. }
    rewrite (subscribe_fail W _ _ callback s Hs). fold sub_id.
    set (s1 := dropped sub_id
                 (unsent (registered sub_id data_type
                            (market_params coin data_type) callback s))).
    assert (Hsubs1 : subscriptions (mgr s1) =
              PyDict.del sub_id
                (PyDict.set sub_id
                   (mkSub data_type (market_params coin data_type)
                      (subscribe_message data_type (market_params coin data_type))
                      callback 0 (clock (env s)))
                   (subscriptions (mgr s)))).
    { unfold s1, dropped. simpl. rewrite mgr_unsent.
      rewrite subscriptions_registered. reflexivity. }
    assert (Hc1 : can_send s1 = true).
    { unfold s1. unfold can_send, dropped. simpl. rewrite mgr_unsent.
      fold (can_send (registered sub_id data_type
                        (market_params coin data_type) callback s)).
      rewrite can_send_registered. exact Hc. }
    assert (Hcalls1 : send_calls (env s1) = S (send_calls (env s))).
    { unfold s1, dropped. simpl. rewrite send_calls_unsent.
      - unfold registered. destruct callback; reflexivity.
      - rewrite can_send_registered. exact Hc. }
    assert (Hnow1 : sends_from_now W s1).
    { split; [exact Hc1|]. intros n Hn. apply Hafter. lia. }
    assert (Hwf1 : PyDict.wf (subscriptions (mgr s1))).
    { rewrite Hsubs1. apply PyDictFacts.wf_del, PyDictFacts.wf_set. exact Hwf. }
    assert (Hgone : PyDict.get sub_id (subscriptions (mgr s1)) = None).
    { rewrite Hsubs1. apply PyDictFacts.get_del_same, PyDictFacts.wf_set.
      exact Hwf. }
    unfold send_error. rewrite Hc.
    unfold bind, raise.
    destruct (rollback_from_now subscription_ids s1 Hnow1 Hwf1)
      as (s' & -> & Hids & Hkeep).
    exists s'. split; [reflexivity|]. split; [exact Hids|].
    intros dt [<-|[]]. apply Hkeep. exact Hgone.
  - (* this registration succeeds *)
    assert (Hs : send_succeeds W s = true).
    { unfold send_succeeds. rewrite Hc. simpl.
      specialize (Hbefore 0%nat). rewrite Nat.add_0_r in Hbefore.
      apply Hbefore. lia. }
    rewrite (subscribe_ok W _ _ callback s Hs). fold sub_id.
    set (s1 := sent (subscribe_message data_type (market_params coin data_type))
                 (registered sub_id data_type
                    (market_params coin data_type) callback s)).
    assert (Hc1 : can_send s1 = true).
    { unfold s1. rewrite can_send_sent, can_send_registered. exact Hc. }
    assert (Hcalls1 : send_calls (env s1) = S (send_calls (env s))).
    { unfold s1, registered. destruct callback; reflexivity. }
    assert (Hwf1 : PyDict.wf (subscriptions (mgr s1))).
    { unfold s1. change (subscriptions (mgr (sent ?m ?st)))
        with (subscriptions (mgr st)).
      rewrite subscriptions_registered. apply PyDictFacts.wf_set. exact Hwf. }
    destruct (IH k (subscription_ids ++ [sub_id]) s1 Hc1 Hwf1)
      as (s' & Hrun & Hids & Hdone).
    + simpl in Hk. lia.
    + intros i Hi. rewrite Hcalls1.
      replace (S (send_calls (env s)) + i)%nat
        with (send_calls (env s) + S i)%nat by lia.
      apply Hbefore. lia.
    + rewrite Hcalls1.
      replace (S (send_calls (env s)) + k)%nat
        with (send_calls (env s) + S k)%nat by lia.
      exact Hat.
    + intros n Hn. apply Hafter. rewrite Hcalls1 in Hn. lia.
    + exists s'. split; [exact Hrun|]. split.
      * intros j Hj. apply Hids. apply in_or_app. left. exact Hj.
      * intros dt Hdt. change (firstn (S (S k)) (data_type :: rest))
          with (data_type :: firstn (S k) rest) in Hdt.
        destruct Hdt as [<-|Hdt].
        -- apply Hids. apply in_or_app. right. left. reflexivity.
        -- apply Hdone. exact Hdt.
Qed.

End MarketDataFacts.

Section MarketDataClaim.
Variable W : World.

(** C4, as amended: a data-type list with an entry outside the valid
    types makes [subscribe_market_data] raise one validation error with
    the state untouched, so nothing was registered or sent; and when all
    types are valid and the send of the [k]-th registration is the first
    to fail, the call raises the subscription error after a best-effort
    rollback which, when the unsubscribe messages go through, leaves no
    registry entry under the id of any registration the call made. *)
Theorem subscribe_market_data_rollback coin data_types callback s :
  (forall data_type,
     In data_type data_types -> str_in data_type valid_types = false ->
     exists rejected,
       In rejected data_types /\ str_in rejected valid_types = false /\
       subscribe_market_data W coin data_types callback s =
         (Raise (ValidationError rejected), s)) /\
  (forall k,
     (forall data_type, In data_type data_types ->
                        str_in data_type valid_types = true) ->
     can_send s = true ->
     PyDict.wf (subscriptions (mgr s)) ->
     (k < List.length data_types)%nat ->
     (forall i, (i < k)%nat -> send_ok W (send_calls (env s) + i) = true) ->
     send_ok W (send_calls (env s) + k) = false ->
     (forall n, (send_calls (env s) + k < n)%nat -> send_ok W n = true) ->
     exists s',
       subscribe_market_data W coin data_types callback s =
         (Raise (SubscriptionError SendError), s') /\
       forall data_type, In data_type (firstn (S k) data_types) ->
         PyDict.get (sub_id_of W data_type (market_params coin data_type))
                    (subscriptions (mgr s')) = None).
Proof.
  split.
  - intros data_type Hin Hbad.
    destruct (first_invalid_some data_types data_type Hin Hbad)
      as (rejected & Hfirst & Hin' & Hbad').
    exists rejected. split; [exact Hin'|]. split; [exact Hbad'|].
    unfold subscribe_market_data, bind.
    rewrite check_data_types_spec, Hfirst. reflexivity.
  - intros k Hvalid Hc Hwf Hk Hbefore Hat Hafter.
    unfold subscribe_market_data, bind.
    rewrite check_data_types_spec, (first_invalid_none data_types Hvalid).
    destruct (subscribe_each_rollback W coin callback data_types k [] s
                Hc Hwf Hk Hbefore Hat Hafter) as (s' & Hrun & _ & Hdone).
    exists s'. split; [exact Hrun|exact Hdone].
Qed.

End MarketDataClaim.

(** C4 as stated fails: when the send of the second registration fails
    and the unsubscribe send of the rollback fails too, the call raises
    and the first registration is still in the registry. *)
Lemma rollback_send_failure_keeps_entry :
  let W := world_first_send_only in
  let '(r, s') :=
    subscribe_market_data W "BTC" ["l2Book"; "trades"] None (started W) in
  r = Raise (SubscriptionError SendError) /\
  subscriptions (mgr (started W)) = [] /\
  PyDict.mem (sub_id_of W "l2Book" (market_params "BTC" "l2Book"))
             (subscriptions (mgr s')) = true.
Proof. vm_compute. repeat split. Qed.

(** Both halves of [subscribe_market_data_rollback] at concrete calls:
    a list with [bogus], and two valid types whose second send fails. *)
Lemma subscribe_market_data_rollback_witness :
  let W := world_second_send_fails in
  let s := started W in
  (In "bogus" ["l2Book"; "trades"; "bogus"] /\
   str_in "bogus" valid_types = false /\
   exists rejected,
     subscribe_market_data W "BTC" ["l2Book"; "trades"; "bogus"] None s =
       (Raise (ValidationError rejected), s)) /\
  ((forall data_type, In data_type ["l2Book"; "trades"] ->
                      str_in data_type valid_types = true) /\
   can_send s = true /\
   PyDict.wf (subscriptions (mgr s)) /\
   (1 < List.length ["l2Book"; "trades"])%nat /\
   (forall i, (i < 1)%nat -> send_ok W (send_calls (env s) + i) = true) /\
   send_ok W (send_calls (env s) + 1) = false /\
   (forall n, (send_calls (env s) + 1 < n)%nat -> send_ok W n = true) /\
   exists s',
     subscribe_market_data W "BTC" ["l2Book"; "trades"] None s =
       (Raise (SubscriptionError SendError), s') /\
     PyDict.get (sub_id_of W "l2Book" (market_params "BTC" "l2Book"))
                (subscriptions (mgr s')) = None).
Proof.
  intros W s. split.
  - assert (Hin : In "bogus" ["l2Book"; "trades"; "bogus"])
      by (right; right; left; reflexivity).
    assert (Hbad : str_in "bogus" valid_types = false) by reflexivity.
    split; [exact Hin|]. split; [exact Hbad|].
    destruct (proj1 (subscribe_market_data_rollback W "BTC"
                       ["l2Book"; "trades"; "bogus"] None s) "bogus" Hin Hbad)
      as (rejected & _ & _ & H).
    exists rejected. exact H.
  - assert (Hvalid : forall data_type, In data_type ["l2Book"; "trades"] ->
                                       str_in data_type valid_types = true)
      by (intros dt [<-|[<-|[]]]; reflexivity).
    assert (Hc : can_send s = true) by reflexivity.
    assert (Hwf : PyDict.wf (subscriptions (mgr s))) by constructor.
    assert (Hk : (1 < List.length ["l2Book"; "trades"])%nat) by (simpl; lia).
    assert (Hbefore : forall i, (i < 1)%nat ->
                                send_ok W (send_calls (env s) + i) = true).
    { intros i Hi. assert (i = 0)%nat as -> by lia. reflexivity. }
    assert (Hat : send_ok W (send_calls (env s) + 1) = false) by reflexivity.
    assert (Hafter : forall n, (send_calls (env s) + 1 < n)%nat ->
                               send_ok W n = true).
    { intros n Hn. change (send_calls (env s) + 1)%nat with 1%nat in Hn.
      destruct n as [|[|n]]; [lia|lia|reflexivity]. }
    repeat (split; [assumption|]).
    destruct (proj2 (subscribe_market_data_rollback W "BTC"
                       ["l2Book"; "trades"] None s) 1%nat
                Hvalid Hc Hwf Hk Hbefore Hat Hafter) as (s' & Hrun & Hdone).
    exists s'. split; [exact Hrun|].
    apply Hdone. left. reflexivity.
Defined.

(* ------------------------------------------------------------------ *)
(** ** The registry invariant along runs *)

Section Invariant.
Variable W : World.

Lemma unsubscribe_wf i s :
  PyDict.wf (subscriptions (mgr s)) ->
  PyDict.wf (subscriptions (mgr (snd (unsubscribe W i s)))).
Proof.
  intros Hwf.
  destruct (PyDict.get i (subscriptions (mgr s))) as [e|] eqn:Hget.
  - destruct (send_succeeds W s) eqn:Hs.
    + rewrite (unsubscribe_ok W _ _ _ Hget Hs). cbn [snd].
      rewrite subscriptions_removed. apply PyDictFacts.wf_del. exact Hwf.
    + rewrite (unsubscribe_fail W _ _ _ Hget Hs). cbn [snd].
      rewrite mgr_unsent. exact Hwf.
  - rewrite (unsubscribe_unknown W _ _ Hget). exact Hwf.
Qed.

(** Every operation keeps each id at most once in the registry. *)
Lemma step_wf op s :
  PyDict.wf (subscriptions (mgr s)) ->
  PyDict.wf (subscriptions (mgr (step W op s))).
Proof.
  intros Hwf. destruct op as [| | | |t p cb|i|message|]; cbn [step].
  - rewrite connect_subscriptions. exact Hwf.
  - exact Hwf.
  - destruct (reconnect W (reconnect_fuel s) s) as [[r s']|] eqn:E;
      [|exact Hwf].
    rewrite (reconnect_subscriptions W _ _ _ _ E). exact Hwf.
  - destruct (resubscribe_all_spec W s) as (s' & -> & Hs). cbn [snd].
    rewrite (subscriptions_only_sent _ _ Hs). exact Hwf.
  - apply subscribe_wf. exact Hwf.
  - apply unsubscribe_wf. exact Hwf.
  - rewrite handle_message_eq. cbn [snd]. rewrite subscriptions_handled.
    unfold PyDict.wf. rewrite keys_deliver. exact Hwf.
  - exact Hwf.
Qed.

Lemma run_wf ops : forall s,
  PyDict.wf (subscriptions (mgr s)) ->
  PyDict.wf (subscriptions (mgr (run W ops s))).
Proof.
  unfold run. induction ops as [|op rest IH]; intros s Hwf; simpl.
  - exact Hwf.
  - apply IH, step_wf, Hwf.
Qed.

Lemma reachable_wf ops now :
  PyDict.wf (subscriptions (mgr (run W ops (init now)))).
Proof. apply run_wf. constructor. Qed.

End Invariant.

(* ------------------------------------------------------------------ *)
(** ** Concrete runs *)

(** Routing is by kind only: a frame of channel [trades] reaches the
    [trades] entries for BTC and for ETH and not the [l2Book] entry. *)
Example routing_by_kind_run :
  let W := world_up in
  let s := run W [OpSubscribe "trades" btc (Some 1%nat);
                  OpSubscribe "l2Book" btc (Some 2%nat);
                  OpSubscribe "trades" eth (Some 3%nat);
                  OpHandleMessage (Parsed (JObj [("channel", JStr "trades")]))]
               (started W) in
  map (fun kv => (sub_type (snd kv), sub_params (snd kv),
                  sub_messages_received (snd kv)))
      (subscriptions (mgr s)) =
    [("trades", btc, 1%nat); ("l2Book", btc, 0%nat); ("trades", eth, 1%nat)] /\
  map (fun c => snd (fst c)) (dispatched (env s)) = [1%nat; 3%nat].
Proof. vm_compute. split; reflexivity. Qed.

(** Five failed attempts from a fresh manager: delays 1, 2, 4, 8, 16,
    then the exhaustion error. *)
Example reconnect_run :
  option_map (fun rs => (fst rs, slept (env (snd rs)),
                         connect_calls (env (snd rs))))
             (reconnect world_down 6 (init 0)) =
  Some (Raise ReconnectExhausted, [1; 2; 4; 8; 16]%Z, 5%nat).
Proof. vm_compute. reflexivity. Qed.

(** The callback left behind by a failed [subscribe] is live: once the
    same identity is registered again, here without any callback, the
    stale handle 7 is invoked for a matching frame. *)
Example stale_callback_is_invoked :
  let W := world_up in
  let s1 := snd (subscribe W "trades" btc (Some 7%nat) (init 0)) in
  let s2 := run W [OpConnect; OpSubscribe "trades" btc None;
                   OpHandleMessage (Parsed (JObj [("channel", JStr "trades")]))]
                s1 in
  subscriptions (mgr s1) = [] /\
  map (fun c => snd (fst c)) (dispatched (env s2)) = [7%nat].
Proof. vm_compute. split; reflexivity. Qed.

(* ================================================================== *)
(** * Further properties of the manager, the facade and the handlers *)

(** ** The order on keys and the canonical form of parameters *)

Section KeyOrder.

Lemma ascii_compare_cases a b :
  match Ascii.compare a b with
  | Eq => a = b
  | Lt => (N_of_ascii a < N_of_ascii b)%N
  | Gt => (N_of_ascii b < N_of_ascii a)%N
  end.
Proof.
  unfold Ascii.compare.
  destruct (N.compare_spec (N_of_ascii a) (N_of_ascii b)) as [H|H|H].
  - rewrite <- (ascii_N_embedding a), <- (ascii_N_embedding b), H. reflexivity.
  - exact H.
  - exact H.
Qed.

Lemma string_compare_lt_trans a : forall b c,
  String.compare a b = Lt -> String.compare b c = Lt ->
  String.compare a c = Lt.
Proof.
  induction a as [|x xs IH]; intros [|y ys] [|z zs]; simpl;
    try discriminate; try reflexivity.
  pose proof (ascii_compare_cases x y) as Hxy.
  pose proof (ascii_compare_cases y z) as Hyz.
  pose proof (ascii_compare_cases x z) as Hxz.
  destruct (Ascii.compare x y), (Ascii.compare y z), (Ascii.compare x z);
    try discriminate; try reflexivity; try (subst; lia); try apply IH.
Qed.

Lemma string_leb_trans a b c :
  String.leb a b = true -> String.leb b c = true -> String.leb a c = true.
Proof.
  unfold String.leb.
  destruct (String.compare a b) eqn:Hab; [| |discriminate];
    destruct (String.compare b c) eqn:Hbc; try discriminate; intros _ _.
  - apply String.compare_eq_iff in Hab. subst. rewrite Hbc. reflexivity.
  - apply String.compare_eq_iff in Hab. subst. rewrite Hbc. reflexivity.
  - apply String.compare_eq_iff in Hbc. subst. rewrite Hab. reflexivity.
  - rewrite (string_compare_lt_trans a b c Hab Hbc). reflexivity.
Qed.

Variable A : Type.
Implicit Types (kv : string * A) (l : list (string * A)).

Lemma insert_by_key_perm kv l : Permutation (insert_by_key kv l) (kv :: l).
Proof.
  induction l as [|kv' r IH]; simpl; [reflexivity|].
  destruct (String.leb (fst kv) (fst kv')); [reflexivity|].
  rewrite IH. apply perm_swap.
Qed.

Lemma insert_by_key_sorted kv l :
  key_sorted l -> key_sorted (insert_by_key kv l).
Proof.
  unfold key_sorted. induction l as [|kv' r IH]; simpl; intros Hs.
  - constructor; constructor.
  - inversion Hs as [|? ? Hr Hall]; subst.
    destruct (String.leb (fst kv) (fst kv')) eqn:E.
    + constructor; [exact Hs|]. constructor; [exact E|].
      eapply Forall_impl; [|exact Hall]. intros c Hc. cbv beta in *.
      eapply string_leb_trans; eassumption.
    + constructor; [apply IH; exact Hr|].
      assert (E' : String.leb (fst kv') (fst kv) = true).
      { destruct (String.leb_total (fst kv) (fst kv')) as [H|H];
          [congruence|exact H]. }
      eapply Permutation_Forall; [symmetry; apply insert_by_key_perm|].
      constructor; assumption.
Qed.

Lemma sort_keys_perm l : Permutation (sort_keys l) l.
Proof.
  unfold sort_keys. induction l as [|kv r IH]; simpl; [reflexivity|].
  rewrite insert_by_key_perm. constructor. exact IH.
Qed.

Lemma sort_keys_sorted l : key_sorted (sort_keys l).
Proof.
  unfold sort_keys. induction l as [|kv r IH]; simpl.
  - constructor.
  - apply insert_by_key_sorted. exact IH.
Qed.

(** Two key-sorted lists with the same elements and distinct keys are
    the same list. *)
Lemma key_sorted_unique l1 : forall l2,
  key_sorted l1 -> key_sorted l2 -> Permutation l1 l2 ->
  NoDup (map fst l1) -> l1 = l2.
Proof.
  unfold key_sorted. induction l1 as [|a r1 IH]; intros l2 H1 H2 Hp Hnd.
  - apply Permutation_nil in Hp. subst. reflexivity.
  - destruct l2 as [|b r2].
    + symmetry in Hp. apply Permutation_nil in Hp. discriminate.
    + inversion H1 as [|? ? Hr1 Hall1]; subst.
      inversion H2 as [|? ? Hr2 Hall2]; subst.
      inversion Hnd as [|? ? Hnin Hnd']; subst.
      assert (Hab : a = b).
      { assert (Ha : In a (b :: r2))
          by (eapply Permutation_in; [exact Hp|left; reflexivity]).
        assert (Hb : In b (a :: r1))
          by (eapply Permutation_in; [symmetry; exact Hp|left; reflexivity]).
        destruct Ha as [Ha|Ha]; [congruence|].
        destruct Hb as [Hb|Hb]; [congruence|].
        exfalso. apply Hnin.
        rewrite Forall_forall in Hall1, Hall2.
        rewrite (String.leb_antisym _ _ (Hall1 b Hb) (Hall2 a Ha)).
        apply in_map. exact Hb. }
      subst b. f_equal. apply IH; try assumption.
      eapply Permutation_cons_inv. exact Hp.
Qed.

Lemma sort_keys_canonical l1 l2 :
  Permutation l1 l2 -> NoDup (map fst l1) -> sort_keys l1 = sort_keys l2.
Proof.
  intros Hp Hnd. apply key_sorted_unique.
  - apply sort_keys_sorted.
  - apply sort_keys_sorted.
  - rewrite !sort_keys_perm. exact Hp.
  - eapply Permutation_NoDup; [|exact Hnd].
    apply Permutation_map. symmetry. apply sort_keys_perm.
Qed.

End KeyOrder.

(** X1: the subscription id does not depend on the order in which the
    keys of [params] were inserted: two parameter dicts with the same
    items (and, as in any dict, distinct keys) have the same key-sorted
    serialisation and so the same id. *)
Theorem sub_id_ignores_key_order W t p1 p2 :
  Permutation p1 p2 -> PyDict.wf p1 ->
  normalized p1 = normalized p2 /\ sub_id_of W t p1 = sub_id_of W t p2.
Proof.
  intros Hp Hwf.
  assert (Hn : normalized p1 = normalized p2).
  { unfold normalized. cbn [dumps].
    set (render := fun kv : string * json =>
                     let '(k, x) := kv in (k, dumps true x)).
    rewrite (sort_keys_canonical string (map render p1) (map render p2)).
    - reflexivity.
    - apply Permutation_map. exact Hp.
    - rewrite map_map.
      replace (map (fun x => fst (render x)) p1) with (map fst p1).
      + exact Hwf.
      + apply map_ext. intros [k x]. reflexivity. }
  split; [exact Hn|]. apply sub_id_normalized. exact Hn.
Qed.

(** Candle parameters given interval-first and coin-first. *)
Lemma sub_id_ignores_key_order_witness :
  let p1 := [("coin", JStr "BTC"); ("interval", JStr "1m")] in
  let p2 := [("interval", JStr "1m"); ("coin", JStr "BTC")] in
  Permutation p1 p2 /\ PyDict.wf p1 /\
  sub_id_of world_up "candle" p1 = sub_id_of world_up "candle" p2.
Proof.
  intros p1 p2.
  assert (Hp : Permutation p1 p2) by apply perm_swap.
  assert (Hwf : PyDict.wf p1).
  { repeat constructor; simpl; intuition discriminate. }
  split; [exact Hp|]. split; [exact Hwf|].
  exact (proj2 (sub_id_ignores_key_order world_up "candle" p1 p2 Hp Hwf)).
Defined.

(* ------------------------------------------------------------------ *)
(** ** What the router ignores in a channel *)

Section ChannelFacts.

Lemma lower_ascii_idempotent c :
  PyStr.lower_ascii (PyStr.lower_ascii c) = PyStr.lower_ascii c.
Proof. destruct c as [[] [] [] [] [] [] [] []]; reflexivity. Qed.

Lemma lower_idempotent s : PyStr.lower (PyStr.lower s) = PyStr.lower s.
Proof.
  induction s as [|c r IH]; simpl; [reflexivity|].
  rewrite IH, lower_ascii_idempotent. reflexivity.
Qed.

Lemma lower_ascii_at c :
  Ascii.eqb (PyStr.lower_ascii c) "@" = Ascii.eqb c "@".
Proof. destruct c as [[] [] [] [] [] [] [] []]; reflexivity. Qed.

Lemma lower_split_head c :
  PyStr.lower (PyStr.split_head "@" c) = PyStr.split_head "@" (PyStr.lower c).
Proof.
  induction c as [|x r IH]; simpl; [reflexivity|].
  rewrite lower_ascii_at. destruct (Ascii.eqb x "@"); simpl; [reflexivity|].
  rewrite IH. reflexivity.
Qed.

Lemma split_head_append sep c suffix :
  PyStr.split_head sep (c ++ String sep suffix) = PyStr.split_head sep c.
Proof.
  induction c as [|x r IH]; simpl.
  - rewrite Ascii.eqb_refl. reflexivity.
  - destruct (Ascii.eqb x sep); [reflexivity|]. rewrite IH. reflexivity.
Qed.

Lemma channel_tag_frame channel rest :
  channel_tag (channel_frame channel rest) =
  Some (PyStr.split_head "@" channel).
Proof. reflexivity. Qed.

(** X2: the router reads a channel only up to its first "@" and without
    regard to letter case, and it reads the kind of an entry without
    regard to case: appending "@" and any text to the channel, or
    changing the case of the channel or of the kind, changes nothing
    about which entries the frame is delivered to. *)
Theorem routing_ignores_suffix_and_case channel rest sub_data :
  (forall suffix,
     delivers (channel_frame (channel ++ String "@" suffix) rest) sub_data =
     delivers (channel_frame channel rest) sub_data) /\
  (forall channel',
     PyStr.lower channel' = PyStr.lower channel ->
     delivers (channel_frame channel' rest) sub_data =
     delivers (channel_frame channel rest) sub_data) /\
  (forall sub_data',
     PyStr.lower (sub_type sub_data') = PyStr.lower (sub_type sub_data) ->
     delivers (channel_frame channel rest) sub_data' =
     delivers (channel_frame channel rest) sub_data).
Proof.
  split; [|split].
  - intros suffix. rewrite !delivers_tag, !channel_tag_frame.
    rewrite split_head_append. reflexivity.
  - intros channel' H. rewrite !delivers_tag, !channel_tag_frame.
    rewrite !lower_split_head, H. reflexivity.
  - intros sub_data' H. rewrite !delivers_tag, !channel_tag_frame, H.
    reflexivity.
Qed.

(** [TRADES] and [trades] as channels, [Trades] and [trades] as kinds. *)
Lemma routing_ignores_suffix_and_case_witness :
  let e := mkSub "trades" btc (subscribe_message "trades" btc) None 0 0 in
  let e' := mkSub "Trades" eth (subscribe_message "Trades" eth) None 0 0 in
  PyStr.lower "TRADES" = PyStr.lower "trades" /\
  PyStr.lower (sub_type e') = PyStr.lower (sub_type e) /\
  delivers (channel_frame "TRADES" []) e = delivers (channel_frame "trades" []) e /\
  delivers (channel_frame "trades" []) e' = delivers (channel_frame "trades" []) e.
Proof.
  intros e e'.
  assert (H1 : PyStr.lower "TRADES" = PyStr.lower "trades") by reflexivity.
  assert (H2 : PyStr.lower (sub_type e') = PyStr.lower (sub_type e))
    by reflexivity.
  split; [exact H1|]. split; [exact H2|].
  destruct (routing_ignores_suffix_and_case "trades" [] e) as (_ & Hc & Hk).
  split; [exact (Hc "TRADES" H1)|exact (Hk e' H2)].
Defined.

End ChannelFacts.

(* ------------------------------------------------------------------ *)
(** ** Registering and deregistering compose *)

Section RoundTrip.
Variable W : World.

Lemma del_set_fresh (V : Type) k (v : V) (d : PyDict.t V) :
  PyDict.get k d = None -> PyDict.del k (PyDict.set k v d) = d.
Proof.
  induction d as [|[k' v'] r IH]; simpl; intros H.
  - rewrite String.eqb_refl. reflexivity.
  - destruct (String.eqb k k') eqn:E; [discriminate|].
    simpl. rewrite E, (IH H). reflexivity.
Qed.

(** X3: on an open connection, registering an identity that is not in
    the registry and then unsubscribing the returned id brings the
    registry and the callback table back to exactly what they were; the
    wire has received the subscribe message and then the unsubscribe
    message for the same subscription. *)
Theorem subscribe_unsubscribe_round_trip t p cb s :
  let sub_id := sub_id_of W t p in
  PyDict.get sub_id (subscriptions (mgr s)) = None ->
  PyDict.get sub_id (message_handlers (mgr s)) = None ->
  can_send s = true ->
  send_ok W (send_calls (env s)) = true ->
  send_ok W (S (send_calls (env s))) = true ->
  exists s1 s2,
    subscribe W t p cb s = (Ok sub_id, s1) /\
    unsubscribe W sub_id s1 = (Ok tt, s2) /\
    subscriptions (mgr s2) = subscriptions (mgr s) /\
    message_handlers (mgr s2) = message_handlers (mgr s) /\
    wire (env s2) =
      wire (env s) ++ [subscribe_message t p;
                       mkWire "unsubscribe" (subscription (subscribe_message t p))].
Proof.
  intros sub_id Hsub Hhand Hc Hok0 Hok1.
  assert (Hs : send_succeeds W s = true).
  { unfold send_succeeds. rewrite Hc, Hok0. reflexivity. }
  rewrite (subscribe_ok W t p cb s Hs). fold sub_id.
  set (entry := mkSub t p (subscribe_message t p) cb 0 (clock (env s))).
  set (s1 := sent (subscribe_message t p) (registered sub_id t p cb s)).
  assert (Hget1 : PyDict.get sub_id (subscriptions (mgr s1)) = Some entry).
  { unfold s1. change (subscriptions (mgr (sent ?m ?st)))
      with (subscriptions (mgr st)).
    rewrite subscriptions_registered. apply PyDictFacts.get_set_same. }
  assert (Hs1 : send_succeeds W s1 = true).
  { unfold send_succeeds, s1. rewrite can_send_sent, can_send_registered, Hc.
    simpl. unfold registered. destruct cb; exact Hok1. }
  exists s1, (removed sub_id (sent (unsubscribe_message entry) s1)).
  split; [reflexivity|].
  split; [exact (unsubscribe_ok W sub_id entry s1 Hget1 Hs1)|].
  split; [|split].
  - rewrite subscriptions_removed.
    change (subscriptions (mgr (sent ?m ?st))) with (subscriptions (mgr st)).
    unfold s1.
    change (subscriptions (mgr (sent ?m ?st))) with (subscriptions (mgr st)).
    rewrite subscriptions_registered. apply del_set_fresh. exact Hsub.
  - unfold removed, s1, registered. destruct cb as [c|]; simpl.
    + unfold PyDict.mem. rewrite PyDictFacts.get_set_same.
      apply del_set_fresh. exact Hhand.
    + unfold PyDict.mem. rewrite Hhand. reflexivity.
  - unfold removed, s1, registered. destruct cb as [c|]; simpl;
      rewrite <- app_assoc; reflexivity.
Qed.

End RoundTrip.

(** A fresh connected manager, one [trades] subscription with a
    callback, then its removal. *)
Lemma subscribe_unsubscribe_round_trip_witness :
  let W := world_up in
  let s := started W in
  let sub_id := sub_id_of W "trades" btc in
  PyDict.get sub_id (subscriptions (mgr s)) = None /\
  PyDict.get sub_id (message_handlers (mgr s)) = None /\
  can_send s = true /\
  send_ok W (send_calls (env s)) = true /\
  send_ok W (S (send_calls (env s))) = true /\
  exists s1 s2,
    subscribe W "trades" btc (Some 1%nat) s = (Ok sub_id, s1) /\
    unsubscribe W sub_id s1 = (Ok tt, s2) /\
    subscriptions (mgr s2) = [] /\ message_handlers (mgr s2) = [].
Proof.
  intros W s sub_id.
  assert (H1 : PyDict.get sub_id (subscriptions (mgr s)) = None) by reflexivity.
  assert (H2 : PyDict.get sub_id (message_handlers (mgr s)) = None)
    by reflexivity.
  assert (H3 : can_send s = true) by reflexivity.
  assert (H4 : send_ok W (send_calls (env s)) = true) by reflexivity.
  assert (H5 : send_ok W (S (send_calls (env s))) = true) by reflexivity.
  repeat (split; [assumption|]).
  destruct (subscribe_unsubscribe_round_trip W "trades" btc (Some 1%nat) s
              H1 H2 H3 H4 H5) as (s1 & s2 & Ha & Hb & Hc & Hd & _).
  exists s1, s2. repeat (split; [assumption|]). exact Hd.
Defined.

(* ------------------------------------------------------------------ *)
(** ** Replaying the registry *)

Section Replay.
Variable W : World.

(** The next [n] calls of [ws.send] go through. *)
Lemma replay_loop entries : forall s,
  can_send s = true ->
  (forall i, (i < List.length entries)%nat ->
             send_ok W (send_calls (env s) + i) = true) ->
  exists s',
    for_each entries (fun kv : string * Subscription =>
      try_except (_send_message W (sub_message (snd kv))) (fun _ => ret tt)) s
    = (Ok tt, s') /\
    only_sent s s' /\
    wire (env s') = wire (env s) ++ map (fun kv => sub_message (snd kv)) entries /\
    messages_sent (stats (mgr s')) =
      (messages_sent (stats (mgr s)) + List.length entries)%nat /\
    send_calls (env s') = (send_calls (env s) + List.length entries)%nat.
Proof.
  set (body := fun kv : string * Subscription =>
    try_except (_send_message W (sub_message (snd kv))) (fun _ => ret tt)).
  induction entries as [|kv rest IH]; intros s Hc Hok.
  - exists s. split; [reflexivity|]. split; [apply only_sent_refl|].
    simpl. rewrite app_nil_r, !Nat.add_0_r. repeat split.
  - cbn [for_each]. unfold bind. unfold body at 1. unfold try_except.
    assert (Hs : send_succeeds W s = true).
    { unfold send_succeeds. rewrite Hc. simpl.
      specialize (Hok 0%nat). rewrite Nat.add_0_r in Hok. apply Hok.
      simpl. lia. }
    rewrite (send_message_ok W _ s Hs).
    destruct (IH (sent (sub_message (snd kv)) s)) as (s' & Hrun & Hs' & Hw & Hm & Hn).
    { rewrite can_send_sent. exact Hc. }
    { intros i Hi.
      change (send_calls (env (sent (sub_message (snd kv)) s)))
        with (S (send_calls (env s))).
      replace (S (send_calls (env s)) + i)%nat
        with (send_calls (env s) + S i)%nat by lia.
      apply Hok. simpl. lia. }
    exists s'. split; [exact Hrun|]. split; [|split; [|split]].
    + eapply only_sent_trans; [apply only_sent_sent|exact Hs'].
    + rewrite Hw. simpl. rewrite <- app_assoc. reflexivity.
    + rewrite Hm. simpl. lia.
    + rewrite Hn. simpl. lia.
Qed.

Lemma silent_loop entries : forall s,
  can_send s = false ->
  for_each entries (fun kv : string * Subscription =>
    try_except (_send_message W (sub_message (snd kv))) (fun _ => ret tt)) s
  = (Ok tt, s).
Proof.
  set (body := fun kv : string * Subscription =>
    try_except (_send_message W (sub_message (snd kv))) (fun _ => ret tt)).
  induction entries as [|kv rest IH]; intros s Hc; [reflexivity|].
  cbn [for_each]. unfold bind. unfold body at 1. unfold try_except.
  assert (Hs : send_succeeds W s = false).
  { unfold send_succeeds. rewrite Hc. reflexivity. }
  rewrite (send_message_fail W _ s Hs). unfold ret, unsent. rewrite Hc.
  apply IH. exact Hc.
Qed.

Lemma resubscribe_all_unfold s :
  _resubscribe_all W s =
  for_each (subscriptions (mgr s)) (fun kv : string * Subscription =>
    try_except (_send_message W (sub_message (snd kv))) (fun _ => ret tt)) s.
Proof. reflexivity. Qed.


(** X5: a [connect] whose transport opens returns with the manager
    connected, the failure counter at 0 and the connection start time
    set, keeps the registry, the callbacks and the poll queue, and, when
    the sends go through, replays every stored wire message in registry
    order; a [connect] whose transport does not open raises the
    connection error with the connected flag cleared and the failure
    counter, the registry and the wire unchanged. *)
Theorem connect_outcomes s :
  (connect_ok W (connect_calls (env s)) = true ->
   exists s',
     connect W s = (Ok tt, s') /\
     connected (mgr s') = true /\
     ws (mgr s') = Some (connect_calls (env s)) /\
     reconnect_attempts (mgr s') = 0%nat /\
     connection_start_time (stats (mgr s')) = Some (clock (env s)) /\
     subscriptions (mgr s') = subscriptions (mgr s) /\
     message_handlers (mgr s') = message_handlers (mgr s) /\
     message_queue (mgr s') = message_queue (mgr s) /\
     ((forall i, (i < List.length (subscriptions (mgr s)))%nat ->
                 send_ok W (send_calls (env s) + i) = true) ->
      wire (env s') =
        wire (env s) ++
        map (fun kv => sub_message (snd kv)) (subscriptions (mgr s)))) /\
  (connect_ok W (connect_calls (env s)) = false ->
   exists s',
     connect W s = (Raise ConnectionError, s') /\
     connected (mgr s') = false /\
     reconnect_attempts (mgr s') = reconnect_attempts (mgr s) /\
     subscriptions (mgr s') = subscriptions (mgr s) /\
     message_handlers (mgr s') = message_handlers (mgr s) /\
     wire (env s') = wire (env s)).
Proof.
  split.
  - intros Hc. destruct (connect_ok_spec W s Hc) as (s' & Hrun & [Hm He]).
    exists s'. split; [exact Hrun|].
    rewrite Hm. simpl. repeat (split; [reflexivity|]).
    intros Hok.
    assert (Hrun' : _resubscribe_all W (opened s) = (Ok tt, s')).
    { unfold connect in Hrun. rewrite Hc in Hrun. exact Hrun. }
    destruct (replay_loop (subscriptions (mgr (opened s))) (opened s)
                eq_refl Hok)
      as (s'' & Hrun'' & _ & Hw & _).
    rewrite resubscribe_all_unfold in Hrun'.
    rewrite Hrun' in Hrun''. injection Hrun'' as <-. exact Hw.
  - intros Hc. rewrite (connect_fail_spec W s Hc).
    exists (refused s). repeat split.
Qed.

End Replay.

(* ------------------------------------------------------------------ *)
(** ** A reconnection that succeeds *)

Section ReconnectSuccess.
Variable W : World.

Lemma reconnect_succeeds j : forall fuel s,
  (max_reconnect_attempts (mgr s) - reconnect_attempts (mgr s) < fuel)%nat ->
  (j < max_reconnect_attempts (mgr s) - reconnect_attempts (mgr s))%nat ->
  (forall i, (i < j)%nat -> connect_ok W (connect_calls (env s) + i) = false) ->
  connect_ok W (connect_calls (env s) + j) = true ->
  exists s',
    reconnect W fuel s = Some (Ok tt, s') /\
    connected (mgr s') = true /\
    reconnect_attempts (mgr s') = 0%nat /\
    reconnections (stats (mgr s')) = S (reconnections (stats (mgr s))) /\
    slept (env s') =
      slept (env s) ++
      map (backoff_delay (base_reconnect_delay (mgr s)))
          (seq (S (reconnect_attempts (mgr s))) (S j)) /\
    connect_calls (env s') = (connect_calls (env s) + S j)%nat /\
    subscriptions (mgr s') = subscriptions (mgr s).
Proof.
  induction j as [|j IH]; intros fuel s Hfuel Hj Hfail Hok;
    (destruct fuel as [|fuel]; [lia|]); cbn [reconnect];
    (destruct (Nat.leb_spec (max_reconnect_attempts (mgr s))
                            (reconnect_attempts (mgr s))) as [Hle|Hlt];
     [lia|]); fold (backed_off s).
  - rewrite Nat.add_0_r in Hok.
    destruct (connect_ok_spec W (backed_off s) Hok) as (s2 & -> & [Hm He]).
    eexists. split; [reflexivity|]. simpl. rewrite Hm, He. simpl.
    repeat split. lia.
  - assert (Hc : connect_ok W (connect_calls (env (backed_off s))) = false).
    { specialize (Hfail 0%nat). rewrite Nat.add_0_r in Hfail.
      apply Hfail. lia. }
    rewrite (connect_fail_spec W (backed_off s) Hc).
    destruct (IH fuel (refused (backed_off s)))
      as (s' & -> & Hcon & Hatt & Hrec & Hsl & Hcc & Hsub).
    + simpl. lia.
    + simpl. lia.
    + intros i Hi.
      change (connect_calls (env (refused (backed_off s))))
        with (S (connect_calls (env s))).
      replace (S (connect_calls (env s)) + i)%nat
        with (connect_calls (env s) + S i)%nat by lia.
      apply Hfail. lia.
    + change (connect_calls (env (refused (backed_off s))))
        with (S (connect_calls (env s))).
      replace (S (connect_calls (env s)) + j)%nat
        with (connect_calls (env s) + S j)%nat by lia.
      exact Hok.
    + simpl in Hrec, Hsl, Hcc, Hsub.
      exists s'. split; [reflexivity|].
      repeat (split; [assumption|]). split; [|split].
      * rewrite Hsl, <- app_assoc. reflexivity.
      * rewrite Hcc. lia.
      * exact Hsub.
Qed.

(** X6: when the first [j] connect calls of a [reconnect] fail and the
    next one opens the transport, with [j] below the number of attempts
    left, [reconnect] returns normally after exactly [j + 1] attempts
    with the backoff delays of those attempts, the manager connected,
    the failure counter back at 0, the reconnection count one higher and
    the registry unchanged. *)
Theorem reconnect_recovers j s :
  (j < max_reconnect_attempts (mgr s) - reconnect_attempts (mgr s))%nat ->
  (forall i, (i < j)%nat -> connect_ok W (connect_calls (env s) + i) = false) ->
  connect_ok W (connect_calls (env s) + j) = true ->
  exists s',
    reconnect W (reconnect_fuel s) s = Some (Ok tt, s') /\
    connected (mgr s') = true /\
    reconnect_attempts (mgr s') = 0%nat /\
    reconnections (stats (mgr s')) = S (reconnections (stats (mgr s))) /\
    slept (env s') =
      slept (env s) ++
      map (backoff_delay (base_reconnect_delay (mgr s)))
          (seq (S (reconnect_attempts (mgr s))) (S j)) /\
    connect_calls (env s') = (connect_calls (env s) + S j)%nat /\
    subscriptions (mgr s') = subscriptions (mgr s).
Proof.
  intros Hj Hfail Hok. apply reconnect_succeeds; try assumption.
  unfold reconnect_fuel. lia.
Qed.

End ReconnectSuccess.

(* ------------------------------------------------------------------ *)
(** ** After a disconnect *)

Section Disconnected.
Variable W : World.

Lemma send_message_closed message s :
  can_send s = false ->
  _send_message W message s = (Raise NotConnectedError, s).
Proof.
  intros Hc.
  assert (Hs : send_succeeds W s = false)
    by (unfold send_succeeds; rewrite Hc; reflexivity).
  rewrite (send_message_fail W message s Hs).
  unfold send_error, unsent. rewrite Hc. reflexivity.
Qed.

Lemma unsubscribe_closed sub_id s :
  can_send s = false ->
  unsubscribe W sub_id s =
  (Raise (match PyDict.get sub_id (subscriptions (mgr s)) with
          | Some _ => NotConnectedError
          | None => NotFoundError sub_id
          end), s).
Proof.
  intros Hc.
  destruct (PyDict.get sub_id (subscriptions (mgr s))) as [e|] eqn:Hget.
  - assert (Hs : send_succeeds W s = false)
      by (unfold send_succeeds; rewrite Hc; reflexivity).
    rewrite (unsubscribe_fail W sub_id e s Hget Hs).
    unfold send_error, unsent. rewrite Hc. reflexivity.
  - apply unsubscribe_unknown. exact Hget.
Qed.

(** X7: [disconnect] never raises; it clears the connected flag, the
    transport handle and the running flag and keeps the registry, the
    callbacks and the poll queue.  Until the next connect every send
    raises the not-connected error without touching the state:
    [subscribe] fails with it wrapped in the subscription error,
    [unsubscribe] of a registered id fails with it and keeps the entry,
    and [_resubscribe_all] sends nothing. *)
Theorem disconnect_effect s :
  let '(r, s') := disconnect s in
  r = Ok tt /\
  connected (mgr s') = false /\ ws (mgr s') = None /\
  running (mgr s') = false /\
  subscriptions (mgr s') = subscriptions (mgr s) /\
  message_handlers (mgr s') = message_handlers (mgr s) /\
  message_queue (mgr s') = message_queue (mgr s) /\
  (forall message,
     _send_message W message s' = (Raise NotConnectedError, s')) /\
  (forall t p cb,
     fst (subscribe W t p cb s') = Raise (SubscriptionError NotConnectedError)) /\
  (forall sub_id sub_data,
     PyDict.get sub_id (subscriptions (mgr s)) = Some sub_data ->
     unsubscribe W sub_id s' = (Raise NotConnectedError, s')) /\
  _resubscribe_all W s' = (Ok tt, s').
Proof.
  unfold disconnect, modify.
  set (s' := on_mgr _ s).
  assert (Hc : can_send s' = false) by reflexivity.
  do 7 (split; [reflexivity|]).
  split; [|split; [|split]].
  - intros message. apply send_message_closed. exact Hc.
  - intros t p cb. rewrite subscribe_fail.
    + unfold send_error. rewrite Hc. reflexivity.
    + unfold send_succeeds. rewrite Hc. reflexivity.
  - intros sub_id sub_data Hget. rewrite (unsubscribe_closed sub_id s' Hc).
    change (subscriptions (mgr s')) with (subscriptions (mgr s)).
    rewrite Hget. reflexivity.
  - rewrite resubscribe_all_unfold. apply silent_loop. exact Hc.
Qed.


End Disconnected.

(* ------------------------------------------------------------------ *)
(** ** Unsubscribing from everything *)

Section UnsubscribeAll.
Variable W : World.





End UnsubscribeAll.

(* ------------------------------------------------------------------ *)
(** ** The statistics along a run *)

Section Statistics.
Variable W : World.

Lemma keeps_counts_refl s : keeps_counts s s.
Proof. split; reflexivity. Qed.

Lemma keeps_counts_trans s1 s2 s3 :
  keeps_counts s1 s2 -> keeps_counts s2 s3 -> keeps_counts s1 s3.
Proof. intros [H1 H2] [H3 H4]. split; [congruence|lia]. Qed.

Lemma keeps_counts_sent message s : keeps_counts s (sent message s).
Proof. split; simpl; [reflexivity|]. rewrite length_app. simpl. lia. Qed.

Lemma keeps_counts_unsent s : keeps_counts s (unsent s).
Proof. unfold unsent. destruct (can_send s); split; reflexivity. Qed.

Lemma send_message_counts message s :
  keeps_counts s (snd (_send_message W message s)).
Proof.
  destruct (send_message_cases W message s) as [[_ ->]|[_ ->]]; simpl.
  - apply keeps_counts_sent.
  - apply keeps_counts_unsent.
Qed.

Lemma resubscribe_loop_counts entries : forall s,
  keeps_counts s
    (snd (for_each entries (fun kv : string * Subscription =>
            try_except (_send_message W (sub_message (snd kv)))
                       (fun _ => ret tt)) s)).
Proof.
  set (body := fun kv : string * Subscription =>
    try_except (_send_message W (sub_message (snd kv))) (fun _ => ret tt)).
  induction entries as [|kv rest IH]; intros s; [apply keeps_counts_refl|].
  cbn [for_each]. unfold bind. unfold body at 1. unfold try_except.
  pose proof (send_message_counts (sub_message (snd kv)) s) as Hs.
  destruct (_send_message W (sub_message (snd kv)) s) as [[[]|e] s1];
    simpl in Hs; unfold ret; cbv beta iota;
    (eapply keeps_counts_trans; [exact Hs|]);
    specialize (IH s1);
    destruct (for_each rest body s1) as [[[]|e'] s2]; exact IH.
Qed.

Lemma connect_counts s : keeps_counts s (snd (connect W s)).
Proof.
  unfold connect. destruct (connect_ok W (connect_calls (env s))).
  - rewrite resubscribe_all_unfold.
    eapply keeps_counts_trans; [|apply resubscribe_loop_counts].
    split; reflexivity.
  - split; reflexivity.
Qed.

Lemma reconnect_counts fuel : forall s r s',
  reconnect W fuel s = Some (r, s') -> keeps_counts s s'.
Proof.
  induction fuel as [|fuel IH]; intros s r s'; [discriminate|].
  cbn [reconnect].
  destruct (max_reconnect_attempts (mgr s) <=? reconnect_attempts (mgr s))%nat.
  - intros [= _ <-]. apply keeps_counts_refl.
  - fold (backed_off s).
    pose proof (connect_counts (backed_off s)) as Hc.
    assert (Hb : keeps_counts s (backed_off s)) by (split; reflexivity).
    destruct (connect W (backed_off s)) as [[[]|e] s2]; simpl in Hc.
    + intros [= _ <-].
      eapply keeps_counts_trans; [exact Hb|].
      eapply keeps_counts_trans; [exact Hc|]. split; reflexivity.
    + intros H.
      eapply keeps_counts_trans; [exact Hb|].
      eapply keeps_counts_trans; [exact Hc|]. eapply IH. exact H.
Qed.

Lemma subscribe_counts t p cb s :
  keeps_counts s (snd (subscribe W t p cb s)).
Proof.
  assert (Hr : keeps_counts s (registered (sub_id_of W t p) t p cb s)).
  { unfold registered. destruct cb; split; reflexivity. }
  destruct (send_succeeds W s) eqn:E.
  - rewrite (subscribe_ok W t p cb s E). cbn [snd].
    eapply keeps_counts_trans; [exact Hr|apply keeps_counts_sent].
  - rewrite (subscribe_fail W t p cb s E). cbn [snd].
    eapply keeps_counts_trans; [exact Hr|].
    apply (keeps_counts_trans _
             (unsent (registered (sub_id_of W t p) t p cb s)));
      [apply keeps_counts_unsent|].
    split; reflexivity.
Qed.

Lemma unsubscribe_counts i s :
  keeps_counts s (snd (unsubscribe W i s)).
Proof.
  destruct (PyDict.get i (subscriptions (mgr s))) as [e|] eqn:Hget.
  - destruct (send_succeeds W s) eqn:Hs.
    + rewrite (unsubscribe_ok W _ _ _ Hget Hs). cbn [snd].
      apply (keeps_counts_trans s (sent (unsubscribe_message e) s));
        [apply keeps_counts_sent|].
      assert (Hst : stats (mgr (removed i (sent (unsubscribe_message e) s)))
                    = stats (mgr (sent (unsubscribe_message e) s))).
      { unfold removed, on_mgr. cbn [mgr].
        destruct (PyDict.mem i _); reflexivity. }
      split; [rewrite Hst; reflexivity|]. rewrite Hst. reflexivity.
    + rewrite (unsubscribe_fail W _ _ _ Hget Hs). cbn [snd].
      apply keeps_counts_unsent.
  - rewrite (unsubscribe_unknown W _ _ Hget). apply keeps_counts_refl.
Qed.

Lemma handled_counts message s :
  messages_received (stats (mgr (handled message s))) =
    (messages_received (stats (mgr s)) +
     match message with Parsed _ => 1 | Malformed => 0 end)%nat /\
  messages_sent (stats (mgr (handled message s))) =
    messages_sent (stats (mgr s)) /\
  wire (env (handled message s)) = wire (env s).
Proof.
  destruct message as [|data]; [simpl; repeat split; lia|].
  rewrite received_handled.
  split; [lia|].
  destruct data; try (split; reflexivity).
  unfold handled. destruct (enqueues _ s); split; reflexivity.
Qed.

(** One operation: the received count grows by one for a frame that
    parses, and the sent count grows with the wire. *)
Lemma step_counts op s :
  messages_received (stats (mgr (step W op s))) =
    (messages_received (stats (mgr s)) + parsed_frames [op])%nat /\
  (messages_sent (stats (mgr (step W op s))) + List.length (wire (env s)) =
   messages_sent (stats (mgr s)) + List.length (wire (env (step W op s))))%nat.
Proof.
  assert (Hk : forall s', keeps_counts s s' ->
            match op with OpHandleMessage _ => False | _ => True end ->
            messages_received (stats (mgr s')) =
              (messages_received (stats (mgr s)) + parsed_frames [op])%nat /\
            (messages_sent (stats (mgr s')) + List.length (wire (env s)) =
             messages_sent (stats (mgr s)) + List.length (wire (env s')))%nat).
  { intros s' [H1 H2] Hop. split; [|exact H2].
    rewrite H1. destruct op; try contradiction; unfold parsed_frames; simpl; lia. }
  destruct op as [| | | |t p cb|i|message|]; cbn [step].
  - apply Hk; [apply connect_counts|exact I].
  - apply Hk; [split; reflexivity|exact I].
  - apply Hk; [|exact I].
    destruct (reconnect W (reconnect_fuel s) s) as [[r s']|] eqn:E.
    + eapply reconnect_counts. exact E.
    + apply keeps_counts_refl.
  - apply Hk; [|exact I]. rewrite resubscribe_all_unfold.
    apply resubscribe_loop_counts.
  - apply Hk; [apply subscribe_counts|exact I].
  - apply Hk; [apply unsubscribe_counts|exact I].
  - rewrite handle_message_eq. cbn [snd].
    destruct (handled_counts message s) as (Hr & Hs & Hw).
    rewrite Hr, Hs, Hw. split; [|reflexivity].
    unfold parsed_frames. destruct message; simpl; lia.
  - apply Hk; [apply keeps_counts_refl|exact I].
Qed.

Lemma run_counts ops : forall s,
  messages_received (stats (mgr (run W ops s))) =
    (messages_received (stats (mgr s)) + parsed_frames ops)%nat /\
  (messages_sent (stats (mgr (run W ops s))) + List.length (wire (env s)) =
   messages_sent (stats (mgr s)) + List.length (wire (env (run W ops s))))%nat.
Proof.
  induction ops as [|op rest IH]; intros s.
  - unfold run, parsed_frames. simpl. split; lia.
  - change (run W (op :: rest) s) with (run W rest (step W op s)).
    destruct (IH (step W op s)) as [H1 H2].
    destruct (step_counts op s) as [H3 H4].
    split.
    + rewrite H1, H3. unfold parsed_frames. simpl.
      destruct op as [| | | | | |[|d]|]; simpl; lia.
    + lia.
Qed.

(** X9: after any sequence of manager operations on a fresh manager,
    the [messages_sent] figure reported by [get_stats] is exactly the
    number of messages the transport has accepted, and the
    [messages_received] figure is exactly the number of inbound frames
    that parsed as JSON (whether or not they were routed or enqueued);
    the [subscriptions] figure is the size of the registry. *)
Theorem get_stats_is_accurate ops now :
  let s := run W ops (init now) in
  exists report,
    get_stats s = (Ok report, s) /\
    stats_messages_sent report = List.length (wire (env s)) /\
    stats_messages_received report = parsed_frames ops /\
    stats_subscriptions report = List.length (subscriptions (mgr s)).
Proof.
  intros s. unfold get_stats, gets. eexists. split; [reflexivity|]. simpl.
  destruct (run_counts ops (init now)) as [H1 H2]. fold s in H1, H2.
  simpl in H1, H2. repeat split; lia.
Qed.

End Statistics.

(* ------------------------------------------------------------------ *)
(** ** Account-scoped subscriptions *)

Section AccountFacade.
Variable W : World.

Lemma order_ids_differ p1 p2 :
  sub_id_of W "orderUpdates" p1 <> sub_id_of W "userFills" p2.
Proof. unfold sub_id_of. simpl. discriminate. Qed.

(** X10: [subscribe_user_events] without a usable account address
    ([None] or the empty string) raises its [ValueError] before anything
    is registered or sent; with an address and a send that goes through
    it returns the id of a [userEvents] entry whose parameters and wire
    message carry that address. *)
Theorem subscribe_user_events_outcomes account_address callback s :
  (account_address = None \/ account_address = Some EmptyString ->
   subscribe_user_events W account_address callback s =
     (Failed UserAddressRequired, s)) /\
  (forall address,
     account_address = Some address -> address <> EmptyString ->
     send_succeeds W s = true ->
     exists s',
       subscribe_user_events W account_address callback s =
         (Returned (sub_id_of W "userEvents" (user_params address)), s') /\
       PyDict.get (sub_id_of W "userEvents" (user_params address))
                  (subscriptions (mgr s')) =
         Some (mkSub "userEvents" [("user", JStr address)]
                     (mkWire "subscribe"
                        [("type", JStr "userEvents"); ("user", JStr address)])
                     callback 0 (clock (env s))) /\
       wire (env s') =
         wire (env s) ++
         [mkWire "subscribe"
                 [("type", JStr "userEvents"); ("user", JStr address)]]).
Proof.
  split.
  - intros [->| ->]; reflexivity.
  - intros address -> Hne Hs. unfold subscribe_user_events.
    assert (Ht : truthy_address (Some address) = Some address).
    { destruct address; [contradiction|reflexivity]. }
    rewrite Ht. unfold from_manager.
    rewrite (subscribe_ok W _ _ callback s Hs).
    eexists. split; [reflexivity|]. split.
    + change (subscriptions (mgr (sent ?m ?st))) with (subscriptions (mgr st)).
      rewrite subscriptions_registered. apply PyDictFacts.get_set_same.
    + unfold registered. destruct callback; reflexivity.
Qed.

(** X11: with an account address, an open connection and two sends that
    go through, [subscribe_order_updates] returns two different ids,
    the first of an [orderUpdates] entry and the second of a [userFills]
    entry, both parameterised with the address and with counter 0, and
    has sent their two subscribe messages in that order; a frame of
    channel [orderUpdates] handled afterwards raises the counter of the
    first entry to 1 and leaves the second at 0. *)
Theorem subscribe_order_updates_registers_both address callback s :
  address <> EmptyString ->
  can_send s = true ->
  send_ok W (send_calls (env s)) = true ->
  send_ok W (S (send_calls (env s))) = true ->
  let id1 := sub_id_of W "orderUpdates" (user_params address) in
  let id2 := sub_id_of W "userFills" (user_params address) in
  exists s',
    subscribe_order_updates W (Some address) callback s =
      (Returned [id1; id2], s') /\
    id1 <> id2 /\
    option_map (fun e => (sub_type e, sub_params e, sub_messages_received e))
               (PyDict.get id1 (subscriptions (mgr s'))) =
      Some ("orderUpdates", user_params address, 0%nat) /\
    option_map (fun e => (sub_type e, sub_params e, sub_messages_received e))
               (PyDict.get id2 (subscriptions (mgr s'))) =
      Some ("userFills", user_params address, 0%nat) /\
    wire (env s') =
      wire (env s) ++
      [subscribe_message "orderUpdates" (user_params address);
       subscribe_message "userFills" (user_params address)] /\
    forall rest,
      let s'' := snd (_handle_message (channel_frame "orderUpdates" rest) s') in
      option_map sub_messages_received
                 (PyDict.get id1 (subscriptions (mgr s''))) = Some 1%nat /\
      option_map sub_messages_received
                 (PyDict.get id2 (subscriptions (mgr s''))) = Some 0%nat.
Proof.
  intros Hne Hc Hok0 Hok1 id1 id2.
  assert (Hdiff : id1 <> id2) by apply order_ids_differ.
  unfold subscribe_order_updates.
  assert (Ht : truthy_address (Some address) = Some address).
  { destruct address; [contradiction|reflexivity]. }
  rewrite Ht. unfold from_manager, order_updates_body.
  unfold bind at 1. unfold try_except at 1.
  assert (Hs : send_succeeds W s = true).
  { unfold send_succeeds. rewrite Hc, Hok0. reflexivity. }
  rewrite (subscribe_ok W _ _ callback s Hs). fold id1.
  set (s1 := sent (subscribe_message "orderUpdates" (user_params address))
               (registered id1 "orderUpdates" (user_params address) callback s)).
  assert (Hs1 : send_succeeds W s1 = true).
  { unfold send_succeeds, s1. rewrite can_send_sent, can_send_registered, Hc.
    simpl. unfold registered. destruct callback; exact Hok1. }
  unfold bind at 1. unfold try_except at 1.
  rewrite (subscribe_ok W _ _ callback s1 Hs1). fold id2.
  set (s2 := sent (subscribe_message "userFills" (user_params address))
               (registered id2 "userFills" (user_params address) callback s1)).
  assert (Hsubs2 : subscriptions (mgr s2) =
            PyDict.set id2
              (mkSub "userFills" (user_params address)
                     (subscribe_message "userFills" (user_params address))
                     callback 0 (clock (env s)))
              (PyDict.set id1
                 (mkSub "orderUpdates" (user_params address)
                        (subscribe_message "orderUpdates" (user_params address))
                        callback 0 (clock (env s)))
                 (subscriptions (mgr s)))).
  { unfold s2.
    change (subscriptions (mgr (sent ?m ?st))) with (subscriptions (mgr st)).
    rewrite subscriptions_registered. unfold s1.
    change (subscriptions (mgr (sent ?m ?st))) with (subscriptions (mgr st)).
    rewrite subscriptions_registered.
    unfold registered. destruct callback; reflexivity. }
  assert (Hg1 : PyDict.get id1 (subscriptions (mgr s2)) =
                Some (mkSub "orderUpdates" (user_params address)
                        (subscribe_message "orderUpdates" (user_params address))
                        callback 0 (clock (env s)))).
  { rewrite Hsubs2. rewrite PyDictFacts.get_set_other by exact Hdiff.
    apply PyDictFacts.get_set_same. }
  assert (Hg2 : PyDict.get id2 (subscriptions (mgr s2)) =
                Some (mkSub "userFills" (user_params address)
                        (subscribe_message "userFills" (user_params address))
                        callback 0 (clock (env s)))).
  { rewrite Hsubs2. apply PyDictFacts.get_set_same. }
  exists s2. split; [reflexivity|]. split; [exact Hdiff|].
  split; [rewrite Hg1; reflexivity|]. split; [rewrite Hg2; reflexivity|].
  split.
  - unfold s2, s1, registered. destruct callback; simpl;
      rewrite <- app_assoc; reflexivity.
  - intros rest. cbv zeta. rewrite handle_message_eq. cbn [snd].
    rewrite subscriptions_handled, !get_deliver, Hg1, Hg2. split; reflexivity.
Qed.

End AccountFacade.

(** An address and a manager that has just been started. *)
Lemma subscribe_user_events_outcomes_witness :
  let W := world_up in
  let s := started W in
  (Some EmptyString = None \/ Some EmptyString = Some EmptyString) /\
  subscribe_user_events W (Some EmptyString) None s =
    (Failed UserAddressRequired, s) /\
  "0xabc"%string <> EmptyString /\
  send_succeeds W s = true /\
  exists s',
    subscribe_user_events W (Some "0xabc"%string) None s =
      (Returned (sub_id_of W "userEvents" (user_params "0xabc")), s').
Proof.
  intros W s.
  assert (H0 : Some EmptyString = None \/ Some EmptyString = Some EmptyString)
    by (right; reflexivity).
  assert (H1 : "0xabc"%string <> EmptyString) by discriminate.
  assert (H2 : send_succeeds W s = true) by reflexivity.
  split; [exact H0|].
  split; [exact (proj1 (subscribe_user_events_outcomes W (Some EmptyString)
                          None s) H0)|].
  split; [exact H1|]. split; [exact H2|].
  destruct (proj2 (subscribe_user_events_outcomes W (Some "0xabc"%string) None s)
              "0xabc"%string eq_refl H1 H2) as (s' & H & _).
  exists s'. exact H.
Defined.

Lemma subscribe_order_updates_registers_both_witness :
  let W := world_up in
  let s := started W in
  "0xabc"%string <> EmptyString /\
  can_send s = true /\
  send_ok W (send_calls (env s)) = true /\
  send_ok W (S (send_calls (env s))) = true /\
  exists s',
    subscribe_order_updates W (Some "0xabc"%string) None s =
      (Returned [sub_id_of W "orderUpdates" (user_params "0xabc");
                 sub_id_of W "userFills" (user_params "0xabc")], s') /\
    List.length (wire (env s')) = 2%nat.
Proof.
  intros W s.
  assert (H1 : "0xabc"%string <> EmptyString) by discriminate.
  assert (H2 : can_send s = true) by reflexivity.
  assert (H3 : send_ok W (send_calls (env s)) = true) by reflexivity.
  assert (H4 : send_ok W (S (send_calls (env s))) = true) by reflexivity.
  repeat (split; [assumption|]).
  destruct (subscribe_order_updates_registers_both W "0xabc"%string None s
              H1 H2 H3 H4) as (s' & Hrun & _ & _ & _ & Hw & _).
  exists s'. split; [exact Hrun|]. rewrite Hw. reflexivity.
Defined.

Section OrderUpdatesRollback.
Variable W : World.

Lemma rollback_one sub_id s :
  rollback W [sub_id] s =
  match unsubscribe W sub_id s with
  | (_, s') => (Ok tt, s')
  end.
Proof.
  unfold rollback. cbn [for_each]. unfold bind, try_except, ret.
  destruct (unsubscribe W sub_id s) as [[[]|e] s']; reflexivity.
Qed.

(** X12: when a send of [subscribe_order_updates] fails the call raises
    the subscription error after a best-effort rollback.  If the first
    send fails, nothing is registered or sent.  If the second send fails
    and the unsubscribe message of the rollback goes through, neither id
    is registered afterwards.  If the second send fails and the rollback
    send fails too, the [orderUpdates] entry stays registered although
    the call has failed. *)
Theorem subscribe_order_updates_rollback address callback s :
  address <> EmptyString ->
  PyDict.wf (subscriptions (mgr s)) ->
  let id1 := sub_id_of W "orderUpdates" (user_params address) in
  let id2 := sub_id_of W "userFills" (user_params address) in
  let n := send_calls (env s) in
  (send_succeeds W s = false ->
   exists s',
     subscribe_order_updates W (Some address) callback s =
       (Failed (FromManager (SubscriptionError (send_error s))), s') /\
     PyDict.get id1 (subscriptions (mgr s')) = None /\
     wire (env s') = wire (env s)) /\
  (can_send s = true -> send_ok W n = true -> send_ok W (S n) = false ->
   exists s',
     subscribe_order_updates W (Some address) callback s =
       (Failed (FromManager (SubscriptionError SendError)), s') /\
     PyDict.get id2 (subscriptions (mgr s')) = None /\
     if send_ok W (S (S n)) then
       PyDict.get id1 (subscriptions (mgr s')) = None /\
       wire (env s') =
         wire (env s) ++
         [subscribe_message "orderUpdates" (user_params address);
          mkWire "unsubscribe"
                 (subscription
                    (subscribe_message "orderUpdates" (user_params address)))]
     else
       PyDict.mem id1 (subscriptions (mgr s')) = true /\
       wire (env s') =
         wire (env s) ++
         [subscribe_message "orderUpdates" (user_params address)]).
Proof.
  intros Hne Hwf id1 id2 n.
  assert (Hdiff : id1 <> id2) by apply order_ids_differ.
  assert (Ht : truthy_address (Some address) = Some address).
  { destruct address; [contradiction|reflexivity]. }
  unfold subscribe_order_updates. rewrite Ht.
  unfold from_manager, order_updates_body.
  set (p := user_params address).
  set (e1 := mkSub "orderUpdates" p (subscribe_message "orderUpdates" p)
                   callback 0 (clock (env s))).
  split.
  - intros Hs. unfold bind at 1. unfold try_except at 1.
    rewrite (subscribe_fail W _ _ callback s Hs). fold id1.
    unfold bind at 1. unfold rollback. cbn [for_each]. unfold ret, raise.
    eexists. split; [reflexivity|]. split.
    + unfold dropped. simpl. rewrite mgr_unsent, subscriptions_registered.
      apply PyDictFacts.get_del_same, PyDictFacts.wf_set. exact Hwf.
    + unfold dropped. simpl. rewrite wire_unsent.
      unfold registered. destruct callback; reflexivity.
  - intros Hc Hok0 Hbad1.
    assert (Hs : send_succeeds W s = true).
    { unfold send_succeeds. rewrite Hc. exact Hok0. }
    unfold bind at 1. unfold try_except at 1.
    rewrite (subscribe_ok W _ _ callback s Hs). fold id1.
    set (s1 := sent (subscribe_message "orderUpdates" p)
                 (registered id1 "orderUpdates" p callback s)).
    assert (Hc1 : can_send s1 = true).
    { unfold s1. rewrite can_send_sent, can_send_registered. exact Hc. }
    assert (Hn1 : send_calls (env s1) = S n).
    { unfold s1, registered. destruct callback; reflexivity. }
    assert (Hsubs1 : subscriptions (mgr s1) =
                     PyDict.set id1 e1 (subscriptions (mgr s))).
    { unfold s1.
      change (subscriptions (mgr (sent ?m ?st))) with (subscriptions (mgr st)).
      apply subscriptions_registered. }
    assert (Hw1 : wire (env s1) =
                  wire (env s) ++ [subscribe_message "orderUpdates" p]).
    { unfold s1, registered. destruct callback; reflexivity. }
    assert (Hs1 : send_succeeds W s1 = false).
    { unfold send_succeeds. rewrite Hc1, Hn1, Hbad1. reflexivity. }
    unfold bind at 1. unfold try_except at 1.
    rewrite (subscribe_fail W _ _ callback s1 Hs1). fold id2.
    set (s2 := dropped id2
                 (unsent (registered id2 "userFills" p callback s1))).
    assert (Hc2 : can_send s2 = true).
    { unfold s2, can_send, dropped. simpl. rewrite mgr_unsent.
      fold (can_send (registered id2 "userFills" p callback s1)).
      rewrite can_send_registered. exact Hc1. }
    assert (Hn2 : send_calls (env s2) = S (S n)).
    { unfold s2, dropped. simpl. rewrite send_calls_unsent.
      - assert (Hr : send_calls (env (registered id2 "userFills" p callback s1))
                     = send_calls (env s1))
          by (unfold registered; destruct callback; reflexivity).
        rewrite Hr, Hn1. reflexivity.
      - rewrite can_send_registered. exact Hc1. }
    assert (Hsubs2 : subscriptions (mgr s2) =
              PyDict.del id2
                (PyDict.set id2
                   (mkSub "userFills" p (subscribe_message "userFills" p)
                          callback 0 (clock (env s1)))
                   (PyDict.set id1 e1 (subscriptions (mgr s))))).
    { unfold s2, dropped. simpl. rewrite mgr_unsent.
      rewrite subscriptions_registered, Hsubs1. reflexivity. }
    assert (Hw2 : wire (env s2) =
                  wire (env s) ++ [subscribe_message "orderUpdates" p]).
    { unfold s2, dropped. simpl. rewrite wire_unsent. rewrite <- Hw1.
      unfold registered. destruct callback; reflexivity. }
    assert (Hwf2 : PyDict.wf (subscriptions (mgr s2))).
    { rewrite Hsubs2. apply PyDictFacts.wf_del, PyDictFacts.wf_set,
        PyDictFacts.wf_set. exact Hwf. }
    assert (Hg1 : PyDict.get id1 (subscriptions (mgr s2)) = Some e1).
    { rewrite Hsubs2. rewrite PyDictFacts.get_del_other by exact Hdiff.
      rewrite PyDictFacts.get_set_other by exact Hdiff.
      apply PyDictFacts.get_set_same. }
    assert (Hg2 : PyDict.get id2 (subscriptions (mgr s2)) = None).
    { rewrite Hsubs2. apply PyDictFacts.get_del_same, PyDictFacts.wf_set,
        PyDictFacts.wf_set. exact Hwf. }
    unfold send_error. rewrite Hc1.
    unfold bind at 1. rewrite rollback_one. unfold raise.
    change (sub_id_of W "orderUpdates" p) with id1.
    change (sub_id_of W "userFills" p) with id2.
    change (dropped id2 (unsent (registered id2 "userFills" p callback s1)))
      with s2.
    destruct (send_ok W (S (S n))) eqn:Hthird.
    + assert (Hs2 : send_succeeds W s2 = true).
      { unfold send_succeeds. rewrite Hc2, Hn2, Hthird. reflexivity. }
      rewrite (unsubscribe_ok W id1 e1 s2 Hg1 Hs2).
      eexists. split; [reflexivity|].
      rewrite !subscriptions_removed.
      change (subscriptions (mgr (sent ?m ?st))) with (subscriptions (mgr st)).
      split; [|split].
      * rewrite PyDictFacts.get_del_other by congruence. exact Hg2.
      * apply PyDictFacts.get_del_same. exact Hwf2.
      * assert (Hwr : wire (env (removed id1 (sent (unsubscribe_message e1) s2)))
                      = wire (env s2) ++ [unsubscribe_message e1])
          by reflexivity.
        rewrite Hwr, Hw2, <- app_assoc. reflexivity.
    + assert (Hs2 : send_succeeds W s2 = false).
      { unfold send_succeeds. rewrite Hc2, Hn2, Hthird. reflexivity. }
      rewrite (unsubscribe_fail W id1 e1 s2 Hg1 Hs2).
      eexists. split; [reflexivity|].
      rewrite mgr_unsent, wire_unsent. split; [exact Hg2|]. split.
      * unfold PyDict.mem. rewrite Hg1. reflexivity.
      * exact Hw2.
Qed.

End OrderUpdatesRollback.

(** The second send fails and the rollback goes through. *)
Lemma subscribe_order_updates_rollback_witness :
  let W := world_second_send_fails in
  let s := started W in
  "0xabc"%string <> EmptyString /\
  PyDict.wf (subscriptions (mgr s)) /\
  can_send s = true /\
  send_ok W (send_calls (env s)) = true /\
  send_ok W (S (send_calls (env s))) = false /\
  exists s',
    subscribe_order_updates W (Some "0xabc"%string) None s =
      (Failed (FromManager (SubscriptionError SendError)), s') /\
    PyDict.get (sub_id_of W "userFills" (user_params "0xabc"))
               (subscriptions (mgr s')) = None.
Proof.
  intros W s.
  assert (H1 : "0xabc"%string <> EmptyString) by discriminate.
  assert (H2 : PyDict.wf (subscriptions (mgr s))) by constructor.
  assert (H3 : can_send s = true) by reflexivity.
  assert (H4 : send_ok W (send_calls (env s)) = true) by reflexivity.
  assert (H5 : send_ok W (S (send_calls (env s))) = false) by reflexivity.
  repeat (split; [assumption|]).
  destruct (proj2 (subscribe_order_updates_rollback W "0xabc"%string None s
                     H1 H2) H3 H4 H5) as (s' & Hrun & Hg & _).
  exists s'. split; [exact Hrun|exact Hg].
Defined.

(* ------------------------------------------------------------------ *)
(** ** The listen loop *)

Section ListenFacts.
Variable W : World.

Lemma handled_connection message s :
  connected (mgr (handled message s)) = connected (mgr s) /\
  ws (mgr (handled message s)) = ws (mgr s) /\
  running (mgr (handled message s)) = running (mgr s).
Proof.
  destruct message as [|data]; [repeat split|].
  destruct data; try (repeat split; reflexivity).
  unfold handled. destruct (enqueues _ s); repeat split.
Qed.

(** X13: on a connected manager, [listen] handles the frames it
    receives one after the other in arrival order, a receive timeout
    being a pass that changes nothing; it makes no reconnection attempt
    and does not sleep. *)
Theorem listen_handles_in_order events s :
  connected (mgr s) = true -> ws (mgr s) <> None ->
  quiet events = true ->
  listen W events s =
  (Ok tt, fold_left (fun st message => handled message st) (frames_of events)
                    (on_mgr (set_running true) s)).
Proof.
  intros Hc Hw Hq. unfold listen, bind, modify.
  set (s0 := on_mgr (set_running true) s).
  assert (Hc0 : connected (mgr s0) = true) by exact Hc.
  assert (Hw0 : ws (mgr s0) <> None) by exact Hw.
  assert (Hr0 : running (mgr s0) = true) by reflexivity.
  clearbody s0. clear Hc Hw s.
  revert s0 Hc0 Hw0 Hr0.
  induction events as [|ev later IH]; intros s Hc Hw Hr; [reflexivity|].
  simpl in Hq. apply andb_true_iff in Hq. destruct Hq as [Hev Hq].
  cbn [listen_loop]. rewrite Hr. unfold listen_iteration. rewrite Hc.
  destruct (ws (mgr s)) as [h|] eqn:Hws; [|contradiction].
  destruct ev as [message| | | |]; try discriminate.
  - rewrite handle_message_eq. cbn [frames_of flat_map app fold_left].
    destruct (handled_connection message s) as (Hc' & Hw' & Hr').
    apply (IH Hq).
    + rewrite Hc'. exact Hc.
    + rewrite Hw', Hws. discriminate.
    + rewrite Hr'. exact Hr.
  - cbn [frames_of flat_map app]. apply (IH Hq); [exact Hc| |exact Hr].
    rewrite Hws. discriminate.
Qed.

Lemma reconnect_flags fuel : forall s s',
  connected (mgr s) = false ->
  reconnect W fuel s = Some (Raise ReconnectExhausted, s') ->
  connected (mgr s') = false /\ running (mgr s') = running (mgr s).
Proof.
  induction fuel as [|fuel IH]; intros s s' Hc; [discriminate|].
  cbn [reconnect].
  destruct (max_reconnect_attempts (mgr s) <=? reconnect_attempts (mgr s))%nat.
  - intros [= <-]. split; [exact Hc|reflexivity].
  - fold (backed_off s).
    destruct (connect_ok W (connect_calls (env (backed_off s)))) eqn:E.
    + destruct (connect_ok_spec W (backed_off s) E) as (s2 & -> & _).
      discriminate.
    + rewrite (connect_fail_spec W (backed_off s) E). intros H.
      destruct (IH (refused (backed_off s)) s' eq_refl H) as [H1 H2].
      split; [exact H1|exact H2].
Qed.

(** X14: when the connection closes under a running [listen] (closed
    connection or other WebSocket error) and every reconnection attempt
    fails, the exhaustion error raised by [reconnect] leaves the loop:
    [listen] ends with that exception after exactly the attempts that
    were left, without looking at any later event, with the manager
    disconnected and its [running] flag still set. *)
Theorem listen_ends_on_exhaustion ev later s :
  ev = RecvClosed \/ ev = RecvWebSocketError ->
  connected (mgr s) = true -> ws (mgr s) <> None ->
  running (mgr s) = true ->
  (forall i,
     (i < max_reconnect_attempts (mgr s) - reconnect_attempts (mgr s))%nat ->
     connect_ok W (connect_calls (env s) + i) = false) ->
  exists s',
    listen_loop W (ev :: later) s = (Raise ReconnectExhausted, s') /\
    connected (mgr s') = false /\
    running (mgr s') = true /\
    connect_calls (env s') =
      (connect_calls (env s)
       + (max_reconnect_attempts (mgr s) - reconnect_attempts (mgr s)))%nat.
Proof.
  intros Hev Hc Hw Hr Hfail.
  cbn [listen_loop]. rewrite Hr. unfold listen_iteration. rewrite Hc.
  destruct (ws (mgr s)) as [h|] eqn:Hws; [|contradiction].
  set (s1 := on_mgr (set_connected false) s).
  assert (Hrun : on_connection_lost W s = reconnect_call W s1).
  { unfold on_connection_lost. fold s1.
    change (running (mgr s1)) with (running (mgr s)). rewrite Hr. reflexivity. }
  destruct (reconnect_exhausts W (reconnect_fuel s1) s1)
    as (s' & Hrec & _ & Hcc & _).
  { unfold reconnect_fuel. lia. }
  { exact Hfail. }
  destruct (reconnect_flags (reconnect_fuel s1) s1 s' eq_refl Hrec)
    as [Hc' Hr'].
  exists s'. split.
  - assert (Hit : on_connection_lost W s = (Raise ReconnectExhausted, s')).
    { rewrite Hrun. unfold reconnect_call. rewrite Hrec. reflexivity. }
    destruct Hev as [-> | ->]; rewrite Hit; reflexivity.
  - split; [exact Hc'|]. split; [rewrite Hr'; exact Hr|exact Hcc].
Qed.

(** X15: when a running [listen] finds the manager disconnected with
    the reconnection attempts used up, every pass of the loop only
    sleeps one second: the exhaustion error is swallowed, no connect
    call is made, nothing is received, and the manager stays as it is
    for as many passes as one cares to follow. *)
Theorem listen_spins_when_exhausted events : forall s,
  connected (mgr s) = false -> running (mgr s) = true ->
  (max_reconnect_attempts (mgr s) <= reconnect_attempts (mgr s))%nat ->
  exists s',
    listen_loop W events s = (Ok tt, s') /\
    mgr s' = mgr s /\
    slept (env s') = slept (env s) ++ repeat 1%Z (List.length events) /\
    connect_calls (env s') = connect_calls (env s) /\
    wire (env s') = wire (env s).
Proof.
  induction events as [|ev later IH]; intros s Hc Hr Hmax.
  - exists s. split; [reflexivity|]. simpl. rewrite app_nil_r. repeat split.
  - cbn [listen_loop]. rewrite Hr. unfold listen_iteration. rewrite Hc.
    unfold reconnect_call, reconnect_fuel.
    rewrite (reconnect_exhausted_now W _ s Hmax).
    unfold on_other_error. rewrite Hr. unfold sleep, modify.
    set (s1 := on_env _ s).
    destruct (IH s1 Hc Hr Hmax) as (s' & Hrun & Hm & Hsl & Hcc & Hwi).
    exists s'. split; [exact Hrun|]. split; [exact Hm|].
    split; [|split; [exact Hcc|exact Hwi]].
    rewrite Hsl. simpl. rewrite <- app_assoc. reflexivity.
Qed.

End ListenFacts.

(* ------------------------------------------------------------------ *)
(** ** The command handlers *)

Section ServerFacts.
Variable W : World.

(** X16: the market-data command connects before it validates.  On a
    connected manager it makes no connect call and answers with the
    outcome of [subscribe_market_data].  On a disconnected manager whose
    transport does not open it answers with the connection error and
    nothing is registered or sent.  On a disconnected manager whose
    transport opens, a request with an invalid data type is answered
    with the validation error, and yet the manager is left connected,
    the connect call made and the registry as before. *)
Theorem server_market_data_connects_first coin data_types s :
  (connected (mgr s) = true ->
   server_subscribe_market_data W coin data_types s =
     respond (from_manager (subscribe_market_data W coin data_types None)) s) /\
  (connected (mgr s) = false ->
   connect_ok W (connect_calls (env s)) = false ->
   exists s',
     server_subscribe_market_data W coin data_types s =
       (Failure (FromManager ConnectionError), s') /\
     subscriptions (mgr s') = subscriptions (mgr s) /\
     wire (env s') = wire (env s) /\
     connected (mgr s') = false) /\
  (connected (mgr s) = false ->
   connect_ok W (connect_calls (env s)) = true ->
   forall data_type,
     In data_type data_types -> str_in data_type valid_types = false ->
     exists rejected s',
       server_subscribe_market_data W coin data_types s =
         (Failure (FromManager (ValidationError rejected)), s') /\
       str_in rejected valid_types = false /\
       connected (mgr s') = true /\
       connect_calls (env s') = S (connect_calls (env s)) /\
       subscriptions (mgr s') = subscriptions (mgr s)).
Proof.
  unfold server_subscribe_market_data, respond, from_manager, ensure_started.
  split; [|split].
  - intros Hc. unfold bind at 1. rewrite Hc. reflexivity.
  - intros Hc Hfail. unfold bind at 1. rewrite Hc. unfold start.
    rewrite (connect_fail_spec W s Hfail).
    exists (refused s). repeat split.
  - intros Hc Hok data_type Hin Hbad. unfold bind at 1. rewrite Hc.
    unfold start.
    destruct (connect_ok_spec W s Hok) as (s1 & -> & [Hm He]).
    destruct (first_invalid_some data_types data_type Hin Hbad)
      as (rejected & Hfirst & _ & Hbad').
    unfold subscribe_market_data, bind.
    rewrite check_data_types_spec, Hfirst.
    exists rejected, s1. split; [reflexivity|]. split; [exact Hbad'|].
    rewrite Hm, He. repeat split.
Qed.

(** The report of the active-subscriptions command is always a success,
    leaves the state alone, and its three parts agree. *)
Lemma server_report_consistent s :
  exists report,
    server_get_active_subscriptions s = (Success report, s) /\
    report_total_subscriptions report =
      List.length (report_subscriptions report) /\
    report_total_subscriptions report =
      stats_subscriptions (report_connection_stats report).
Proof.
  unfold server_get_active_subscriptions, respond, from_manager, bind,
    get_active_subscriptions, get_connection_stats, get_stats, gets, ret.
  eexists. split; [reflexivity|]. simpl. rewrite length_map.
  split; reflexivity.
Qed.

End ServerFacts.

(** A disconnected manager, a transport that opens, and [bogus]. *)
Lemma server_market_data_connects_first_witness :
  let W := world_up in
  let s := init 0 in
  connected (mgr s) = false /\
  connect_ok W (connect_calls (env s)) = true /\
  In "bogus" ["trades"; "bogus"] /\
  str_in "bogus" valid_types = false /\
  exists rejected s',
    server_subscribe_market_data W "BTC" ["trades"; "bogus"] s =
      (Failure (FromManager (ValidationError rejected)), s') /\
    connected (mgr s') = true.
Proof.
  intros W s.
  assert (H1 : connected (mgr s) = false) by reflexivity.
  assert (H2 : connect_ok W (connect_calls (env s)) = true) by reflexivity.
  assert (H3 : In "bogus" ["trades"; "bogus"]) by (right; left; reflexivity).
  assert (H4 : str_in "bogus" valid_types = false) by reflexivity.
  repeat (split; [assumption|]).
  destruct (proj2 (proj2 (server_market_data_connects_first W "BTC"
                            ["trades"; "bogus"] s)) H1 H2 "bogus" H3 H4)
    as (rejected & s' & Hrun & _ & Hc & _).
  exists rejected, s'. split; [exact Hrun|exact Hc].
Defined.

(* ------------------------------------------------------------------ *)
(** ** A failed re-subscription *)

Section FailedResubscribe.
Variable W : World.

(** X17: a [subscribe] call for an identity that is already registered,
    made while the send fails, raises and leaves the identity without
    any registry entry: the earlier, working registration is lost (a
    later replay of the registry will not include it), while the
    callback list of the identity stays and has grown by the callback
    of the failed call. *)
Theorem failed_resubscribe_drops_registration t p callback sub_data s :
  PyDict.wf (subscriptions (mgr s)) ->
  PyDict.get (sub_id_of W t p) (subscriptions (mgr s)) = Some sub_data ->
  send_succeeds W s = false ->
  let '(r, s') := subscribe W t p callback s in
  r = Raise (SubscriptionError (send_error s)) /\
  PyDict.get (sub_id_of W t p) (subscriptions (mgr s')) = None /\
  List.length (subscriptions (mgr s')) =
    pred (List.length (subscriptions (mgr s))) /\
  handlers_of (sub_id_of W t p) (mgr s') =
    handlers_of (sub_id_of W t p) (mgr s) ++ callback_list callback.
Proof.
  intros Hwf Hget Hs.
  pose proof (subscribe_failure_state W t p callback s Hwf Hs) as H.
  cbv zeta in H.
  destruct (subscribe W t p callback s) as [r s'] eqn:E.
  destruct H as (Hr & Hnone & Hh).
  split; [exact Hr|]. split; [exact Hnone|]. split; [|exact Hh].
  destruct (subscribe_step W t p callback s r s' E)
    as [_ [(_ & Hs' & _)|(_ & _ & Hsubs & _)]]; [congruence|].
  rewrite Hsubs. clear -Hget.
  induction (subscriptions (mgr s)) as [|[k v] rest IH]; [discriminate|].
  simpl in *. destruct (String.eqb (sub_id_of W t p) k) eqn:Ek.
  - simpl. rewrite Ek. reflexivity.
  - simpl. rewrite Ek. simpl. rewrite (IH Hget).
    destruct rest; [discriminate|reflexivity].
Qed.

End FailedResubscribe.

(** A working [trades] registration, then the same call with the
    connection gone. *)
Lemma failed_resubscribe_drops_registration_witness :
  let W := world_up in
  let s := snd (disconnect (snd (subscribe W "trades" btc None (started W)))) in
  let e := mkSub "trades" btc (subscribe_message "trades" btc) None 0 0 in
  PyDict.wf (subscriptions (mgr s)) /\
  PyDict.get (sub_id_of W "trades" btc) (subscriptions (mgr s)) = Some e /\
  send_succeeds W s = false /\
  subscriptions (mgr (snd (subscribe W "trades" btc None s))) = [].
Proof.
  intros W s e.
  assert (H1 : PyDict.wf (subscriptions (mgr s))).
  { vm_compute. repeat constructor. intros []. }
  assert (H2 : PyDict.get (sub_id_of W "trades" btc) (subscriptions (mgr s))
               = Some e) by reflexivity.
  assert (H3 : send_succeeds W s = false) by reflexivity.
  repeat (split; [assumption|]).
  pose proof (failed_resubscribe_drops_registration W "trades" btc None e s
                H1 H2 H3) as H.
  destruct (subscribe W "trades" btc None s) as [r s'].
  destruct H as (_ & _ & Hlen & _). cbn [snd].
  destruct (subscriptions (mgr s')) as [|x l]; [reflexivity|].
  exfalso. revert Hlen. unfold s. vm_compute. discriminate.
Defined.

(* ------------------------------------------------------------------ *)
(** ** Draining the poll queue *)

Section PollOrder.





End PollOrder.

(* ------------------------------------------------------------------ *)
(** ** The hypotheses above at concrete states *)


(** A transport that opens and one that does not, on a fresh manager. *)
Lemma connect_outcomes_witness :
  connect_ok world_up (connect_calls (env (init 0))) = true /\
  (exists s', connect world_up (init 0) = (Ok tt, s') /\
              connected (mgr s') = true) /\
  connect_ok world_down (connect_calls (env (init 0))) = false /\
  (exists s', connect world_down (init 0) = (Raise ConnectionError, s') /\
              connected (mgr s') = false).
Proof.
  assert (H1 : connect_ok world_up (connect_calls (env (init 0))) = true)
    by reflexivity.
  assert (H2 : connect_ok world_down (connect_calls (env (init 0))) = false)
    by reflexivity.
  split; [exact H1|]. split.
  - destruct (proj1 (connect_outcomes world_up (init 0)) H1)
      as (s' & Hrun & Hc & _).
    exists s'. split; [exact Hrun|exact Hc].
  - split; [exact H2|].
    destruct (proj2 (connect_outcomes world_down (init 0)) H2)
      as (s' & Hrun & Hc & _).
    exists s'. split; [exact Hrun|exact Hc].
Defined.

(** Two failed attempts, then a success: delays 1, 2 and 4. *)
Lemma reconnect_recovers_witness :
  let W := world_flaky_connect in
  let s := init 0 in
  (2 < max_reconnect_attempts (mgr s) - reconnect_attempts (mgr s))%nat /\
  (forall i, (i < 2)%nat -> connect_ok W (connect_calls (env s) + i) = false) /\
  connect_ok W (connect_calls (env s) + 2) = true /\
  exists s',
    reconnect W (reconnect_fuel s) s = Some (Ok tt, s') /\
    slept (env s') = [1; 2; 4]%Z /\
    reconnect_attempts (mgr s') = 0%nat.
Proof.
  intros W s.
  assert (H1 : (2 < max_reconnect_attempts (mgr s)
                    - reconnect_attempts (mgr s))%nat) by (simpl; lia).
  assert (H2 : forall i, (i < 2)%nat ->
                         connect_ok W (connect_calls (env s) + i) = false).
  { intros i Hi. destruct i as [|[|i]]; [reflexivity|reflexivity|lia]. }
  assert (H3 : connect_ok W (connect_calls (env s) + 2) = true) by reflexivity.
  repeat (split; [assumption|]).
  destruct (reconnect_recovers W 2 s H1 H2 H3)
    as (s' & Hrun & _ & Ha & _ & Hsl & _).
  exists s'. split; [exact Hrun|]. split; [exact Hsl|exact Ha].
Defined.

(** A registered [trades] subscription, then a disconnect. *)
Lemma disconnect_effect_witness :
  let W := world_up in
  let s := snd (subscribe W "trades" btc None (started W)) in
  let sub_id := sub_id_of W "trades" btc in
  let e := mkSub "trades" btc (subscribe_message "trades" btc) None 0 0 in
  PyDict.get sub_id (subscriptions (mgr s)) = Some e /\
  fst (unsubscribe W sub_id (snd (disconnect s))) = Raise NotConnectedError.
Proof.
  intros W s sub_id e.
  assert (H1 : PyDict.get sub_id (subscriptions (mgr s)) = Some e)
    by reflexivity.
  split; [exact H1|].
  pose proof (disconnect_effect W s) as H.
  destruct (disconnect s) as [r s'].
  destruct H as (_ & _ & _ & _ & _ & _ & _ & _ & _ & Hu & _).
  cbn [snd]. rewrite (Hu sub_id e H1). reflexivity.
Defined.


(** A frame, a timeout, a frame. *)
Lemma listen_handles_in_order_witness :
  let W := world_up in
  let s := started W in
  let f1 := Parsed (JObj [("channel", JStr "trades"); ("n", JInt 1)]) in
  let f2 := Parsed (JObj [("channel", JStr "trades"); ("n", JInt 2)]) in
  let events := [RecvFrame f1; RecvTimeout; RecvFrame f2] in
  connected (mgr s) = true /\ ws (mgr s) <> None /\ quiet events = true /\
  exists s',
    listen W events s = (Ok tt, s') /\
    map item_data (message_queue (mgr s')) =
      [JObj [("channel", JStr "trades"); ("n", JInt 1)];
       JObj [("channel", JStr "trades"); ("n", JInt 2)]].
Proof.
  intros W s f1 f2 events.
  assert (H1 : connected (mgr s) = true) by reflexivity.
  assert (H2 : ws (mgr s) <> None) by discriminate.
  assert (H3 : quiet events = true) by reflexivity.
  repeat (split; [assumption|]).
  eexists. split; [exact (listen_handles_in_order W events s H1 H2 H3)|].
  reflexivity.
Defined.

(** The connection closes and no reconnect goes through. *)
Lemma listen_ends_on_exhaustion_witness :
  let W := world_connect_once in
  let s := on_mgr (set_running true) (started W) in
  (RecvClosed = RecvClosed \/ RecvClosed = RecvWebSocketError) /\
  connected (mgr s) = true /\ ws (mgr s) <> None /\
  running (mgr s) = true /\
  (forall i,
     (i < max_reconnect_attempts (mgr s) - reconnect_attempts (mgr s))%nat ->
     connect_ok W (connect_calls (env s) + i) = false) /\
  exists s',
    listen_loop W [RecvClosed; RecvTimeout] s = (Raise ReconnectExhausted, s') /\
    connect_calls (env s') = 6%nat.
Proof.
  intros W s.
  assert (H0 : RecvClosed = RecvClosed \/ RecvClosed = RecvWebSocketError)
    by (left; reflexivity).
  assert (H1 : connected (mgr s) = true) by reflexivity.
  assert (H2 : ws (mgr s) <> None) by discriminate.
  assert (H3 : running (mgr s) = true) by reflexivity.
  assert (H4 : forall i,
            (i < max_reconnect_attempts (mgr s)
                 - reconnect_attempts (mgr s))%nat ->
            connect_ok W (connect_calls (env s) + i) = false)
    by (intros i _; reflexivity).
  repeat (split; [assumption|]).
  destruct (listen_ends_on_exhaustion W RecvClosed [RecvTimeout] s
              H0 H1 H2 H3 H4) as (s' & Hrun & _ & _ & Hcc).
  exists s'. split; [exact Hrun|exact Hcc].
Defined.

(** A manager whose first listen pass has used up the attempts. *)
Lemma listen_spins_when_exhausted_witness :
  let W := world_down in
  let s := snd (listen W [RecvTimeout] (init 0)) in
  connected (mgr s) = false /\ running (mgr s) = true /\
  (max_reconnect_attempts (mgr s) <= reconnect_attempts (mgr s))%nat /\
  exists s',
    listen_loop W [RecvTimeout; RecvTimeout; RecvTimeout] s = (Ok tt, s') /\
    connect_calls (env s') = connect_calls (env s).
Proof.
  intros W s.
  assert (H1 : connected (mgr s) = false) by reflexivity.
  assert (H2 : running (mgr s) = true) by reflexivity.
  assert (H3 : (max_reconnect_attempts (mgr s)
                <= reconnect_attempts (mgr s))%nat)
    by (vm_compute; repeat constructor).
  repeat (split; [assumption|]).
  destruct (listen_spins_when_exhausted W
              [RecvTimeout; RecvTimeout; RecvTimeout] s H1 H2 H3)
    as (s' & Hrun & _ & _ & Hcc & _).
  exists s'. split; [exact Hrun|exact Hcc].
Defined.

(* ------------------------------------------------------------------ *)
(** ** A market-data call that succeeds *)

Section MarketDataSuccess.
Variable W : World.





End MarketDataSuccess.


(* ------------------------------------------------------------------ *)
(** ** Identities under a hash collision *)

Section Collision.
Variable W : World.

(** X20: the id is built from the kind and the hash of the serialised
    parameters, not from the parameters themselves: when the hashes of
    two parameter sets coincide, two successful [subscribe] calls of the
    same kind return one and the same id, both subscribe messages go on
    the wire, and the registry keeps a single entry under that id, the
    one of the second call. *)
Theorem colliding_params_share_an_entry t p1 p2 cb1 cb2 s :
  PyDict.wf (subscriptions (mgr s)) ->
  py_hash W (normalized p1) = py_hash W (normalized p2) ->
  can_send s = true ->
  send_ok W (send_calls (env s)) = true ->
  send_ok W (S (send_calls (env s))) = true ->
  exists sub_id s1 s2,
    subscribe W t p1 cb1 s = (Ok sub_id, s1) /\
    subscribe W t p2 cb2 s1 = (Ok sub_id, s2) /\
    PyDict.count sub_id (subscriptions (mgr s2)) = 1%nat /\
    option_map sub_params (PyDict.get sub_id (subscriptions (mgr s2))) =
      Some p2 /\
    wire (env s2) =
      wire (env s) ++ [subscribe_message t p1; subscribe_message t p2].
Proof.
  intros Hwf Hhash Hc Hok0 Hok1.
  assert (Hid : sub_id_of W t p2 = sub_id_of W t p1).
  { unfold sub_id_of. unfold normalized in Hhash. rewrite Hhash. reflexivity. }
  assert (Hs : send_succeeds W s = true).
  { unfold send_succeeds. rewrite Hc. exact Hok0. }
  set (sub_id := sub_id_of W t p1).
  set (s1 := sent (subscribe_message t p1) (registered sub_id t p1 cb1 s)).
  assert (Hs1 : send_succeeds W s1 = true).
  { unfold send_succeeds, s1. rewrite can_send_sent, can_send_registered, Hc.
    simpl. unfold registered. destruct cb1; exact Hok1. }
  exists sub_id, s1, (sent (subscribe_message t p2)
                        (registered sub_id t p2 cb2 s1)).
  split; [exact (subscribe_ok W t p1 cb1 s Hs)|].
  split; [rewrite (subscribe_ok W t p2 cb2 s1 Hs1), Hid; reflexivity|].
  assert (Hsubs : subscriptions
                    (mgr (sent (subscribe_message t p2)
                            (registered sub_id t p2 cb2 s1))) =
            PyDict.set sub_id
              (mkSub t p2 (subscribe_message t p2) cb2 0 (clock (env s1)))
              (PyDict.set sub_id
                 (mkSub t p1 (subscribe_message t p1) cb1 0 (clock (env s)))
                 (subscriptions (mgr s)))).
  { change (subscriptions (mgr (sent ?m ?st))) with (subscriptions (mgr st)).
    rewrite subscriptions_registered. unfold s1.
    change (subscriptions (mgr (sent ?m ?st))) with (subscriptions (mgr st)).
    rewrite subscriptions_registered. reflexivity. }
  split; [|split].
  - rewrite Hsubs. rewrite PyDictFacts.count_get
      by (apply PyDictFacts.wf_set, PyDictFacts.wf_set; exact Hwf).
    rewrite PyDictFacts.get_set_same. reflexivity.
  - rewrite Hsubs, PyDictFacts.get_set_same. reflexivity.
  - unfold s1, registered. destruct cb1, cb2; simpl;
      rewrite <- app_assoc; reflexivity.
Qed.

End Collision.

(** A world whose [hash] is constant: every two parameter sets collide. *)
Lemma colliding_params_share_an_entry_witness :
  let W := mkWorld (fun _ => 7%Z) (fun _ => true) (fun _ => true) in
  let s := started W in
  PyDict.wf (subscriptions (mgr s)) /\
  py_hash W (normalized btc) = py_hash W (normalized eth) /\
  can_send s = true /\
  send_ok W (send_calls (env s)) = true /\
  send_ok W (S (send_calls (env s))) = true /\
  exists sub_id s1 s2,
    subscribe W "trades" btc None s = (Ok sub_id, s1) /\
    subscribe W "trades" eth None s1 = (Ok sub_id, s2) /\
    option_map sub_params (PyDict.get sub_id (subscriptions (mgr s2))) =
      Some eth.
Proof.
  intros W s.
  assert (H1 : PyDict.wf (subscriptions (mgr s))) by constructor.
  assert (H2 : py_hash W (normalized btc) = py_hash W (normalized eth))
    by reflexivity.
  assert (H3 : can_send s = true) by reflexivity.
  assert (H4 : send_ok W (send_calls (env s)) = true) by reflexivity.
  assert (H5 : send_ok W (S (send_calls (env s))) = true) by reflexivity.
  repeat (split; [assumption|]).
  destruct (colliding_params_share_an_entry W "trades" btc eth None None s
              H1 H2 H3 H4 H5) as (sub_id & s1 & s2 & Ha & Hb & _ & Hp & _).
  exists sub_id, s1, s2. split; [exact Ha|]. split; [exact Hb|exact Hp].
Defined.

(* ------------------------------------------------------------------ *)
(** ** What handling a frame never does *)

(** X21: whatever the frame, [_handle_message] neither adds nor removes
    nor reorders registry entries and changes nothing of an entry but
    its counter, by at most one; it leaves the callback table, the
    connection, the wire and the count of sent messages untouched. *)
Theorem handle_message_changes_only_counters message s :
  let s' := snd (_handle_message message s) in
  Forall2 (fun old new : string * Subscription =>
             fst new = fst old /\
             sub_type (snd new) = sub_type (snd old) /\
             sub_params (snd new) = sub_params (snd old) /\
             sub_message (snd new) = sub_message (snd old) /\
             sub_callback (snd new) = sub_callback (snd old) /\
             sub_subscribed_at (snd new) = sub_subscribed_at (snd old) /\
             (sub_messages_received (snd new) = sub_messages_received (snd old)
              \/ sub_messages_received (snd new)
                 = S (sub_messages_received (snd old))))
          (subscriptions (mgr s)) (subscriptions (mgr s')) /\
  message_handlers (mgr s') = message_handlers (mgr s) /\
  connected (mgr s') = connected (mgr s) /\
  ws (mgr s') = ws (mgr s) /\
  running (mgr s') = running (mgr s) /\
  wire (env s') = wire (env s) /\
  messages_sent (stats (mgr s')) = messages_sent (stats (mgr s)).
Proof.
  cbv zeta. rewrite handle_message_eq. cbn [snd].
  destruct (handled_connection message s) as (Hc & Hw & Hr).
  destruct (handled_counts message s) as (_ & Hs & Hwi).
  split; [|repeat split; try assumption; apply handlers_handled].
  rewrite subscriptions_handled.
  induction (subscriptions (mgr s)) as [|[k e] rest IH]; simpl.
  - constructor.
  - constructor; [|exact IH]. unfold deliver. simpl.
    destruct (delivers message e); simpl; repeat split; auto.
Qed.
